(** * AO3 session layer: a shallow embedding of [AO3/session.py]

    The development follows the Python module top-down: the string and
    document-tree operations the module calls, the entity handles it
    builds, the session object with its transport, the login and token
    refresh, the cached page counts, the listing loaders and the
    aggregate getters.  Statements about the behaviour of the module come
    after the definitions. *)

From Stdlib Require Import ZArith List String Ascii Lia Bool.
From stdpp Require Import base option list strings gmap pretty.

Open Scope Z_scope.
Open Scope string_scope.
Open Scope list_scope.

Set Warnings "-register-all".

(** ** Python [str] operations

    A [string] is read as a sequence of code points below 256, which is
    enough to tell apart the characters the Python predicates used by the
    module distinguish in that range. *)

Module Py.

Definition code (c : ascii) : N := N_of_ascii c.

Definition is_decimal (c : ascii) : bool :=
  ((48 <=? code c) && (code c <=? 57))%N.

(** [str.isdigit] holds of the decimal digits and also of the
    superscript digits U+00B2, U+00B3 and U+00B9. *)
Definition char_isdigit (c : ascii) : bool :=
  is_decimal c
  || (code c =? 178)%N || (code c =? 179)%N || (code c =? 185)%N.

Definition char_isspace (c : ascii) : bool :=
  ((9 <=? code c) && (code c <=? 13))%N
  || ((28 <=? code c) && (code c <=? 32))%N
  || (code c =? 133)%N || (code c =? 160)%N.

Definition chars (s : string) : list ascii := list_ascii_of_string s.
Definition str (l : list ascii) : string := string_of_list_ascii l.

(** [s.isdigit()]: every character is a digit and there is at least
    one. *)
Definition isdigit (s : string) : bool :=
  match chars s with
  | [] => false
  | l => forallb char_isdigit l
  end.

Definition digit_value (c : ascii) : Z := Z.of_N (code c) - 48.

(** The digits of an integer literal: decimal digits, with single
    underscores allowed between two digits. *)
Fixpoint literal_value (acc : Z) (after_digit : bool) (l : list ascii)
  : option Z :=
  match l with
  | [] => if after_digit then Some acc else None
  | c :: l' =>
      if is_decimal c then literal_value (10 * acc + digit_value c) true l'
      else if Ascii.eqb c "_" && after_digit then literal_value acc false l'
      else None
  end.

(** The characters [int()] skips around a literal: the ASCII white
    space, and U+0085 and U+00A0, which the conversion replaces by a
    space before it reads the literal.  The separators U+001C to U+001F
    are white space for [str.split] and [str.isspace] but are not
    skipped here. *)
Definition char_isblank (c : ascii) : bool :=
  ((9 <=? code c) && (code c <=? 13))%N
  || (code c =? 32)%N || (code c =? 133)%N || (code c =? 160)%N.

Fixpoint lstrip (l : list ascii) : list ascii :=
  match l with
  | c :: l' => if char_isblank c then lstrip l' else l
  | [] => []
  end.

Definition strip (l : list ascii) : list ascii :=
  rev (lstrip (rev (lstrip l))).

(** [int(s)] in base ten; [None] stands for [ValueError].  The
    interpreter's limit on the number of digits of a literal
    ([sys.set_int_max_str_digits]) is a setting of the interpreter and
    is left out. *)
Definition int (s : string) : option Z :=
  match strip (chars s) with
  | c :: l =>
      if Ascii.eqb c "-" then Z.opp <$> literal_value 0 false l
      else if Ascii.eqb c "+" then literal_value 0 false l
      else literal_value 0 false (c :: l)
  | [] => None
  end.

(** [s.startswith(p)] *)
Definition startswith (s p : string) : bool := String.prefix p s.

(** [p in s] for two strings. *)
Fixpoint contains (p s : string) : bool :=
  String.prefix p s
  || match s with
     | EmptyString => false
     | String _ s' => contains p s'
     end.

(** [s.split(sep)[-1]] for a one-character separator: the part after
    the last separator, the whole string when there is none. *)
Definition last_segment (sep : ascii) (s : string) : string :=
  str (fold_left (fun cur c => if Ascii.eqb c sep then [] else cur ++ [c])
                 (chars s) []).

(** The runs of non-whitespace characters of a string, in order. *)
Fixpoint words_go (cur : list ascii) (l : list ascii) : list string :=
  match l with
  | [] => match cur with [] => [] | _ => [str cur] end
  | c :: l' =>
      if char_isspace c
      then match cur with
           | [] => words_go [] l'
           | _ => str cur :: words_go [] l'
           end
      else words_go (cur ++ [c]) l'
  end.

Definition words (s : string) : list string := words_go [] (chars s).

(** [sep.join(l)] *)
Definition join (sep : string) (l : list string) : string :=
  String.concat sep l.

End Py.

(** ** The document tree built by the HTML parser

    [BeautifulSoup(req.content, "lxml")] is kept as the tree it builds:
    tags with their attributes as written in the markup and their
    children, and text leaves. *)

Inductive Node : Type :=
| Tag (name : string) (attrs : list (string * string)) (children : list Node)
| NavigableString (text : string).

Module Soup.

(** An attribute value as the tree presents it: a plain string, or a
    list of tokens for the attributes the parser treats as
    multi-valued. *)
Inductive AttrValue : Type :=
| AStr (s : string)
| AList (l : list string).

Definition str_in (x : string) (l : list string) : bool :=
  existsb (String.eqb x) l.

Definition multi_valued (tag attr : string) : bool :=
  str_in attr ["class"; "accesskey"; "dropzone"]
  || (str_in tag ["a"; "link"] && str_in attr ["rel"; "rev"])
  || (str_in tag ["td"; "th"] && String.eqb attr "headers")
  || (String.eqb tag "form" && String.eqb attr "accept-charset")
  || (String.eqb tag "object" && String.eqb attr "archive")
  || (String.eqb tag "area" && String.eqb attr "rel")
  || (String.eqb tag "icon" && String.eqb attr "sizes")
  || (String.eqb tag "iframe" && String.eqb attr "sandbox")
  || (String.eqb tag "output" && String.eqb attr "for").

Fixpoint assoc (k : string) (l : list (string * string)) : option string :=
  match l with
  | [] => None
  | (k', v) :: l' => if String.eqb k k' then Some v else assoc k l'
  end.

Definition tag_attrs (n : Node) : list (string * string) :=
  match n with
  | Tag _ attrs _ => attrs
  | NavigableString _ => []
  end.

Definition tag_name (n : Node) : string :=
  match n with
  | Tag name _ _ => name
  | NavigableString _ => ""
  end.

(** [k in tag.attrs.keys()] *)
Definition has_attr (n : Node) (k : string) : bool :=
  match assoc k (tag_attrs n) with Some _ => true | None => false end.

(** [tag[k]] when it is present, in the form the tree holds it. *)
(** [tag[k]] for an attribute that no tag holds as a token list
    ([href], [value]): the string as written. *)
Definition getitem_str (n : Node) (k : string) : option string :=
  assoc k (tag_attrs n).

Definition getitem (n : Node) (k : string) : option AttrValue :=
  match assoc k (tag_attrs n) with
  | Some raw =>
      Some (if multi_valued (tag_name n) k
            then AList (Py.words raw) else AStr raw)
  | None => None
  end.

(** [x in tag[k]]: membership in a token list, substring of a string. *)
Definition value_contains (x : string) (v : AttrValue) : bool :=
  match v with
  | AList l => str_in x l
  | AStr s => Py.contains x s
  end.

(** Matching an attribute value against a string filter: a token list
    matches when one token is the filter or when the tokens joined by
    single spaces are the filter. *)
Definition value_matches (v : AttrValue) (want : string) : bool :=
  match v with
  | AStr s => String.eqb s want
  | AList l => str_in want l || String.eqb (Py.join " " l) want
  end.

Definition matches (name : string) (want : list (string * string))
           (n : Node) : bool :=
  match n with
  | Tag nm _ _ =>
      String.eqb nm name
      && forallb (fun kw =>
                    match getitem n (fst kw) with
                    | Some v => value_matches v (snd kw)
                    | None => false
                    end) want
  | NavigableString _ => false
  end.

(** All nodes below [n], in document order. *)
Fixpoint descendants (n : Node) : list Node :=
  match n with
  | Tag _ _ cs => flat_map (fun c => c :: descendants c) cs
  | NavigableString _ => []
  end.

Definition find_all (name : string) (want : list (string * string))
           (n : Node) : list Node :=
  List.filter (matches name want) (descendants n).

Definition find (name : string) (want : list (string * string))
           (n : Node) : option Node :=
  head (find_all name want n).

(** [tag.getText()]: all text below the tag, concatenated. *)
Fixpoint getText (n : Node) : string :=
  match n with
  | NavigableString s => s
  | Tag _ _ cs => String.concat "" (map getText cs)
  end.

(** [tag.string]: the text of a tag with a single child, looked up
    through single-child tags; [None] otherwise. *)
Fixpoint string_of (n : Node) : option string :=
  match n with
  | NavigableString s => Some s
  | Tag _ _ [c] => string_of c
  | Tag _ _ _ => None
  end.

End Soup.

(** ** Entity handles

    The classes [User], [Work] and [Series] live in other modules; the
    session builds them unloaded ([load=False]) and then sets display
    attributes on them. *)

(** Modelled from the spec: [User(name, load=False)] of [AO3/users.py],
    an unloaded handle that carries only the name it was built from.  The
    name is what [a.string] gave, which may be [None]. *)
Record User : Type := mkUser { user_username : option string }.

(** Modelled from the spec: [Work(id, load=False)] of [AO3/works.py], an
    unloaded handle carrying the identifier it was built from; [title] and
    [authors] are the attributes the session sets with [setattr]. *)
Record Work : Type := mkWork {
  work_id : option Z;
  work_title : option string;
  work_authors : list User
}.

(** Modelled from the spec: [Series(id, load=False)] of [AO3/series.py],
    with the [name] and [authors] attributes the session sets. *)
Record Series : Type := mkSeries {
  series_id : option Z;
  series_name : option string;
  series_authors : list User
}.

(** What the subscriptions list holds. *)
Inductive Entity : Type :=
| EWork (w : Work)
| ESeries (s : Series)
| EUser (u : User).

(** Modelled from the spec: the equality operator of [Work], the
    "identity equality" used for bookmark deduplication: two handles are
    equal when their identifiers are. *)
Definition Work_eq (a b : Work) : bool :=
  bool_decide (work_id a = work_id b).

(** [isinstance(obj, Work)], [isinstance(obj, Series)],
    [isinstance(obj, User)] *)
Definition isinstance_Work (e : Entity) : bool :=
  match e with EWork _ => true | _ => false end.
Definition isinstance_Series (e : Entity) : bool :=
  match e with ESeries _ => true | _ => false end.
Definition isinstance_User (e : Entity) : bool :=
  match e with EUser _ => true | _ => false end.

(** ** Exceptions and results *)

Inductive Exn : Type :=
| HTTPError                 (* utils.HTTPError: rate limited *)
| UnexpectedResponseError   (* utils.UnexpectedResponseError *)
| LoginError                (* utils.LoginError *)
| TypeError
| AttributeError
| KeyError
| ValueError
| UnboundLocalError.

Inductive Result (A : Type) : Type :=
| Ok (a : A)
| Raise (e : Exn).
Arguments Ok {A} a.
Arguments Raise {A} e.

(** ** The network

    A request as the transport sends it, and the remote site as a
    function from the requests it has seen so far and the incoming one
    to its response. *)

Inductive Method : Type := GET | POST.

(** The [requests.Session] object a session owns. *)
Inductive Transport : Type := RequestsSession.

Record Request : Type := mkRequest {
  req_method : Method;
  req_url : string;
  req_params : list (string * string);
  req_allow_redirects : bool;
  req_session : option Transport
}.

Record Response : Type := mkResponse {
  status_code : Z;
  content : Node
}.

Definition Server : Type := list Request -> Request -> Response.

(** ** The session object *)

Record Session : Type := mkSession {
  is_authed : bool;
  authenticity_token : option string;
  username : string;
  session : option Transport;
  url : option string;
  _bookmarks : option (list Work);
  _subscriptions : option (list Entity);
  (** the slots of the instance [__dict__] that hold computed
      [cached_property] values, by attribute name *)
  cached : gmap string Z
}.

Definition set_is_authed (v : bool) (s : Session) : Session :=
  mkSession v (authenticity_token s) (username s) (session s) (url s)
            (_bookmarks s) (_subscriptions s) (cached s).
Definition set_authenticity_token (v : option string) (s : Session) : Session :=
  mkSession (is_authed s) v (username s) (session s) (url s)
            (_bookmarks s) (_subscriptions s) (cached s).
Definition set_username (v : string) (s : Session) : Session :=
  mkSession (is_authed s) (authenticity_token s) v (session s) (url s)
            (_bookmarks s) (_subscriptions s) (cached s).
Definition set_session (v : option Transport) (s : Session) : Session :=
  mkSession (is_authed s) (authenticity_token s) (username s) v (url s)
            (_bookmarks s) (_subscriptions s) (cached s).
Definition set_url (v : option string) (s : Session) : Session :=
  mkSession (is_authed s) (authenticity_token s) (username s) (session s) v
            (_bookmarks s) (_subscriptions s) (cached s).
Definition set_bookmarks (v : option (list Work)) (s : Session) : Session :=
  mkSession (is_authed s) (authenticity_token s) (username s) (session s)
            (url s) v (_subscriptions s) (cached s).
Definition set_subscriptions (v : option (list Entity)) (s : Session) : Session :=
  mkSession (is_authed s) (authenticity_token s) (username s) (session s)
            (url s) (_bookmarks s) v (cached s).
Definition set_cached (v : gmap string Z) (s : Session) : Session :=
  mkSession (is_authed s) (authenticity_token s) (username s) (session s)
            (url s) (_bookmarks s) (_subscriptions s) v.

(** ** Computations: a session object, the requests sent so far, and a
    result or a raised exception.  A raised exception keeps the
    mutations made before it. *)

Record World : Type := mkWorld {
  self : Session;
  sent : list Request
}.

Definition M (A : Type) : Type := World -> Result A * World.

Definition ret {A} (a : A) : M A := fun w => (Ok a, w).

Definition raise {A} (e : Exn) : M A := fun w => (Raise e, w).

Definition bind {A B} (c : M A) (k : A -> M B) : M B :=
  fun w =>
    match c w with
    | (Ok a, w') => k a w'
    | (Raise e, w') => (Raise e, w')
    end.

Notation "'do' x <- c ; k" := (bind c (fun x => k))
  (at level 10, x name, c at level 100, k at level 200).
Notation "'run' c ; k" := (bind c (fun _ => k))
  (at level 10, c at level 100, k at level 200).

Definition lift {A} (r : Result A) : M A := fun w => (r, w).

Definition get_self : M Session := fun w => (Ok (self w), w).

Definition modify (f : Session -> Session) : M unit :=
  fun w => (Ok tt, mkWorld (f (self w)) (sent w)).

(** [for x in xs: body(x)] *)
Fixpoint for_each {A} (xs : list A) (body : A -> M unit) : M unit :=
  match xs with
  | [] => ret tt
  | x :: xs' => run body x; for_each xs' body
  end.

(** A loop over [xs] that threads the local variables [st] through a body
    that may raise without touching the session. *)
Fixpoint fold_result {A L} (body : A -> L -> Result L) (xs : list A) (st : L)
  : Result L :=
  match xs with
  | [] => Ok st
  | x :: xs' =>
      match body x st with
      | Ok st' => fold_result body xs' st'
      | Raise e => Raise e
      end
  end.

(** A loop that threads local variables through a body that acts on the
    session. *)
Fixpoint fold_M {A L} (body : A -> L -> M L) (xs : list A) (st : L) : M L :=
  match xs with
  | [] => ret st
  | x :: xs' => do st' <- body x st; fold_M body xs' st'
  end.

(** [range(n)] *)
Definition range (n : Z) : list Z := map Z.of_nat (seq 0 (Z.to_nat n)).

(** ** URLs *)

Definition root_url : string := "https://archiveofourown.org".
Definition login_url : string := "https://archiveofourown.org/users/login".

(** [f"https://archiveofourown.org/users/{self.username}"] *)
Definition profile_url (name : string) : string :=
  "https://archiveofourown.org/users/" +:+ name.

(** [self._subscriptions_url.format(self.username, page)] and
    [self._bookmarks_url.format(self.username, page)]: the two templates
    are set once by the constructor and never reassigned. *)
Definition _subscriptions_url (name : string) (page : Z) : string :=
  "https://archiveofourown.org/users/" +:+ name +:+ "/subscriptions?page="
  +:+ pretty page.
Definition _bookmarks_url (name : string) (page : Z) : string :=
  "https://archiveofourown.org/users/" +:+ name +:+ "/bookmarks?page="
  +:+ pretty page.

(** ** The class dictionary of [Session], as [clear_cache] scans it *)

Inductive ClassAttr : Type :=
| PlainAttr | Function | StaticMethod | CachedProperty.

Definition Session_class_dict : list (string * ClassAttr) :=
  [ ("__module__", PlainAttr); ("__doc__", PlainAttr);
    ("__init__", Function); ("clear_cache", Function);
    ("_subscription_pages", CachedProperty);
    ("get_work_subscriptions", Function);
    ("get_series_subscriptions", Function);
    ("get_user_subscriptions", Function);
    ("get_subscriptions", Function);
    ("load_subscriptions_threaded", Function);
    ("_load_subscriptions", Function);
    ("_bookmark_pages", CachedProperty);
    ("get_bookmarks", Function);
    ("load_bookmarks_threaded", Function);
    ("_load_bookmarks", Function);
    ("bookmarks", CachedProperty);
    ("str_format", StaticMethod) ].

Definition is_cached_property (k : ClassAttr) : bool :=
  match k with CachedProperty => true | _ => false end.

(** ** Local variables of the two listing loops *)

(** [type_] of the subscriptions loop; the ["user"] tag carries the
    [user] variable, which the loop assigns in the same branch and
    nowhere else. *)
Inductive SubType : Type :=
| type_work
| type_user (user : User)
| type_series.

Record SubLocals : Type := mkSubLocals {
  sub_type : SubType;
  sub_series : option Z;
  sub_workid : option Z;
  sub_workname : option string;
  sub_authors : list User
}.

(** The variables of the bookmarks loop.  [workname] and [workid] are
    assigned only inside a branch, so each is unbound ([None]) until that
    branch has run once in the call; [authors] is reset for each entry. *)
Record BmLocals : Type := mkBmLocals {
  bm_workname : option (option string);
  bm_workid : option (option Z);
  bm_authors : list User
}.

(** ** The methods of [GuestSession] and [Session] *)

Section Methods.

(** The remote site. *)
Variable server : Server.

(** [utils.workid_from_url], taken as a function that returns an
    identifier or [None] and does not raise. *)
Variable workid_from_url : string -> option Z.

(** The worker threads of the two threaded loaders, started for the
    pages [1..n] and joined: what their interleaved runs do to the
    session is left open. *)
Variable subscription_threads : Z -> M unit.
Variable bookmark_threads : Z -> M unit.

(** One exchange with the site. *)
Definition send (rq : Request) : M Response :=
  fun w => (Ok (server (sent w) rq), mkWorld (self w) (sent w ++ [rq])).

(** [GuestSession.get] *)
Definition get (u : string) : M Response :=
  do s <- get_self;
  do req <- match session s with
            | None => send (mkRequest GET u [] true None)
            | Some t => send (mkRequest GET u [] true (Some t))
            end;
  if (status_code req =? 429)%Z then raise HTTPError else ret req.

(** [GuestSession.request] *)
Definition request (u : string) : M Node :=
  do req <- get u;
  ret (content req).

(** [GuestSession.post] *)
Definition post (u : string) (params : list (string * string))
           (allow_redirects : bool) : M Response :=
  do s <- get_self;
  match session s with
  | None => raise AttributeError
  | Some t =>
      do req <- send (mkRequest POST u params allow_redirects (Some t));
      if (status_code req =? 429)%Z then raise HTTPError else ret req
  end.

(** [GuestSession.refresh_auth_token] *)
Definition refresh_auth_token : M unit :=
  do s <- get_self;
  match session s with
  | None => raise AttributeError
  | Some t =>
      do req <- send (mkRequest GET
                        (if is_authed s then profile_url (username s)
                         else root_url)
                        [] true (Some t));
      if (status_code req =? 429)%Z then raise HTTPError
      else
        match Soup.find "input" [("name", "authenticity_token")] (content req) with
        | None => raise UnexpectedResponseError
        | Some token =>
            match Soup.getitem_str token "value" with
            | None => raise KeyError
            | Some v => modify (set_authenticity_token (Some v))
            end
        end
  end.

(** [GuestSession.__init__] *)
Definition GuestSession_init : Session :=
  mkSession false None "" (Some RequestsSession) None None None ∅.

(** [Session.__init__], run on the object that [super().__init__()]
    has set up. *)
Definition Session_init (name password : string) : M unit :=
  run modify (set_is_authed true);
  run modify (set_username name);
  run modify (set_url (Some (profile_url name)));
  run modify (set_session (Some RequestsSession));
  do soup <- request login_url;
  do token <- match Soup.find "input" [("name", "authenticity_token")] soup with
              | None => raise TypeError
              | Some field =>
                  match Soup.getitem_str field "value" with
                  | None => raise KeyError
                  | Some v => ret v
                  end
              end;
  run modify (set_authenticity_token (Some token));
  do resp <- post login_url
                  [("user[login]", name); ("user[password]", password);
                   ("authenticity_token", token)]
                  false;
  if negb (status_code resp =? 302)%Z then raise LoginError
  else
    run modify (set_bookmarks None);
    modify (set_subscriptions None).

(** [Session(username, password)]: the new object when the constructor
    returns, the exception when it raises; either way the requests
    sent. *)
Definition Session_new (name password : string) (net : list Request)
  : Result Session * list Request :=
  match Session_init name password (mkWorld GuestSession_init net) with
  | (Ok _, w) => (Ok (self w), sent w)
  | (Raise e, w) => (Raise e, sent w)
  end.

(** [Session.clear_cache] *)
Definition clear_cache : M unit :=
  run for_each Session_class_dict (fun entry =>
        if is_cached_property (snd entry) then
          do s <- get_self;
          match cached s !! fst entry with
          | Some _ => modify (fun s => set_cached (delete (fst entry) (cached s)) s)
          | None => ret tt
          end
        else ret tt);
  run modify (set_bookmarks None);
  modify (set_subscriptions None).

(** The [cached_property] protocol: the stored value when the instance
    has one, else the body's value, stored before it is returned. *)
Definition cached_property (name : string) (body : M Z) : M Z :=
  do s <- get_self;
  match cached s !! name with
  | Some v => ret v
  | None =>
      do v <- body;
      run modify (fun s => set_cached (<[name := v]> (cached s)) s);
      ret v
  end.

(** The scan of the pagination control shared by the two page-count
    properties. *)
Definition pagination_pages (soup : Node) : Result Z :=
  match Soup.find "ol" [("title", "pagination")] soup with
  | None => Ok 1
  | Some pages =>
      fold_result
        (fun li n =>
           let text := Soup.getText li in
           if Py.isdigit text then
             match Py.int text with
             | Some v => Ok v
             | None => Raise ValueError
             end
           else Ok n)
        (Soup.find_all "li" [] pages) 1
  end.

(** [Session._subscription_pages] *)
Definition _subscription_pages : M Z :=
  cached_property "_subscription_pages"
    (do s <- get_self;
     do soup <- request (_subscriptions_url (username s) 1);
     lift (pagination_pages soup)).

(** [Session._bookmark_pages] *)
Definition _bookmark_pages : M Z :=
  cached_property "_bookmark_pages"
    (do s <- get_self;
     do soup <- request (_bookmarks_url (username s) 1);
     lift (pagination_pages soup)).

(** The body of the loop over the links of one subscription entry. *)
Definition subscription_link (a : Node) (st : SubLocals) : Result SubLocals :=
  if Soup.has_attr a "rel" then
    match Soup.getitem a "rel" with
    | None => Raise KeyError
    | Some rel =>
        if Soup.value_contains "author" rel
        then Ok (mkSubLocals (sub_type st) (sub_series st) (sub_workid st)
                   (sub_workname st)
                   (sub_authors st ++ [mkUser (Soup.string_of a)]))
        else Ok st
    end
  else
    match Soup.getitem_str a "href" with
    | None => Raise KeyError
    | Some href =>
        if Py.startswith href "/works" then
          Ok (mkSubLocals (sub_type st) (sub_series st)
                (workid_from_url href) (Soup.string_of a) (sub_authors st))
        else if Py.startswith href "/users" then
          Ok (mkSubLocals (type_user (mkUser (Soup.string_of a)))
                (sub_series st) (sub_workid st) (sub_workname st)
                (sub_authors st))
        else
          match Py.int (Py.last_segment "/" href) with
          | None => Raise ValueError
          | Some n =>
              Ok (mkSubLocals type_series (Some n) (sub_workid st)
                    (Soup.string_of a) (sub_authors st))
          end
    end.

Definition sub_locals_init : SubLocals :=
  mkSubLocals type_work None None None [].

(** The object built from one [dt] of the subscriptions listing. *)
Definition subscription_entry (sub : Node) : Result Entity :=
  match fold_result subscription_link (Soup.find_all "a" [] sub)
                    sub_locals_init with
  | Raise e => Raise e
  | Ok st =>
      Ok match sub_type st with
         | type_work =>
             EWork (mkWork (sub_workid st) (sub_workname st) (sub_authors st))
         | type_user user => EUser user
         | type_series =>
             ESeries (mkSeries (sub_series st) (sub_workname st)
                        (sub_authors st))
         end
  end.

(** [self._subscriptions.append(new)] *)
Definition append_subscription (new : Entity) : M unit :=
  do s <- get_self;
  match _subscriptions s with
  | None => raise AttributeError
  | Some l => modify (set_subscriptions (Some (l ++ [new])))
  end.

(** [Session._load_subscriptions], called directly (not threaded). *)
Definition _load_subscriptions (page : Z) : M unit :=
  do s <- get_self;
  do soup <- request (_subscriptions_url (username s) page);
  match Soup.find "dl" [("class", "subscription index group")] soup with
  | None => raise AttributeError
  | Some subscriptions =>
      for_each (Soup.find_all "dt" [] subscriptions) (fun sub =>
        do new <- lift (subscription_entry sub);
        append_subscription new)
  end.

(** [Session.load_subscriptions_threaded], called directly. *)
Definition load_subscriptions_threaded : M unit :=
  run modify (set_subscriptions (Some []));
  do n <- _subscription_pages;
  subscription_threads n.

(** [Session.get_subscriptions] *)
Definition get_subscriptions (use_threading : bool)
  : M (option (list Entity)) :=
  do s <- get_self;
  run match _subscriptions s with
      | None =>
          if use_threading then load_subscriptions_threaded
          else
            run modify (set_subscriptions (Some []));
            do n <- _subscription_pages;
            for_each (range n) (fun page => _load_subscriptions (page + 1))
      | Some _ => ret tt
      end;
  do s' <- get_self;
  ret (_subscriptions s').

(** [list(filter(pred, subs))], where [subs] may be [None]. *)
Definition filtered (pred : Entity -> bool) (subs : option (list Entity))
  : M (list Entity) :=
  match subs with
  | None => raise TypeError
  | Some l => ret (List.filter pred l)
  end.

(** [Session.get_work_subscriptions] *)
Definition get_work_subscriptions (use_threading : bool) : M (list Entity) :=
  do subs <- get_subscriptions use_threading;
  filtered isinstance_Work subs.

(** [Session.get_series_subscriptions] *)
Definition get_series_subscriptions (use_threading : bool) : M (list Entity) :=
  do subs <- get_subscriptions use_threading;
  filtered isinstance_Series subs.

(** [Session.get_user_subscriptions] *)
Definition get_user_subscriptions (use_threading : bool) : M (list Entity) :=
  do subs <- get_subscriptions use_threading;
  filtered isinstance_User subs.

(** The body of the loop over the links of one bookmark heading. *)
Definition bookmark_link (a : Node) (st : BmLocals) : Result BmLocals :=
  if Soup.has_attr a "rel" then
    match Soup.getitem a "rel" with
    | None => Raise KeyError
    | Some rel =>
        if Soup.value_contains "author" rel
        then Ok (mkBmLocals (bm_workname st) (bm_workid st)
                   (bm_authors st ++ [mkUser (Soup.string_of a)]))
        else Ok st
    end
  else
    match Soup.getitem_str a "href" with
    | None => Raise KeyError
    | Some href =>
        if Py.startswith href "/works" then
          Ok (mkBmLocals (Some (Soup.string_of a))
                (Some (workid_from_url href)) (bm_authors st))
        else Ok st
    end.

(** The object built from one bookmark blurb, and the variables left
    for the next one. *)
Definition bookmark_entry (bookm : Node) (st : BmLocals)
  : Result (Work * BmLocals) :=
  match Soup.find "h4" [] bookm with
  | None => Raise AttributeError
  | Some h4 =>
      match fold_result bookmark_link (Soup.find_all "a" [] h4)
              (mkBmLocals (bm_workname st) (bm_workid st) []) with
      | Raise e => Raise e
      | Ok st' =>
          match bm_workid st', bm_workname st' with
          | Some workid, Some workname =>
              Ok (mkWork workid workname (bm_authors st'), st')
          | _, _ => Raise UnboundLocalError
          end
      end
  end.

(** [if new not in self._bookmarks: self._bookmarks.append(new)] *)
Definition append_bookmark (new : Work) : M unit :=
  do s <- get_self;
  match _bookmarks s with
  | None => raise TypeError
  | Some l =>
      if negb (existsb (fun item => Work_eq item new) l)
      then modify (set_bookmarks (Some (l ++ [new])))
      else ret tt
  end.

Definition bm_locals_init : BmLocals := mkBmLocals None None [].

(** [Session._load_bookmarks], called directly (not threaded). *)
Definition _load_bookmarks (page : Z) : M unit :=
  do s <- get_self;
  do soup <- request (_bookmarks_url (username s) page);
  match Soup.find "ol" [("class", "bookmark index group")] soup with
  | None => raise AttributeError
  | Some bookmarks =>
      run fold_M
            (fun bookm st =>
               do r <- lift (bookmark_entry bookm st);
               run append_bookmark (fst r);
               ret (snd r))
            (Soup.find_all "li" [("class", "bookmark blurb group")] bookmarks)
            bm_locals_init;
      ret tt
  end.

(** [Session.load_bookmarks_threaded], called directly. *)
Definition load_bookmarks_threaded : M unit :=
  run modify (set_bookmarks (Some []));
  do n <- _bookmark_pages;
  bookmark_threads n.

(** [Session.get_bookmarks] *)
Definition get_bookmarks (use_threading : bool) : M (option (list Work)) :=
  do s <- get_self;
  run match _bookmarks s with
      | None =>
          if use_threading then load_bookmarks_threaded
          else
            run modify (set_bookmarks (Some []));
            do n <- _bookmark_pages;
            for_each (range n) (fun page => _load_bookmarks (page + 1))
      | Some _ => ret tt
      end;
  do s' <- get_self;
  ret (_bookmarks s').

End Methods.

(** ** Example sessions, pages and sites used to exercise the methods *)

Module Fixtures.

Definition document (body : list Node) : Node :=
  Tag "[document]" [] [Tag "html" [] [Tag "body" [] body]].

Definition token_field (v : string) : Node :=
  Tag "input" [("type", "hidden"); ("name", "authenticity_token");
               ("value", v)] [].

Definition login_page : Node :=
  document [Tag "form" [("id", "new_user")] [token_field "tok123"]].

Definition blank_page : Node := document [].

Definition work_link (href title : string) : Node :=
  Tag "a" [("href", href)] [NavigableString title].
Definition author_link (name : string) : Node :=
  Tag "a" [("rel", "author"); ("href", "/users/" +:+ name)]
      [NavigableString name].
Definition user_link (name : string) : Node :=
  Tag "a" [("href", "/users/" +:+ name)] [NavigableString name].
Definition series_link (href title : string) : Node :=
  Tag "a" [("href", href)] [NavigableString title].

Definition dt_work (href title author : string) : Node :=
  Tag "dt" [] [work_link href title; NavigableString " by ";
               author_link author].
Definition dt_user (name : string) : Node := Tag "dt" [] [user_link name].
Definition dt_series (href title : string) : Node :=
  Tag "dt" [] [series_link href title].
(** an entry with no link at all *)
Definition dt_plain : Node := Tag "dt" [] [NavigableString "(deleted)"].

Definition subscriptions_page (dts : list Node) : Node :=
  document [Tag "dl" [("class", "subscription index group")] dts].

Definition blurb (href title author : string) : Node :=
  Tag "li" [("class", "bookmark blurb group")]
      [Tag "h4" [("class", "heading")]
           [work_link href title; NavigableString " by ";
            author_link author]].

Definition bookmarks_page (blurbs : list Node) : Node :=
  document [Tag "ol" [("class", "bookmark index group")] blurbs].

Definition pagination (labels : list string) : Node :=
  Tag "ol" [("title", "pagination")]
      (map (fun t => Tag "li" [] [NavigableString t]) labels).

(** A stand-in for [utils.workid_from_url]: the number after the last
    slash, when there is one. *)
Definition workid (href : string) : option Z :=
  Py.int (Py.last_segment "/" href).

Definition no_threads : Z -> M unit := fun _ => ret tt.

(** A logged-in session with nothing loaded or cached. *)
Definition bob : Session :=
  mkSession true (Some "tok123") "bob" (Some RequestsSession)
            (Some (profile_url "bob")) None None ∅.

Definition guest : Session :=
  mkSession false None "" (Some RequestsSession) None None None ∅.

Definition e_work : Entity :=
  EWork (mkWork (Some 77) (Some "Title") [mkUser (Some "ann")]).
Definition e_series : Entity :=
  ESeries (mkSeries (Some 5) (Some "Saga") []).
Definition e_user : Entity := EUser (mkUser (Some "cat")).

(** A site that answers every request with the same response. *)
Definition constant (status : Z) (page : Node) : Server :=
  fun _ _ => mkResponse status page.

(** A site that serves the login form and answers the login POST with
    the given status. *)
Definition login_site (post_status : Z) : Server :=
  fun _ rq =>
    match req_method rq with
    | GET => mkResponse 200 login_page
    | POST => mkResponse post_status blank_page
    end.

(** A site that serves a listing by the number of requests it has
    already seen: the [k]-th request gets the [k]-th response of the
    list, later ones a rate-limit response. *)
Definition scripted (script : list Response) : Server :=
  fun seen _ =>
    match nth_error script (length seen) with
    | Some r => r
    | None => mkResponse 429 blank_page
    end.

End Fixtures.

(** ** Vocabulary of the statements

    The notions the statements below are phrased in: what a computation
    sends and leaves alone, the requests of each method, the entries of
    a listing page, and a few more example sites. *)

(** A computation is [polite] when it only adds requests to the log and
    stops at a rate-limit response: the request that got status 429 is
    the last one it sent, and the computation raised [HTTPError]. *)
Definition polite (server : Server) {A} (c : M A) : Prop :=
  forall w, exists new,
    sent (snd (c w)) = sent w ++ new
    /\ forall (i : nat) rq,
        new !! i = Some rq ->
        status_code (server (sent w ++ take i new) rq) = 429 ->
        fst (c w) = Raise HTTPError /\ S i = length new.

(** A computation sends nothing. *)
Definition silent {A} (c : M A) : Prop :=
  forall w, sent (snd (c w)) = sent w.

(** The request [get] sends for a URL. *)
Definition get_request (s : Session) (u : string) : Request :=
  mkRequest GET u [] true (session s).

Definition keeps {X A} (f : Session -> X) (c : M A) : Prop :=
  forall w, f (self (snd (c w))) = f (self w).

(** Everything in the session except the subscriptions list and its
    memoized page count. *)
Definition outside_subscriptions (s : Session) :=
  (is_authed s, authenticity_token s, username s, session s, url s,
   _bookmarks s, delete "_subscription_pages" (cached s)).

(** Everything in the session except the bookmarks list and its memoized
    page count. *)
Definition outside_bookmarks (s : Session) :=
  (is_authed s, authenticity_token s, username s, session s, url s,
   _subscriptions s, delete "_bookmark_pages" (cached s)).

(** The response the site gave to the [i]-th request of a log. *)
Definition response_at (server : Server) (log : list Request) (i : nat)
  : option Response :=
  match log !! i with
  | Some rq => Some (server (take i log) rq)
  | None => None
  end.

(** A listing of two pages with one work per page, then rate limiting:
    the page count and page 1 are served, the next request gets 429. *)
Definition limited_after_page_1 : Server :=
  let page :=
    Fixtures.document
      [Tag "dl" [("class", "subscription index group")]
           [Fixtures.dt_work "/works/77" "Title" "ann"];
       Fixtures.pagination ["1"; "2"]] in
  Fixtures.scripted [mkResponse 200 page; mkResponse 200 page].

(** The session [clear_cache] leaves behind. *)
Definition cleared (s : Session) : Session :=
  mkSession (is_authed s) (authenticity_token s) (username s) (session s)
            (url s) None None
            (delete "bookmarks"
               (delete "_bookmark_pages"
                  (delete "_subscription_pages" (cached s)))).

(** The first-page request of a listing. *)
Definition first_page_request (template : string -> Z -> string) (s : Session)
  : Request :=
  get_request s (template (username s) 1).

(** The labels of a pagination control that count as page numbers. *)
Definition page_labels (pages : Node) : list string :=
  List.filter Py.isdigit (map Soup.getText (Soup.find_all "li" [] pages)).

(** The first page of a listing, as the site serves it to [w]. *)
Definition first_page server (template : string -> Z -> string) (w : World)
  : Node :=
  content (server (sent w) (first_page_request template (self w))).

(** A first page whose only pagination label is ["0"]. *)
Definition zero_label_site : Server :=
  Fixtures.constant 200
    (Fixtures.document
       [Tag "dl" [("class", "subscription index group")] [];
        Fixtures.pagination ["0"]]).

(** A single-page listing: no pagination control. *)
Definition single_page_site : Server :=
  Fixtures.constant 200
    (Fixtures.subscriptions_page [Fixtures.dt_user "cat"]).

(** The request that fetches the login page and the one that submits
    the credentials. *)
Definition login_page_request : Request :=
  mkRequest GET login_url [] true (Some RequestsSession).

Definition login_post_request (name password token : string) : Request :=
  mkRequest POST login_url
            [("user[login]", name); ("user[password]", password);
             ("authenticity_token", token)]
            false (Some RequestsSession).

(** The request [refresh_auth_token] sends. *)
Definition refresh_request (s : Session) (t : Transport) : Request :=
  mkRequest GET
            (if is_authed s then profile_url (username s) else root_url)
            [] true (Some t).

(** A link that the loops read as a link to a work: no [rel] attribute
    and an [href] that starts with ["/works"]. *)
Definition is_works_link (a : Node) : bool :=
  negb (Soup.has_attr a "rel")
  && match Soup.getitem_str a "href" with
     | Some href => Py.startswith href "/works"
     | None => false
     end.

(** [utils.workid_from_url] finds an identifier in the address of a
    link. *)
Definition link_resolves (workid_from_url : string -> option Z) (a : Node)
  : bool :=
  match Soup.getitem_str a "href" with
  | Some href =>
      match workid_from_url href with Some _ => true | None => false end
  | None => false
  end.

(** The links in the heading of a bookmark blurb. *)
Definition blurb_links (bookm : Node) : list Node :=
  match Soup.find "h4" [] bookm with
  | Some h4 => Soup.find_all "a" [] h4
  | None => []
  end.

(** [utils.workid_from_url] finds an identifier in the address of every
    works link in the headings of the blurbs. *)
Definition blurbs_resolve (workid_from_url : string -> option Z)
           (blurbs : list Node) : bool :=
  forallb (fun bookm =>
             forallb (link_resolves workid_from_url)
                     (List.filter is_works_link (blurb_links bookm)))
          blurbs.

(** In the bookmarks loop the work identifier is unbound or bound to an
    identifier, never to [None]. *)
Definition bm_resolved (st : BmLocals) : Prop :=
  forall x, bm_workid st = Some x -> is_Some x.

(** The entries of a subscriptions page and of a bookmarks page. *)
Definition subscription_dts (soup : Node) : list Node :=
  match Soup.find "dl" [("class", "subscription index group")] soup with
  | Some subscriptions => Soup.find_all "dt" [] subscriptions
  | None => []
  end.

Definition bookmark_blurbs (soup : Node) : list Node :=
  match Soup.find "ol" [("class", "bookmark index group")] soup with
  | Some bookmarks =>
      Soup.find_all "li" [("class", "bookmark blurb group")] bookmarks
  | None => []
  end.

(** The responses a site gives to a sequence of requests sent one after
    the other, starting from the log [seen]. *)
Fixpoint replay (server : Server) (seen : list Request) (rqs : list Request)
  : list Response :=
  match rqs with
  | [] => []
  | rq :: rest => server seen rq :: replay server (seen ++ [rq]) rest
  end.

(** The page indices [1..n]. *)
Definition page_indices (n : Z) : list Z :=
  map Z.of_nat (seq 1 (Z.to_nat n)).

(** The request for one page of the subscriptions listing. *)
Definition subscriptions_request (s : Session) (page : Z) : Request :=
  get_request s (_subscriptions_url (username s) page).

(** The session and log after [new] has been appended and [rqs] sent. *)
Definition with_subscriptions (w : World) (l : list Entity)
           (rqs : list Request) : World :=
  mkWorld (set_subscriptions (Some l) (self w)) (sent w ++ rqs).

(** [if new not in l: l.append(new)] on the list itself. *)
Definition add_new (l : list Work) (new : Work) : list Work :=
  if negb (existsb (fun item => Work_eq item new) l) then l ++ [new] else l.

(** How many of the candidates [cands], offered in order to the
    aggregate [l], are dropped because an equal work is already there. *)
Fixpoint removals (l : list Work) (cands : list Work) : nat :=
  match cands with
  | [] => 0
  | c :: cs =>
      if existsb (fun item => Work_eq item c) l
      then S (removals l cs)
      else removals (l ++ [c]) cs
  end.

(** The works built from the blurbs of one page, in order, with the loop
    variables threaded from one blurb to the next. *)
Fixpoint works_of (workid_from_url : string -> option Z)
         (blurbs : list Node) (st : BmLocals) : Result (list Work) :=
  match blurbs with
  | [] => Ok []
  | bookm :: rest =>
      match bookmark_entry workid_from_url bookm st with
      | Raise e => Raise e
      | Ok (new, st') =>
          match works_of workid_from_url rest st' with
          | Ok ws => Ok (new :: ws)
          | Raise e => Raise e
          end
      end
  end.

Definition bookmarks_request (s : Session) (page : Z) : Request :=
  get_request s (_bookmarks_url (username s) page).

Definition with_bookmarks (w : World) (l : list Work) (rqs : list Request)
  : World :=
  mkWorld (set_bookmarks (Some l) (self w)) (sent w ++ rqs).

(** A listing of two pages: the page count and page 1 are read from the
    first page (served twice), then page 2 is served. *)
Definition two_page_site : Server :=
  Fixtures.scripted
    [mkResponse 200
       (Fixtures.document
          [Tag "dl" [("class", "subscription index group")]
               [Fixtures.dt_work "/works/77" "Title" "ann";
                Fixtures.dt_user "cat"];
           Fixtures.pagination ["1"; "2"; "Next"]]);
     mkResponse 200
       (Fixtures.document
          [Tag "dl" [("class", "subscription index group")]
               [Fixtures.dt_work "/works/77" "Title" "ann";
                Fixtures.dt_user "cat"];
           Fixtures.pagination ["1"; "2"; "Next"]]);
     mkResponse 200
       (Fixtures.subscriptions_page
          [Fixtures.dt_work "/works/77" "Title" "ann"])].

(** Two bookmark pages and two subscription pages on which the second
    page repeats the work of the first. *)
Definition repeated_bookmark_site : Server :=
  Fixtures.scripted
    [mkResponse 200
       (Fixtures.document
          [Tag "ol" [("class", "bookmark index group")]
               [Fixtures.blurb "/works/77" "Title" "ann"];
           Fixtures.pagination ["1"; "2"]]);
     mkResponse 200
       (Fixtures.document
          [Tag "ol" [("class", "bookmark index group")]
               [Fixtures.blurb "/works/77" "Title" "ann"];
           Fixtures.pagination ["1"; "2"]]);
     mkResponse 200
       (Fixtures.bookmarks_page
          [Fixtures.blurb "/works/77" "Title" "ann";
           Fixtures.blurb "/works/78" "Other" "ann"])].
(** ** More of the module: the bookmark total and the work search *)

Module Str.

(** [s.replace(old, new)] for a one-character [old]. *)
Definition replace_char (old : ascii) (new : string) (s : string) : string :=
  Py.str (flat_map (fun c => if Ascii.eqb c old then Py.chars new else [c])
                   (Py.chars s)).

(** [s.split(sep)] for a one-character separator: every separator ends
    a field, so two separators in a row give an empty field and a string
    without separator gives one field. *)
Fixpoint split_go (sep : ascii) (cur : list ascii) (l : list ascii)
  : list string :=
  match l with
  | [] => [Py.str cur]
  | c :: l' =>
      if Ascii.eqb c sep then Py.str cur :: split_go sep [] l'
      else split_go sep (cur ++ [c]) l'
  end.

Definition split (sep : ascii) (s : string) : list string :=
  split_go sep [] (Py.chars s).

End Str.

(** [Session.str_format] *)
Definition str_format (s : string) : string := Str.replace_char "," "" s.

(** What an access to [Session.bookmarks] can end in: besides the
    exceptions of the other methods, the [IndexError] of the subscript
    [span.split(" ")[1]]. *)
Inductive Outcome (A : Type) : Type :=
| Returned (a : A)
| Raised (e : Exn)
| RaisedIndexError.
Arguments Returned {A} a.
Arguments Raised {A} e.
Arguments RaisedIndexError {A}.

(** The part of [Session.bookmarks] after the page has been fetched. *)
Definition bookmarks_total (soup : Node) : Outcome Z :=
  match Soup.find "div" [("id", "inner")] soup with
  | None => Raised AttributeError
  | Some div =>
      match Soup.find "span" [("class", "current")] div with
      | None => Raised AttributeError
      | Some current =>
          let span := Str.replace_char ")" ""
                        (Str.replace_char "(" "" (Soup.getText current)) in
          match nth_error (Str.split " " span) 1 with
          | None => RaisedIndexError
          | Some n =>
              match Py.int (str_format n) with
              | Some v => Returned v
              | None => Raised ValueError
              end
          end
      end
  end.

(** [Session.bookmarks], a cached property: the stored value when there
    is one, else the value read from page 1 of the bookmarks listing,
    stored before it is returned. *)
Definition bookmarks (server : Server) (w : World) : Outcome Z * World :=
  match cached (self w) !! "bookmarks" with
  | Some v => (Returned v, w)
  | None =>
      match request server (_bookmarks_url (username (self w)) 1) w with
      | (Raise e, w1) => (Raised e, w1)
      | (Ok soup, w1) =>
          match bookmarks_total soup with
          | Returned v =>
              (Returned v,
               mkWorld (set_cached (<["bookmarks" := v]> (cached (self w1)))
                                   (self w1))
                       (sent w1))
          | Raised e => (Raised e, w1)
          | RaisedIndexError => (RaisedIndexError, w1)
          end
      end
  end.

(** *** The module-level [search] *)

(** Modelled from the spec: the query-string builder [utils.Query] of
    [AO3/utils.py], which is absent: it collects the fields it is given,
    in order. *)
Record Query : Type := mkQuery { fields : list string }.

Definition Query_new : Query := mkQuery [].

Definition add_field (text : string) (q : Query) : Query :=
  mkQuery (fields q ++ [text]).

(** The arguments of [search], with their defaults. *)
Record SearchArgs (Constraint : Type) : Type := mkSearchArgs {
  arg_url : string;
  arg_any_field : string;
  arg_title : string;
  arg_author : string;
  arg_single_chapter : Z;
  arg_word_count : option Constraint;
  arg_language : string;
  arg_fandoms : string;
  arg_hits : option Constraint;
  arg_bookmarks : option Constraint;
  arg_comments : option Constraint;
  arg_completion_status : option bool;
  arg_page : Z
}.
Arguments mkSearchArgs {Constraint}.
Arguments arg_url {Constraint}.
Arguments arg_any_field {Constraint}.
Arguments arg_title {Constraint}.
Arguments arg_author {Constraint}.
Arguments arg_single_chapter {Constraint}.
Arguments arg_word_count {Constraint}.
Arguments arg_language {Constraint}.
Arguments arg_fandoms {Constraint}.
Arguments arg_hits {Constraint}.
Arguments arg_bookmarks {Constraint}.
Arguments arg_comments {Constraint}.
Arguments arg_completion_status {Constraint}.
Arguments arg_page {Constraint}.

Definition search_defaults {Constraint : Type} : SearchArgs Constraint :=
  mkSearchArgs "" "" "" "" 0 None "" "" None None None None 1.

Section Search.

Variable server : Server.

(** [utils.Constraint] and the text [f"{c}"] gives for one. *)
Variable Constraint : Type.
Variable Constraint_str : Constraint -> string.

(** [query.string], the text the builder makes of its fields. *)
Variable Query_string : Query -> string.

(** [if text != "": query.add_field(f"{key}={text}")] *)
Definition add_text (key text : string) (q : Query) : Query :=
  if String.eqb text "" then q else add_field (key +:+ "=" +:+ text) q.

(** [if c is not None: query.add_field(f"{key}={c}")] *)
Definition add_constraint (key : string) (c : option Constraint) (q : Query)
  : Query :=
  match c with
  | None => q
  | Some v => add_field (key +:+ "=" +:+ Constraint_str v) q
  end.

(** The query [search] builds from its arguments. *)
Definition search_query (a : SearchArgs Constraint) : Query :=
  let query := Query_new in
  let query := if negb (arg_page a =? 1)%Z
               then add_field ("page=" +:+ pretty (arg_page a)) query
               else query in
  let query := add_text "work_search[query]" (arg_any_field a) query in
  let query := add_text "work_search[title]" (arg_title a) query in
  let query := add_text "work_search[creators]" (arg_author a) query in
  let query := add_constraint "work_search[word_count]" (arg_word_count a)
                              query in
  let query := add_text "work_search[language_id]" (arg_language a) query in
  let query := add_text "work_search[fandom_names]" (arg_fandoms a) query in
  let query := add_constraint "work_search[hits_count]" (arg_hits a) query in
  let query := add_constraint "work_search[bookmarks_count]" (arg_bookmarks a)
                              query in
  let query := add_constraint "work_search[comments_count]" (arg_comments a)
                              query in
  match arg_completion_status a with
  | None => query
  | Some status =>
      add_field ("work_search[complete]=" +:+ (if status then "T" else "F"))
                query
  end.

(** The URL [search] requests. *)
Definition search_url (a : SearchArgs Constraint) : string :=
  if String.eqb (arg_url a) ""
  then "https://archiveofourown.org/works/search?"
       +:+ Query_string (search_query a)
  else arg_url a.

(** [search]: one request outside any session; the page it got, or the
    rate-limit error. *)
Definition search (a : SearchArgs Constraint) (net : list Request)
  : Result Node * list Request :=
  let rq := mkRequest GET (search_url a) [] true None in
  let req := server net rq in
  (if (status_code req =? 429)%Z then Raise HTTPError else Ok (content req),
   net ++ [rq]).

End Search.

(** *** Further vocabulary *)

(** A link the loops read as an author: it has a [rel] attribute whose
    value contains ["author"]. *)
Definition is_author_link (a : Node) : bool :=
  match Soup.getitem a "rel" with
  | Some rel => Soup.value_contains "author" rel
  | None => false
  end.

(** The users built from the author links of an entry, in document
    order. *)
Definition authors_of (links : list Node) : list User :=
  map (fun a => mkUser (Soup.string_of a)) (List.filter is_author_link links).

(** A link that decides the kind of a subscription entry: no [rel]
    attribute and an [href] that does not start with ["/works"]. *)
Definition is_kind_link (a : Node) : bool :=
  negb (Soup.has_attr a "rel")
  && match Soup.getitem_str a "href" with
     | Some href => negb (Py.startswith href "/works")
     | None => false
     end.

(** A link the loops can read: it has a [rel] attribute or an [href]. *)
Definition is_readable_link (a : Node) : bool :=
  Soup.has_attr a "rel"
  || match Soup.getitem_str a "href" with Some _ => true | None => false end.

(** The all-digit labels of a pagination control all are integer
    literals. *)
Definition labels_parse (pages : Node) : bool :=
  forallb (fun t => match Py.int t with Some _ => true | None => false end)
          (page_labels pages).

(** A first page whose bookmark heading reads ["Bookmarks (1,234)"]. *)
Definition heading_site : Server :=
  Fixtures.constant 200
    (Fixtures.document
       [Tag "div" [("id", "inner")]
            [Tag "span" [("class", "current")]
                 [NavigableString "Bookmarks (1,234)"]]]).

(** Labels in which a smaller number comes last. *)
Definition descending_labels_page : Node :=
  Fixtures.document [Fixtures.pagination ["Previous"; "5"; "2"; "Next"]].

(** A link the subscriptions loop reads without raising: it has a [rel]
    attribute, or an [href] that starts with ["/works"] or ["/users"] or
    ends in an integer literal. *)
Definition link_ok (a : Node) : bool :=
  Soup.has_attr a "rel"
  || match Soup.getitem_str a "href" with
     | Some href =>
         Py.startswith href "/works" || Py.startswith href "/users"
         || match Py.int (Py.last_segment "/" href) with
            | Some _ => true
            | None => false
            end
     | None => false
     end.

(** The characters of the heading once the parentheses are dropped. *)
Definition heading_chars (current : Node) : list ascii :=
  List.filter (fun c => negb (Ascii.eqb c ")"))
              (List.filter (fun c => negb (Ascii.eqb c "("))
                           (Py.chars (Soup.getText current))).

Definition no_space (l : list ascii) : Prop :=
  Forall (fun c => Ascii.eqb c " " = false) l.

(** The arguments [a] with another value for [single_chapter]. *)
Definition with_single_chapter {C : Type} (v : Z) (a : SearchArgs C)
  : SearchArgs C :=
  mkSearchArgs (arg_url a) (arg_any_field a) (arg_title a) (arg_author a) v
               (arg_word_count a) (arg_language a) (arg_fandoms a)
               (arg_hits a) (arg_bookmarks a) (arg_comments a)
               (arg_completion_status a) (arg_page a).

(** Every filter of [a] has its default value. *)
Definition no_filter {C : Type} (a : SearchArgs C) : Prop :=
  arg_any_field a = "" /\ arg_title a = "" /\ arg_author a = ""
  /\ arg_word_count a = None /\ arg_language a = "" /\ arg_fandoms a = ""
  /\ arg_hits a = None /\ arg_bookmarks a = None /\ arg_comments a = None
  /\ arg_completion_status a = None.

(** The page field of a query: none for page 1. *)
Definition page_field (page : Z) : list string :=
  if (page =? 1)%Z then [] else ["page=" +:+ pretty page].

(** The fields of [q] are [base] followed by filter fields. *)
Definition filter_fields_after (base : list string) (q : Query) : Prop :=
  exists rest,
    fields q = base ++ rest
    /\ Forall (fun f => Py.startswith f "work_search[" = true) rest.

(** An entry with a works link followed by a link to a user. *)
Definition dt_work_then_user : Node :=
  Tag "dt" [] [Fixtures.work_link "/works/77" "Title";
               Fixtures.user_link "cat"].

(** An entry whose link has neither [rel] nor [href]. *)
Definition dt_bare_link : Node :=
  Tag "dt" [] [Fixtures.work_link "/works/77" "Title";
               Tag "a" [("name", "top")] [NavigableString "top"]].

(** A blurb whose heading has an author but no link to the work. *)
Definition blurb_without_work : Node :=
  Tag "li" [("class", "bookmark blurb group")]
      [Tag "h4" [("class", "heading")] [Fixtures.author_link "ann"]].

(** A search for a title on page 2, with a constraint type that is its
    own text. *)
Definition title_search : SearchArgs string :=
  mkSearchArgs "" "" "Saga" "" 1 None "" "" None None None None 2.
(** ** Running computations: the equations of the combinators *)

Section Combinators.

Context {A B : Type}.

Lemma bind_ok (c : M A) (k : A -> M B) w a w' :
  c w = (Ok a, w') -> bind c k w = k a w'.
Proof. intros H. unfold bind. now rewrite H. Qed.

Lemma bind_raise (c : M A) (k : A -> M B) w e w' :
  c w = (Raise e, w') -> bind c k w = (Raise e, w').
Proof. intros H. unfold bind. now rewrite H. Qed.

Lemma bind_inv (c : M A) (k : A -> M B) w r w' :
  bind c k w = (r, w') ->
  (exists a w1, c w = (Ok a, w1) /\ k a w1 = (r, w'))
  \/ (exists e, c w = (Raise e, w') /\ r = Raise e).
Proof.
  unfold bind. destruct (c w) as [[a|e] w1]; intros H.
  - left. eauto.
  - right. inversion H; subst. eauto.
Qed.

End Combinators.

Lemma filter_classes_length (l : list Entity) :
  (length (List.filter isinstance_Work l)
   + length (List.filter isinstance_Series l)
   + length (List.filter isinstance_User l))%nat = length l.
Proof.
  induction l as [|[w|s|u] l IH]; simpl; lia.
Qed.

Lemma filter_classes_exclusive (e : Entity) :
  (isinstance_Work e = true /\ isinstance_Series e = false
   /\ isinstance_User e = false)
  \/ (isinstance_Work e = false /\ isinstance_Series e = true
      /\ isinstance_User e = false)
  \/ (isinstance_Work e = false /\ isinstance_Series e = false
      /\ isinstance_User e = true).
Proof. destruct e; simpl; auto. Qed.

Section LoadedSubscriptions.

Variable server : Server.
Variable workid_from_url : string -> option Z.
Variable subscription_threads : Z -> M unit.

Local Abbreviation get_subs :=
  (get_subscriptions server workid_from_url subscription_threads).
Local Abbreviation get_works :=
  (get_work_subscriptions server workid_from_url subscription_threads).
Local Abbreviation get_series :=
  (get_series_subscriptions server workid_from_url subscription_threads).
Local Abbreviation get_users :=
  (get_user_subscriptions server workid_from_url subscription_threads).

(** With the list already loaded, [get_subscriptions] hands it back and
    touches neither the session nor the network. *)
Lemma get_subscriptions_loaded (use_threading : bool) w l :
  _subscriptions (self w) = Some l ->
  get_subs use_threading w = (Ok (Some l), w).
Proof.
  intros H. unfold get_subscriptions, bind, get_self, ret.
  simpl. rewrite H. simpl. now rewrite H.
Qed.

(** C10. On a session whose subscriptions are loaded, the three
    filtered getters return the Work, the Series and the User elements
    of the list [get_subscriptions] returns, each in the order of that
    list; every element of the list passes exactly one of the three
    class tests, and the three lengths add up to the length of the
    list. *)
Theorem subscription_getters_partition (w : World) (l : list Entity) :
  _subscriptions (self w) = Some l ->
  (forall t, get_subs t w = (Ok (Some l), w))
  /\ (forall t, get_works t w = (Ok (List.filter isinstance_Work l), w))
  /\ (forall t, get_series t w = (Ok (List.filter isinstance_Series l), w))
  /\ (forall t, get_users t w = (Ok (List.filter isinstance_User l), w))
  /\ (forall e, In e l ->
        (In e (List.filter isinstance_Work l)
         /\ ~ In e (List.filter isinstance_Series l)
         /\ ~ In e (List.filter isinstance_User l))
        \/ (~ In e (List.filter isinstance_Work l)
            /\ In e (List.filter isinstance_Series l)
            /\ ~ In e (List.filter isinstance_User l))
        \/ (~ In e (List.filter isinstance_Work l)
            /\ ~ In e (List.filter isinstance_Series l)
            /\ In e (List.filter isinstance_User l)))
  /\ (length (List.filter isinstance_Work l)
      + length (List.filter isinstance_Series l)
      + length (List.filter isinstance_User l))%nat = length l.
Proof.
  intros H.
  assert (G : forall t, get_subs t w = (Ok (Some l), w))
    by (intros t; now apply get_subscriptions_loaded).
  split; [exact G|].
  repeat split.
  - intros t. unfold get_work_subscriptions.
    now rewrite (bind_ok _ _ _ _ _ (G t)).
  - intros t. unfold get_series_subscriptions.
    now rewrite (bind_ok _ _ _ _ _ (G t)).
  - intros t. unfold get_user_subscriptions.
    now rewrite (bind_ok _ _ _ _ _ (G t)).
  - intros e He. rewrite !filter_In.
    destruct (filter_classes_exclusive e) as [(a & b & c)|[(a & b & c)|(a & b & c)]];
      rewrite a, b, c; [left|right; left|right; right];
      repeat split; auto; intros [_ F]; discriminate.
  - apply filter_classes_length.
Qed.

End LoadedSubscriptions.

Lemma subscription_getters_partition_witness :
  let w := mkWorld (set_subscriptions
                      (Some [Fixtures.e_work; Fixtures.e_user;
                             Fixtures.e_series; Fixtures.e_work])
                      Fixtures.bob) [] in
  get_work_subscriptions (Fixtures.constant 429 Fixtures.blank_page)
    Fixtures.workid Fixtures.no_threads false w
  = (Ok [Fixtures.e_work; Fixtures.e_work], w).
Proof.
  intros w.
  apply (subscription_getters_partition
           (Fixtures.constant 429 Fixtures.blank_page)
           Fixtures.workid Fixtures.no_threads w
           [Fixtures.e_work; Fixtures.e_user; Fixtures.e_series;
            Fixtures.e_work]).
  reflexivity.
Defined.

(** ** Traffic: which requests a computation sends, and how it treats a
    rate-limit response *)

Section Traffic.

Variable server : Server.

Lemma silent_polite {A} (c : M A) : silent c -> polite server c.
Proof.
  intros H w. exists []. rewrite app_nil_r. split; [apply H|].
  intros i rq Hi. now rewrite lookup_nil in Hi.
Qed.

Lemma polite_ret {A} (a : A) : polite server (ret a).
Proof. now apply silent_polite. Qed.

Lemma polite_raise {A} e : polite server (@raise A e).
Proof. now apply silent_polite. Qed.

Lemma polite_lift {A} (r : Result A) : polite server (lift r).
Proof. now apply silent_polite. Qed.

Lemma polite_get_self : polite server get_self.
Proof. now apply silent_polite. Qed.

Lemma polite_modify f : polite server (modify f).
Proof. now apply silent_polite. Qed.

Lemma polite_bind {A B} (c : M A) (k : A -> M B) :
  polite server c -> (forall a, polite server (k a)) -> polite server (bind c k).
Proof.
  intros Hc Hk w. destruct (Hc w) as (new1 & E1 & P1).
  unfold bind. destruct (c w) as [[a|e] w1] eqn:Ec; simpl in *.
  - destruct (Hk a w1) as (new2 & E2 & P2).
    exists (new1 ++ new2). split.
    + rewrite E2, E1. now rewrite app_assoc.
    + intros i rq Hi Hs.
      destruct (decide (i < length new1)%nat) as [Hlt|Hge].
      * rewrite lookup_app_l in Hi by exact Hlt.
        rewrite take_app_le in Hs by lia.
        destruct (P1 i rq Hi Hs) as [F _]. discriminate F.
      * rewrite lookup_app_r in Hi by lia.
        rewrite take_app_ge in Hs by lia.
        rewrite app_assoc, <- E1 in Hs.
        destruct (P2 _ rq Hi Hs) as [R L].
        split; [exact R|]. rewrite length_app. lia.
  - exists new1. split; [exact E1|].
    intros i rq Hi Hs. destruct (P1 i rq Hi Hs) as [R L].
    split; [congruence|exact L].
Qed.

Lemma polite_for_each {A} (xs : list A) (body : A -> M unit) :
  (forall x, polite server (body x)) -> polite server (for_each xs body).
Proof.
  intros H. induction xs as [|x xs IH]; simpl.
  - apply polite_ret.
  - apply polite_bind; auto.
Qed.

Lemma polite_fold_M {A L} (body : A -> L -> M L) (xs : list A) (st : L) :
  (forall x st', polite server (body x st')) -> polite server (fold_M body xs st).
Proof.
  intros H. revert st. induction xs as [|x xs IH]; intros st; simpl.
  - apply polite_ret.
  - apply polite_bind; auto.
Qed.

Lemma get_run u w :
  get server u w
  = (let rsp := server (sent w) (get_request (self w) u) in
     if (status_code rsp =? 429)%Z then Raise HTTPError else Ok rsp,
     mkWorld (self w) (sent w ++ [get_request (self w) u])).
Proof.
  unfold get, bind, get_self, send, get_request. simpl.
  destruct (session (self w)) as [[]|]; simpl;
    match goal with |- context [(?x =? 429)%Z] => destruct (x =? 429)%Z end;
    reflexivity.
Qed.

Lemma polite_get u : polite server (get server u).
Proof.
  intros w. rewrite get_run. simpl. eexists. split; [reflexivity|].
  intros [|i] rq Hi Hs; simpl in *; [|now rewrite lookup_nil in Hi].
  inversion Hi; subst rq. rewrite app_nil_r in Hs.
  rewrite Hs. simpl. auto.
Qed.

Lemma polite_request u : polite server (request server u).
Proof.
  unfold request. apply polite_bind; [apply polite_get|].
  intros a. apply polite_ret.
Qed.

Lemma polite_post u params redirects : polite server (post server u params redirects).
Proof.
  intros w. unfold post, bind, get_self, send, raise. simpl.
  destruct (session (self w)) as [t|]; simpl.
  - exists [mkRequest POST u params redirects (Some t)].
    match goal with |- context [(?x =? 429)%Z] => destruct (x =? 429)%Z eqn:E end;
      simpl; (split; [reflexivity|]);
      intros [|i] rq Hi Hs; simpl in *;
      try (now rewrite lookup_nil in Hi);
      inversion Hi; subst rq; rewrite app_nil_r in Hs.
    + auto.
    + apply Z.eqb_neq in E. contradiction.
  - exists []. rewrite app_nil_r. split; [reflexivity|].
    intros i rq Hi. now rewrite lookup_nil in Hi.
Qed.

Lemma polite_cached_property name body :
  polite server body -> polite server (cached_property name body).
Proof.
  intros H. unfold cached_property. apply polite_bind; [apply polite_get_self|].
  intros s. destruct (cached s !! name).
  - apply polite_ret.
  - apply polite_bind; [exact H|]. intros v.
    apply polite_bind; [apply polite_modify|]. intros _. apply polite_ret.
Qed.

End Traffic.

Ltac polite_step :=
  first
    [ apply polite_ret | apply polite_raise | apply polite_lift
    | apply polite_get_self | apply polite_modify
    | apply polite_request | apply polite_get | apply polite_post
    | apply polite_cached_property
    | apply polite_for_each; intros
    | apply polite_fold_M; intros
    | apply polite_bind; [|intros]
    | match goal with
      | |- polite _ (match ?x with _ => _ end) => destruct x
      end ].

Ltac polite_tac := repeat polite_step.

(** ** Frames: what a computation leaves alone in the session *)

Section Frames.

Context {X : Type} (f : Session -> X).

Lemma keeps_ret {A} (a : A) : keeps f (ret a).
Proof. now intros w. Qed.

Lemma keeps_raise {A} e : keeps f (@raise A e).
Proof. now intros w. Qed.

Lemma keeps_lift {A} (r : Result A) : keeps f (lift r).
Proof. now intros w. Qed.

Lemma keeps_get_self : keeps f get_self.
Proof. now intros w. Qed.

Lemma keeps_modify g : (forall s, f (g s) = f s) -> keeps f (modify g).
Proof. intros H w. simpl. apply H. Qed.

Lemma keeps_bind {A B} (c : M A) (k : A -> M B) :
  keeps f c -> (forall a, keeps f (k a)) -> keeps f (bind c k).
Proof.
  intros Hc Hk w. unfold bind. specialize (Hc w).
  destruct (c w) as [[a|e] w1]; simpl in *.
  - now rewrite Hk.
  - exact Hc.
Qed.

Lemma keeps_for_each {A} (xs : list A) (body : A -> M unit) :
  (forall x, keeps f (body x)) -> keeps f (for_each xs body).
Proof.
  intros H. induction xs as [|x xs IH]; simpl.
  - apply keeps_ret.
  - apply keeps_bind; auto.
Qed.

Lemma keeps_fold_M {A L} (body : A -> L -> M L) (xs : list A) (st : L) :
  (forall x st', keeps f (body x st')) -> keeps f (fold_M body xs st).
Proof.
  intros H. revert st. induction xs as [|x xs IH]; intros st; simpl.
  - apply keeps_ret.
  - apply keeps_bind; auto.
Qed.

Lemma keeps_get server u : keeps f (get server u).
Proof. intros w. now rewrite get_run. Qed.

Lemma keeps_request server u : keeps f (request server u).
Proof.
  unfold request. apply keeps_bind; [apply keeps_get|].
  intros a. apply keeps_ret.
Qed.

Lemma keeps_post server u params redirects :
  keeps f (post server u params redirects).
Proof.
  intros w. unfold post, bind, get_self, send, raise. simpl.
  destruct (session (self w)); simpl; [|reflexivity].
  match goal with |- context [(?x =? 429)%Z] => destruct (x =? 429)%Z end;
    reflexivity.
Qed.

Lemma keeps_cached_property name body :
  keeps f body ->
  (forall v s, f (set_cached (<[name := v]> (cached s)) s) = f s) ->
  keeps f (cached_property name body).
Proof.
  intros Hb Hf. unfold cached_property.
  apply keeps_bind; [apply keeps_get_self|].
  intros s. destruct (cached s !! name).
  - apply keeps_ret.
  - apply keeps_bind; [exact Hb|]. intros v.
    apply keeps_bind; [apply keeps_modify; intros; apply Hf|].
    intros _. apply keeps_ret.
Qed.

End Frames.

Ltac keeps_step :=
  first
    [ apply keeps_ret | apply keeps_raise | apply keeps_lift
    | apply keeps_get_self
    | apply keeps_request | apply keeps_get | apply keeps_post
    | apply keeps_modify; intros;
      unfold outside_subscriptions, outside_bookmarks; simpl;
      rewrite ?delete_insert_eq; reflexivity
    | apply keeps_for_each; intros
    | apply keeps_fold_M; intros
    | apply keeps_bind; [|intros]
    | match goal with
      | |- keeps _ (match ?x with _ => _ end) => destruct x
      end ].

Ltac keeps_tac := repeat keeps_step.

Section Aggregation.

Variable server : Server.
Variable workid_from_url : string -> option Z.
Variable subscription_threads : Z -> M unit.
Variable bookmark_threads : Z -> M unit.

Local Abbreviation load_subs := (_load_subscriptions server workid_from_url).
Local Abbreviation load_bms := (_load_bookmarks server workid_from_url).
Local Abbreviation get_subs :=
  (get_subscriptions server workid_from_url subscription_threads).
Local Abbreviation get_bms :=
  (get_bookmarks server workid_from_url bookmark_threads).

Lemma polite_subscription_pages : polite server (_subscription_pages server).
Proof. unfold _subscription_pages. polite_tac. Qed.

Lemma polite_bookmark_pages : polite server (_bookmark_pages server).
Proof. unfold _bookmark_pages. polite_tac. Qed.

Lemma polite_load_subscriptions page : polite server (load_subs page).
Proof. unfold _load_subscriptions, append_subscription. polite_tac. Qed.

Lemma polite_load_bookmarks page : polite server (load_bms page).
Proof. unfold _load_bookmarks, append_bookmark. polite_tac. Qed.

Lemma polite_get_subscriptions : polite server (get_subs false).
Proof.
  unfold get_subscriptions. polite_tac.
Qed.

Lemma polite_get_bookmarks : polite server (get_bms false).
Proof.
  unfold get_bookmarks. polite_tac.
Qed.

Lemma keeps_get_subscriptions : keeps outside_subscriptions (get_subs false).
Proof.
  unfold get_subscriptions, _subscription_pages, _load_subscriptions,
    append_subscription.
  keeps_tac.
Qed.

Lemma keeps_get_bookmarks : keeps outside_bookmarks (get_bms false).
Proof.
  unfold get_bookmarks, _bookmark_pages, _load_bookmarks, append_bookmark.
  keeps_tac.
Qed.

End Aggregation.

Lemma polite_response_at {A} server (c : M A) w r w' (i : nat) rsp :
  polite server c ->
  c w = (r, w') ->
  (length (sent w) <= i)%nat ->
  response_at server (sent w') i = Some rsp ->
  status_code rsp = 429 ->
  r = Raise HTTPError /\ S i = length (sent w').
Proof.
  intros P E Hi Hr Hs. destruct (P w) as (new & En & Pn).
  rewrite E in En, Pn. simpl in En, Pn.
  unfold response_at in Hr. rewrite En in Hr.
  destruct ((sent w ++ new) !! i) as [rq|] eqn:L; [|discriminate].
  inversion Hr; subst rsp; clear Hr.
  rewrite lookup_app_r in L by lia.
  rewrite take_app_ge in Hs by lia.
  destruct (Pn _ rq L Hs) as [R Ln].
  split; [exact R|]. rewrite En, length_app. lia.
Qed.

(** C2, as the code has it.  In a sequential [get_subscriptions] or
    [get_bookmarks], a request answered with status 429 makes the call
    raise the rate-limit error at once: it is the last request the call
    sends, so nothing is retried.  Everything in the session other than
    that listing's own list field and memoized page count is as it was
    before the call. *)
Theorem rate_limit_stops_sequential_aggregation
        (server : Server) (workid_from_url : string -> option Z)
        (subscription_threads bookmark_threads : Z -> M unit) (w : World) :
  (forall r w' (i : nat) rsp,
      get_subscriptions server workid_from_url subscription_threads false w
      = (r, w') ->
      (length (sent w) <= i)%nat ->
      response_at server (sent w') i = Some rsp ->
      status_code rsp = 429 ->
      r = Raise HTTPError /\ S i = length (sent w')
      /\ outside_subscriptions (self w') = outside_subscriptions (self w))
  /\ (forall r w' (i : nat) rsp,
      get_bookmarks server workid_from_url bookmark_threads false w
      = (r, w') ->
      (length (sent w) <= i)%nat ->
      response_at server (sent w') i = Some rsp ->
      status_code rsp = 429 ->
      r = Raise HTTPError /\ S i = length (sent w')
      /\ outside_bookmarks (self w') = outside_bookmarks (self w)).
Proof.
  split; intros r w' i rsp E Hi Hr Hs.
  - destruct (polite_response_at _ _ _ _ _ _ _
                (polite_get_subscriptions server workid_from_url
                   subscription_threads) E Hi Hr Hs) as [R L].
    repeat split; auto.
    pose proof (keeps_get_subscriptions server workid_from_url
                  subscription_threads w) as K.
    now rewrite E in K.
  - destruct (polite_response_at _ _ _ _ _ _ _
                (polite_get_bookmarks server workid_from_url
                   bookmark_threads) E Hi Hr Hs) as [R L].
    repeat split; auto.
    pose proof (keeps_get_bookmarks server workid_from_url
                  bookmark_threads w) as K.
    now rewrite E in K.
Qed.

Lemma rate_limit_stops_sequential_aggregation_witness :
  let out := get_subscriptions limited_after_page_1 Fixtures.workid
               Fixtures.no_threads false (mkWorld Fixtures.bob []) in
  fst out = Raise HTTPError /\ 3%nat = length (sent (snd out))
  /\ outside_subscriptions (self (snd out))
     = outside_subscriptions Fixtures.bob.
Proof.
  intros out.
  apply (proj1 (rate_limit_stops_sequential_aggregation
                  limited_after_page_1 Fixtures.workid Fixtures.no_threads
                  Fixtures.no_threads (mkWorld Fixtures.bob []))
               (fst out) (snd out) 2%nat
               (mkResponse 429 Fixtures.blank_page)).
  - vm_compute. reflexivity.
  - simpl. lia.
  - vm_compute. reflexivity.
  - reflexivity.
Defined.

(** C2 as stated fails: after the rate-limit error the subscriptions
    list is no longer absent (it holds the entry of page 1) and the page
    count 2 is memoized, so the aggregate and cache state differ from
    the state before the call. *)
Lemma rate_limit_leaves_partial_aggregate :
  let w := mkWorld Fixtures.bob [] in
  let out := get_subscriptions limited_after_page_1 Fixtures.workid
               Fixtures.no_threads false w in
  fst out = Raise HTTPError
  /\ response_at limited_after_page_1 (sent (snd out)) 2
     = Some (mkResponse 429 Fixtures.blank_page)
  /\ _subscriptions (self w) = None
  /\ cached (self w) !! "_subscription_pages" = None
  /\ _subscriptions (self (snd out)) = Some [Fixtures.e_work]
  /\ cached (self (snd out)) !! "_subscription_pages" = Some 2
  /\ self (snd out) <> self w.
Proof.
  intros w out.
  assert (L : _subscriptions (self (snd out)) = Some [Fixtures.e_work])
    by (vm_compute; reflexivity).
  repeat split; try (vm_compute; reflexivity).
  intros F. rewrite F in L. discriminate L.
Qed.

(** ** The cache *)

Lemma world_eta w : mkWorld (self w) (sent w) = w.
Proof. now destruct w. Qed.

Lemma set_cached_same s : set_cached (cached s) s = s.
Proof. now destruct s. Qed.

(** One step of the scan of [clear_cache]: whether or not the slot is
    filled, the slot is empty afterwards and nothing else moves. *)
Lemma drop_slot_run (name : string) w :
  (do s <- get_self;
   match cached s !! name with
   | Some _ => modify (fun s => set_cached (delete name (cached s)) s)
   | None => ret tt
   end) w
  = (Ok tt, mkWorld (set_cached (delete name (cached (self w))) (self w))
                    (sent w)).
Proof.
  unfold bind, get_self. simpl.
  destruct (cached (self w) !! name) eqn:E; simpl; [reflexivity|].
  unfold ret. rewrite (delete_id _ _ E), set_cached_same, world_eta.
  reflexivity.
Qed.

Lemma for_each_run {A} (body : A -> M unit) (step : A -> World -> World) xs :
  (forall x w, body x w = (Ok tt, step x w)) ->
  forall w, for_each xs body w
            = (Ok tt, fold_left (fun w x => step x w) xs w).
Proof.
  intros H. induction xs as [|x xs IH]; intros w; simpl; [reflexivity|].
  unfold bind. rewrite H. apply IH.
Qed.

Lemma clear_cache_run w :
  clear_cache w = (Ok tt, mkWorld (cleared (self w)) (sent w)).
Proof.
  unfold clear_cache.
  erewrite bind_ok; cycle 1.
  { apply (for_each_run _
             (fun entry w =>
                if is_cached_property (snd entry)
                then mkWorld (set_cached (delete (fst entry) (cached (self w)))
                                (self w)) (sent w)
                else w)).
    intros [name kind] w'. simpl.
    destruct (is_cached_property kind); [apply drop_slot_run|reflexivity]. }
  reflexivity.
Qed.

Lemma cached_property_hit name body w v :
  cached (self w) !! name = Some v ->
  cached_property name body w = (Ok v, w).
Proof.
  intros H. unfold cached_property, bind, get_self. simpl. now rewrite H.
Qed.

Lemma cached_property_miss name body w :
  cached (self w) !! name = None ->
  cached_property name body w
  = match body w with
    | (Ok v, w1) =>
        (Ok v, mkWorld (set_cached (<[name := v]> (cached (self w1))) (self w1))
                       (sent w1))
    | (Raise e, w1) => (Raise e, w1)
    end.
Proof.
  intros H. unfold cached_property, bind, get_self. simpl. rewrite H.
  destruct (body w) as [[v|e] w1]; reflexivity.
Qed.

(** The body shared by the two page-count properties, for the URL
    template [template]. *)
Lemma page_count_body_run server (template : string -> Z -> string) w :
  (do s <- get_self;
   do soup <- request server (template (username s) 1);
   lift (pagination_pages soup)) w
  = (let rsp := server (sent w)
                  (get_request (self w) (template (username (self w)) 1)) in
     if (status_code rsp =? 429)%Z then Raise HTTPError
     else pagination_pages (content rsp),
     mkWorld (self w)
       (sent w ++ [get_request (self w) (template (username (self w)) 1)])).
Proof.
  unfold bind at 1. unfold get_self. simpl.
  unfold request, bind. rewrite get_run. simpl.
  destruct (status_code _ =? 429)%Z; reflexivity.
Qed.


Section CacheClearing.

Variable server : Server.
Variable workid_from_url : string -> option Z.
Variable subscription_threads : Z -> M unit.
Variable bookmark_threads : Z -> M unit.

Lemma subscription_pages_miss w :
  cached (self w) !! "_subscription_pages" = None ->
  fst (_subscription_pages server w)
  = (let rsp := server (sent w) (first_page_request _subscriptions_url (self w)) in
     if (status_code rsp =? 429)%Z then Raise HTTPError
     else pagination_pages (content rsp))
  /\ sent (snd (_subscription_pages server w))
     = sent w ++ [first_page_request _subscriptions_url (self w)].
Proof.
  intros H. unfold _subscription_pages.
  rewrite cached_property_miss by exact H.
  rewrite (page_count_body_run server _subscriptions_url). simpl.
  destruct (status_code _ =? 429)%Z; simpl; [auto|].
  destruct (pagination_pages _); simpl; auto.
Qed.

Lemma bookmark_pages_miss w :
  cached (self w) !! "_bookmark_pages" = None ->
  fst (_bookmark_pages server w)
  = (let rsp := server (sent w) (first_page_request _bookmarks_url (self w)) in
     if (status_code rsp =? 429)%Z then Raise HTTPError
     else pagination_pages (content rsp))
  /\ sent (snd (_bookmark_pages server w))
     = sent w ++ [first_page_request _bookmarks_url (self w)].
Proof.
  intros H. unfold _bookmark_pages.
  rewrite cached_property_miss by exact H.
  rewrite (page_count_body_run server _bookmarks_url). simpl.
  destruct (status_code _ =? 429)%Z; simpl; [auto|].
  destruct (pagination_pages _); simpl; auto.
Qed.




End CacheClearing.

(** ** Page counts *)

Lemma char_isdigit_not_space c :
  Py.char_isdigit c = true -> Py.char_isblank c = false.
Proof.
  destruct c as [[] [] [] [] [] [] [] []]; vm_compute; congruence.
Qed.

Lemma char_isdigit_not_sign c :
  Py.char_isdigit c = true ->
  Ascii.eqb c "-" = false /\ Ascii.eqb c "+" = false.
Proof.
  destruct c as [[] [] [] [] [] [] [] []]; vm_compute; intuition congruence.
Qed.

Lemma digit_value_nonneg c : Py.is_decimal c = true -> 0 <= Py.digit_value c.
Proof.
  destruct c as [[] [] [] [] [] [] [] []]; vm_compute; congruence.
Qed.

Lemma literal_value_nonneg l :
  forall acc b v, 0 <= acc -> Py.literal_value acc b l = Some v -> 0 <= v.
Proof.
  induction l as [|c l IH]; intros acc b v Ha H; simpl in H.
  - destruct b; [|discriminate]. inversion H; subst. exact Ha.
  - destruct (Py.is_decimal c) eqn:D.
    + pose proof (digit_value_nonneg c D) as Hd.
      apply (IH (10 * acc + Py.digit_value c) true v); [lia|exact H].
    + destruct (Ascii.eqb c "_" && b); [|discriminate].
      apply (IH _ _ _ Ha H).
Qed.

Lemma lstrip_no_space l :
  Forall (fun c => Py.char_isblank c = false) l -> Py.lstrip l = l.
Proof.
  intros H. destruct H as [|c l Hc Hl]; simpl; [reflexivity|].
  now rewrite Hc.
Qed.

Lemma strip_no_space l :
  Forall (fun c => Py.char_isblank c = false) l -> Py.strip l = l.
Proof.
  intros H. unfold Py.strip. rewrite (lstrip_no_space l H).
  rewrite lstrip_no_space by (apply Forall_rev; exact H).
  apply rev_involutive.
Qed.

Lemma lstrip_keeps_last l c :
  Py.char_isblank c = false -> exists l', Py.lstrip (l ++ [c]) = l' ++ [c].
Proof.
  intros Hc. induction l as [|x l IH]; simpl.
  - rewrite Hc. now exists [].
  - destruct (Py.char_isblank x); [exact IH|]. now exists (x :: l).
Qed.

Lemma separator_not_literal c :
  Py.char_isspace c = true ->
  Py.char_isblank c = false ->
  Ascii.eqb c "-" = false /\ Ascii.eqb c "+" = false
  /\ Py.is_decimal c = false.
Proof.
  destruct c as [[] [] [] [] [] [] [] []]; vm_compute; intuition congruence.
Qed.

(** The separators U+001C to U+001F, which [str.split] treats as white
    space, are not skipped by [int()]: a string that starts with one is
    not an integer literal. *)
Lemma int_rejects_separator c s :
  Py.char_isspace c = true ->
  Py.char_isblank c = false ->
  Py.int (String c s) = None.
Proof.
  intros Hs Hb. unfold Py.int, Py.strip, Py.chars. simpl.
  rewrite Hb. simpl.
  destruct (lstrip_keeps_last (rev (list_ascii_of_string s)) c Hb)
    as (l' & ->).
  rewrite rev_app_distr. simpl.
  destruct (separator_not_literal c Hs Hb) as (E1 & E2 & E3).
  rewrite E1, E2. simpl. rewrite E3, andb_false_r. reflexivity.
Qed.

(** The integer value of an all-digit string is never negative. *)
Lemma int_isdigit_nonneg s v :
  Py.isdigit s = true -> Py.int s = Some v -> 0 <= v.
Proof.
  unfold Py.isdigit, Py.int. intros D H.
  destruct (Py.chars s) as [|c l] eqn:E; [discriminate|].
  assert (F : Forall (fun c => Py.char_isdigit c = true) (c :: l)).
  { apply Forall_forall. intros x Hx.
    apply (proj1 (forallb_forall _ _) D x). apply list_elem_of_In. exact Hx. }
  rewrite strip_no_space in H.
  - inversion F as [|? ? Hc _]; subst.
    destruct (char_isdigit_not_sign c Hc) as [E1 E2].
    rewrite E1, E2 in H.
    apply (literal_value_nonneg _ _ _ _ (Z.le_refl 0) H).
  - eapply Forall_impl; [exact F|]. intros x. apply char_isdigit_not_space.
Qed.

(** The scan keeps the starting value or takes the value of one of the
    labels. *)
Lemma pagination_scan lis :
  forall n0 n,
    fold_result
      (fun li n =>
         let text := Soup.getText li in
         if Py.isdigit text then
           match Py.int text with
           | Some v => Ok v
           | None => Raise ValueError
           end
         else Ok n) lis n0 = Ok n ->
    n = n0
    \/ exists t, In t (List.filter Py.isdigit (map Soup.getText lis))
                 /\ Py.int t = Some n.
Proof.
  induction lis as [|li lis IH]; intros n0 n H; simpl in H.
  - inversion H. auto.
  - destruct (Py.isdigit (Soup.getText li)) eqn:D.
    + destruct (Py.int (Soup.getText li)) as [v|] eqn:I; [|discriminate].
      destruct (IH _ _ H) as [->|(t & Ht & It)].
      * right. exists (Soup.getText li). simpl. rewrite D. simpl. auto.
      * right. exists t. simpl. rewrite D. simpl. auto.
    + destruct (IH _ _ H) as [->|(t & Ht & It)]; [auto|].
      right. exists t. simpl. rewrite D. auto.
Qed.

Lemma pagination_scan_last lis :
  forall n0,
    fold_result
      (fun li n =>
         let text := Soup.getText li in
         if Py.isdigit text then
           match Py.int text with
           | Some v => Ok v
           | None => Raise ValueError
           end
         else Ok n) lis n0
    = if forallb (fun t => match Py.int t with Some _ => true | None => false end)
                 (List.filter Py.isdigit (map Soup.getText lis))
      then Ok (match last (List.filter Py.isdigit (map Soup.getText lis)) with
               | Some t => match Py.int t with Some v => v | None => n0 end
               | None => n0
               end)
      else Raise ValueError.
Proof.
  induction lis as [|li lis IH]; intros n0; simpl; [reflexivity|].
  destruct (Py.isdigit (Soup.getText li)) eqn:D; simpl.
  - destruct (Py.int (Soup.getText li)) as [v|] eqn:I; simpl; [|reflexivity].
    rewrite IH.
    destruct (forallb _ _) eqn:F; [|reflexivity].
    destruct (List.filter Py.isdigit (map Soup.getText lis)) as [|t ts] eqn:L.
    + simpl. now rewrite I.
    + change (last (Soup.getText li :: t :: ts)) with (last (t :: ts)).
      assert (P : exists t', last (t :: ts) = Some t')
        by (destruct (last (t :: ts)) eqn:E; [eauto|
            apply last_None in E; discriminate]).
      destruct P as (t' & E). rewrite E.
      assert (It : exists v', Py.int t' = Some v').
      { apply last_Some in E. destruct E as (pre & E).
        rewrite E in F. rewrite forallb_app in F.
        apply andb_true_iff in F. destruct F as [_ F]. simpl in F.
        destruct (Py.int t'); [eauto|discriminate]. }
      destruct It as (v' & ->). reflexivity.
  - apply IH.
Qed.

Lemma pagination_pages_by_labels soup pages :
  Soup.find "ol" [("title", "pagination")] soup = Some pages ->
  pagination_pages soup
  = if labels_parse pages
    then Ok (match last (page_labels pages) with
             | Some t => match Py.int t with Some v => v | None => 1 end
             | None => 1
             end)
    else Raise ValueError.
Proof.
  intros Hf. unfold pagination_pages. rewrite Hf.
  exact (pagination_scan_last (Soup.find_all "li" [] pages) 1).
Qed.

Lemma pagination_pages_value soup n :
  pagination_pages soup = Ok n ->
  0 <= n
  /\ (Soup.find "ol" [("title", "pagination")] soup = None -> n = 1)
  /\ (forall pages,
         Soup.find "ol" [("title", "pagination")] soup = Some pages ->
         match last (page_labels pages) with
         | Some t => Py.int t = Some n
         | None => n = 1
         end)
  /\ ((forall pages t,
          Soup.find "ol" [("title", "pagination")] soup = Some pages ->
          In t (page_labels pages) -> Py.int t <> Some 0) ->
      1 <= n).
Proof.
  intros H.
  assert (Last : forall pages,
             Soup.find "ol" [("title", "pagination")] soup = Some pages ->
             match last (page_labels pages) with
             | Some t => Py.int t = Some n
             | None => n = 1
             end).
  { intros pages F. rewrite (pagination_pages_by_labels soup pages F) in H.
    destruct (labels_parse pages) eqn:P; [|discriminate].
    destruct (last (page_labels pages)) as [t|] eqn:L.
    - assert (It : exists v, Py.int t = Some v).
      { apply last_Some in L. destruct L as (pre & L).
        unfold labels_parse in P. rewrite L, forallb_app in P.
        apply andb_true_iff in P. destruct P as [_ P]. simpl in P.
        destruct (Py.int t); [eauto|discriminate]. }
      destruct It as (v & It). rewrite It in H |- *. congruence.
    - congruence. }
  unfold pagination_pages in H.
  destruct (Soup.find "ol" _ soup) as [pages|] eqn:F.
  - destruct (pagination_scan _ _ _ H) as [->|(t & Ht & It)].
    + split; [lia|]. split; [discriminate|]. split; [exact Last|].
      intros _. lia.
    + assert (D : Py.isdigit t = true)
        by (apply filter_In in Ht; tauto).
      pose proof (int_isdigit_nonneg _ _ D It) as Hn.
      split; [exact Hn|]. split; [discriminate|]. split; [exact Last|].
      intros Hz. specialize (Hz pages t eq_refl Ht).
      assert (n <> 0) by congruence. lia.
  - inversion H; subst. split; [lia|]. split; [reflexivity|].
    split; [exact Last|]. intros; lia.
Qed.

Lemma page_count_miss_value server name template w n w' :
  cached (self w) !! name = None ->
  cached_property name
    (do s <- get_self;
     do soup <- request server (template (username s) 1);
     lift (pagination_pages soup)) w = (Ok n, w') ->
  pagination_pages
    (content (server (sent w) (first_page_request template (self w))))
  = Ok n.
Proof.
  intros Hc H. rewrite cached_property_miss in H by exact Hc.
  rewrite page_count_body_run in H. simpl in H.
  fold (first_page_request template (self w)) in H.
  destruct (status_code _ =? 429)%Z; [discriminate|].
  destruct (pagination_pages _) as [v|e]; [|discriminate].
  inversion H; subst. reflexivity.
Qed.

(** C7, as the code has it.  A page count resolved from the site (not
    taken from the memo) is an integer that is at least 0.  It is exactly
    1 when the first page has no pagination control, and also when the
    control has no all-digit label; otherwise it is the value of the
    last all-digit label of the control.  Hence it is at least 1 when no
    all-digit label of the control has the value 0. *)
Theorem page_count_value (server : Server) (w : World) (n : Z) (w' : World) :
  (cached (self w) !! "_subscription_pages" = None ->
   _subscription_pages server w = (Ok n, w') ->
   let page := first_page server _subscriptions_url w in
   0 <= n
   /\ (Soup.find "ol" [("title", "pagination")] page = None -> n = 1)
   /\ (forall pages,
          Soup.find "ol" [("title", "pagination")] page = Some pages ->
          match last (page_labels pages) with
          | Some t => Py.int t = Some n
          | None => n = 1
          end)
   /\ ((forall pages t,
           Soup.find "ol" [("title", "pagination")] page = Some pages ->
           In t (page_labels pages) -> Py.int t <> Some 0) ->
       1 <= n))
  /\ (cached (self w) !! "_bookmark_pages" = None ->
      _bookmark_pages server w = (Ok n, w') ->
      let page := first_page server _bookmarks_url w in
      0 <= n
      /\ (Soup.find "ol" [("title", "pagination")] page = None -> n = 1)
      /\ (forall pages,
             Soup.find "ol" [("title", "pagination")] page = Some pages ->
             match last (page_labels pages) with
             | Some t => Py.int t = Some n
             | None => n = 1
             end)
      /\ ((forall pages t,
              Soup.find "ol" [("title", "pagination")] page = Some pages ->
              In t (page_labels pages) -> Py.int t <> Some 0) ->
          1 <= n)).
Proof.
  split; intros Hc H page; apply pagination_pages_value;
    eapply page_count_miss_value; eauto.
Qed.

Lemma page_count_value_witness :
  let w := mkWorld Fixtures.bob [] in
  let page := first_page two_page_site _subscriptions_url w in
  0 <= 2
  /\ (Soup.find "ol" [("title", "pagination")] page = None -> 2 = 1)
  /\ (forall pages,
         Soup.find "ol" [("title", "pagination")] page = Some pages ->
         match last (page_labels pages) with
         | Some t => Py.int t = Some 2
         | None => 2 = 1
         end)
  /\ ((forall pages t,
          Soup.find "ol" [("title", "pagination")] page = Some pages ->
          In t (page_labels pages) -> Py.int t <> Some 0) ->
      1 <= 2).
Proof.
  intros w page.
  apply (proj1 (page_count_value two_page_site w 2
                  (snd (_subscription_pages two_page_site w)))).
  - reflexivity.
  - vm_compute. reflexivity.
Defined.

(** C7 as stated fails: on a first page whose pagination control has the
    single label ["0"], the resolved page count is 0. *)
Lemma page_count_zero :
  exists n,
    fst (_subscription_pages zero_label_site (mkWorld Fixtures.bob []))
    = Ok n
    /\ n < 1.
Proof.
  exists 0. split; [vm_compute; reflexivity|lia].
Qed.

(** ** Login and token refresh *)

Lemma Session_new_run server name password net :
  Session_new server name password net
  = (let rsp1 := server net login_page_request in
     if (status_code rsp1 =? 429)%Z then (Raise HTTPError, net ++ [login_page_request])
     else
       match Soup.find "input" [("name", "authenticity_token")] (content rsp1) with
       | None => (Raise TypeError, net ++ [login_page_request])
       | Some field =>
           match Soup.getitem_str field "value" with
           | None => (Raise KeyError, net ++ [login_page_request])
           | Some token =>
               let rq2 := login_post_request name password token in
               let rsp2 := server (net ++ [login_page_request]) rq2 in
               (if (status_code rsp2 =? 429)%Z then Raise HTTPError
                else if (status_code rsp2 =? 302)%Z
                     then Ok (mkSession true (Some token) name
                                (Some RequestsSession) (Some (profile_url name))
                                None None ∅)
                     else Raise LoginError,
                (net ++ [login_page_request]) ++ [rq2])
           end
       end).
Proof.
  cbv beta iota zeta delta
      [Session_new Session_init request post bind modify get get_self send ret
       raise login_page_request login_post_request GuestSession_init
       set_is_authed set_username set_url set_session set_authenticity_token
       set_bookmarks set_subscriptions
       self sent session is_authed authenticity_token username url
       _bookmarks _subscriptions cached].
  destruct (status_code _ =? 429)%Z; [reflexivity|]. simpl.
  destruct (Soup.find _ _ _) as [field|]; [|reflexivity]. simpl.
  destruct (Soup.getitem_str field "value") as [token|]; [|reflexivity]. simpl.
  destruct (status_code _ =? 429)%Z; [reflexivity|]. simpl.
  destruct (status_code _ =? 302)%Z; reflexivity.
Qed.

(** C1, as the code has it.  Once the login page has been fetched (not
    rate limited) and its token field read, the constructor sends one
    POST with redirects disabled.  It returns a session exactly when that
    POST is answered with status 302, and that session is marked
    authenticated and holds the token read from the page.  A 429 answer
    raises the rate-limit error; every other status, 200 included, raises
    [LoginError]. *)
Theorem login_outcome (server : Server) (name password : string)
        (net : list Request) (field : Node) (token : string) :
  let rsp1 := server net login_page_request in
  let rq2 := login_post_request name password token in
  let rsp2 := server (net ++ [login_page_request]) rq2 in
  let out := Session_new server name password net in
  status_code rsp1 <> 429 ->
  Soup.find "input" [("name", "authenticity_token")] (content rsp1)
  = Some field ->
  Soup.getitem_str field "value" = Some token ->
  snd out = net ++ [login_page_request; rq2]
  /\ req_allow_redirects rq2 = false
  /\ ((exists s, fst out = Ok s) <-> status_code rsp2 = 302)
  /\ (status_code rsp2 = 302 ->
      exists s, fst out = Ok s /\ is_authed s = true
                /\ authenticity_token s = Some token /\ username s = name)
  /\ (status_code rsp2 = 429 -> fst out = Raise HTTPError)
  /\ (status_code rsp2 <> 302 -> status_code rsp2 <> 429 ->
      fst out = Raise LoginError).
Proof.
  intros rsp1 rq2 rsp2 out H1 Hf Hv.
  unfold out. rewrite Session_new_run. cbv zeta.
  apply Z.eqb_neq in H1. unfold rsp1 in H1, Hf. rewrite H1, Hf, Hv.
  fold rq2. fold rsp2. simpl.
  split; [now rewrite <- app_assoc|]. split; [reflexivity|].
  destruct (status_code rsp2 =? 429)%Z eqn:E429;
    [apply Z.eqb_eq in E429|apply Z.eqb_neq in E429];
    (destruct (status_code rsp2 =? 302)%Z eqn:E302;
     [apply Z.eqb_eq in E302|apply Z.eqb_neq in E302]).
  - lia.
  - split; [split; [intros [s F]; discriminate F|intros; lia]|].
    split; [intros; lia|]. split; [reflexivity|intros; lia].
  - split; [split; [auto|eauto]|].
    split; [intros _; eexists; repeat split|].
    split; intros; lia.
  - split; [split; [intros [s F]; discriminate F|intros; lia]|].
    split; [intros; lia|]. split; [intros; lia|reflexivity].
Qed.

Lemma login_outcome_witness :
  exists s,
    fst (Session_new (Fixtures.login_site 302) "bob" "secret" []) = Ok s
    /\ is_authed s = true
    /\ authenticity_token s = Some "tok123" /\ username s = "bob".
Proof.
  apply (login_outcome (Fixtures.login_site 302) "bob" "secret" []
           (Fixtures.token_field "tok123") "tok123").
  - vm_compute. discriminate.
  - vm_compute. reflexivity.
  - reflexivity.
  - reflexivity.
Defined.

(** C1 as stated fails: a login POST answered with status 429, which is
    not 302, raises the rate-limit error and not [LoginError]. *)
Lemma login_rate_limited_post :
  let server := Fixtures.login_site 429 in
  status_code (server [login_page_request]
                 (login_post_request "bob" "secret" "tok123")) = 429
  /\ fst (Session_new server "bob" "secret" []) = Raise HTTPError
  /\ fst (Session_new server "bob" "secret" []) <> Raise LoginError.
Proof.
  intros server.
  assert (E : fst (Session_new server "bob" "secret" []) = Raise HTTPError)
    by (vm_compute; reflexivity).
  split; [reflexivity|]. split; [exact E|]. rewrite E. discriminate.
Qed.

(** C8, on the code: a login page without the token field makes the
    constructor raise [TypeError] (subscripting the [None] that
    [soup.find] returned), whereas [refresh_auth_token] on the same page
    checks for [None] and raises [UnexpectedResponseError]. *)
Lemma login_without_token_field :
  let server := Fixtures.constant 200 Fixtures.blank_page in
  Soup.find "input" [("name", "authenticity_token")]
    (content (server [] login_page_request)) = None
  /\ Session_new server "bob" "secret" []
     = (Raise TypeError, [login_page_request])
  /\ fst (refresh_auth_token server (mkWorld Fixtures.guest []))
     = Raise UnexpectedResponseError.
Proof.
  intros server. repeat split; vm_compute; reflexivity.
Qed.

Lemma refresh_auth_token_run server w t :
  session (self w) = Some t ->
  refresh_auth_token server w
  = (let rsp := server (sent w) (refresh_request (self w) t) in
     let w1 := mkWorld (self w) (sent w ++ [refresh_request (self w) t]) in
     if (status_code rsp =? 429)%Z then (Raise HTTPError, w1)
     else
       match Soup.find "input" [("name", "authenticity_token")] (content rsp) with
       | None => (Raise UnexpectedResponseError, w1)
       | Some field =>
           match Soup.getitem_str field "value" with
           | None => (Raise KeyError, w1)
           | Some v =>
               (Ok tt, mkWorld (set_authenticity_token (Some v) (self w))
                               (sent w ++ [refresh_request (self w) t]))
           end
       end).
Proof.
  intros Hs.
  cbv beta iota zeta delta
      [refresh_auth_token bind get_self send raise modify refresh_request].
  rewrite Hs.
  cbv beta iota zeta delta [self sent].
  destruct (status_code _ =? 429)%Z; [reflexivity|].
  destruct (Soup.find _ _ _) as [field|]; [|reflexivity].
  destruct (Soup.getitem_str field "value"); reflexivity.
Qed.

(** C5, as the code has it.  On a session that holds its transport,
    [refresh_auth_token] sends exactly one request: a GET of the profile
    URL built from the session's username when the session is
    authenticated, of the landing URL when it is a guest.  A 429 answer
    raises the rate-limit error before the page is looked at; otherwise a
    page without the token field raises [UnexpectedResponseError], and a
    page with it stores the field's value as the session token. *)
Theorem refresh_auth_token_target (server : Server) (w : World) (t : Transport) :
  let rq := mkRequest GET
              (if is_authed (self w)
               then "https://archiveofourown.org/users/" +:+ username (self w)
               else "https://archiveofourown.org")
              [] true (Some t) in
  let rsp := server (sent w) rq in
  let out := refresh_auth_token server w in
  session (self w) = Some t ->
  sent (snd out) = sent w ++ [rq]
  /\ (status_code rsp = 429 -> fst out = Raise HTTPError)
  /\ (status_code rsp <> 429 ->
      Soup.find "input" [("name", "authenticity_token")] (content rsp) = None ->
      fst out = Raise UnexpectedResponseError)
  /\ (forall field v,
         status_code rsp <> 429 ->
         Soup.find "input" [("name", "authenticity_token")] (content rsp)
         = Some field ->
         Soup.getitem_str field "value" = Some v ->
         fst out = Ok tt /\ authenticity_token (self (snd out)) = Some v).
Proof.
  intros rq rsp out Hs. unfold out.
  rewrite (refresh_auth_token_run server w t Hs).
  change (refresh_request (self w) t) with rq. fold rsp.
  cbv zeta.
  destruct (status_code rsp =? 429)%Z eqn:E;
    [apply Z.eqb_eq in E|apply Z.eqb_neq in E].
  - simpl. repeat split; auto; intros; contradiction.
  - split.
    { destruct (Soup.find _ _ _) as [field|]; [|reflexivity].
      destruct (Soup.getitem_str field "value"); reflexivity. }
    split; [intros; contradiction|].
    split.
    + intros _ Hf. now rewrite Hf.
    + intros field v _ Hf Hv. rewrite Hf, Hv. simpl. auto.
Qed.

Lemma refresh_auth_token_target_witness :
  sent (snd (refresh_auth_token (Fixtures.constant 200 Fixtures.login_page)
               (mkWorld Fixtures.bob [])))
  = [mkRequest GET "https://archiveofourown.org/users/bob" [] true
               (Some RequestsSession)].
Proof.
  apply (refresh_auth_token_target (Fixtures.constant 200 Fixtures.login_page)
           (mkWorld Fixtures.bob []) RequestsSession).
  reflexivity.
Defined.

(** C5 as stated fails: a 429 answer whose page has no token field
    raises the rate-limit error, not [UnexpectedResponseError]. *)
Lemma refresh_rate_limited :
  let server := Fixtures.constant 429 Fixtures.blank_page in
  let w := mkWorld Fixtures.guest [] in
  Soup.find "input" [("name", "authenticity_token")]
    (content (server (sent w) (refresh_request (self w) RequestsSession)))
  = None
  /\ fst (refresh_auth_token server w) = Raise HTTPError
  /\ fst (refresh_auth_token server w) <> Raise UnexpectedResponseError.
Proof.
  intros server w.
  assert (E : fst (refresh_auth_token server w) = Raise HTTPError)
    by (vm_compute; reflexivity).
  split; [reflexivity|]. split; [exact E|]. rewrite E. discriminate.
Qed.

(** ** What the listing loops build *)

Lemma fold_result_snoc {A L} (body : A -> L -> Result L) xs x :
  forall st,
    fold_result body (xs ++ [x]) st
    = match fold_result body xs st with
      | Ok st1 => body x st1
      | Raise e => Raise e
      end.
Proof.
  induction xs as [|y xs IH]; intros st; simpl.
  - now destruct (body x st).
  - destruct (body y st); [apply IH|reflexivity].
Qed.

Lemma last_filter_snoc {A} (P : A -> bool) xs x :
  last (List.filter P (xs ++ [x]))
  = if P x then Some x else last (List.filter P xs).
Proof.
  rewrite List.filter_app. simpl. destruct (P x).
  - apply last_snoc.
  - now rewrite app_nil_r.
Qed.

Lemma has_attr_getitem a k :
  Soup.has_attr a k = false -> Soup.getitem a k = None.
Proof.
  unfold Soup.has_attr, Soup.getitem.
  destruct (Soup.assoc k (Soup.tag_attrs a)); [discriminate|reflexivity].
Qed.

Section Entries.

Variable workid_from_url : string -> option Z.

Local Abbreviation sub_link := (subscription_link workid_from_url).
Local Abbreviation bm_link := (bookmark_link workid_from_url).

(** A series tag always comes with a series number. *)
Lemma subscription_links_series links :
  forall st st',
    (sub_type st = type_series -> is_Some (sub_series st)) ->
    fold_result sub_link links st = Ok st' ->
    sub_type st' = type_series -> is_Some (sub_series st').
Proof.
  induction links as [|a links IH]; intros st st' I H; simpl in H.
  - now inversion H; subst.
  - destruct (sub_link a st) as [st1|e] eqn:E; [|discriminate].
    apply (IH st1 st'); [|exact H].
    unfold subscription_link in E.
    destruct (Soup.has_attr a "rel").
    + destruct (Soup.getitem a "rel") as [rel|]; [|discriminate].
      destruct (Soup.value_contains "author" rel);
        inversion E; subst; simpl; exact I.
    + destruct (Soup.getitem_str a "href") as [href|]; [|discriminate].
      destruct (Py.startswith href "/works");
        [inversion E; subst; simpl; exact I|].
      destruct (Py.startswith href "/users");
        [inversion E; subst; simpl; discriminate|].
      destruct (Py.int _) as [n|]; [|discriminate].
      inversion E; subst; simpl. eauto.
Qed.

(** What one link does to the variables of the loop, by the kind of
    link. *)
Lemma subscription_link_cases a st st' :
  sub_link a st = Ok st' ->
  sub_authors st'
  = sub_authors st ++ (if is_author_link a
                       then [mkUser (Soup.string_of a)] else [])
  /\ (if is_works_link a
      then exists href, Soup.getitem_str a "href" = Some href
                        /\ sub_workid st' = workid_from_url href
      else sub_workid st' = sub_workid st)
  /\ (if is_kind_link a
      then exists href,
          Soup.getitem_str a "href" = Some href
          /\ if Py.startswith href "/users"
             then sub_type st' = type_user (mkUser (Soup.string_of a))
             else exists n, sub_type st' = type_series
                            /\ sub_series st' = Some n
                            /\ Py.int (Py.last_segment "/" href) = Some n
      else sub_type st' = sub_type st /\ sub_series st' = sub_series st).
Proof.
  unfold subscription_link, is_author_link, is_works_link, is_kind_link.
  destruct (Soup.has_attr a "rel") eqn:R.
  - destruct (Soup.getitem a "rel") as [rel|]; [|discriminate].
    destruct (Soup.value_contains "author" rel);
      intros H; inversion H; subst; simpl; rewrite ?app_nil_r; auto.
  - rewrite (has_attr_getitem _ _ R).
    destruct (Soup.getitem_str a "href") as [href|]; [|discriminate].
    destruct (Py.startswith href "/works") eqn:W.
    + intros H; inversion H; subst; simpl. rewrite app_nil_r.
      split; [reflexivity|]. split; [eauto|]. auto.
    + destruct (Py.startswith href "/users") eqn:U.
      * intros H; inversion H; subst; simpl. rewrite app_nil_r.
        split; [reflexivity|]. split; [reflexivity|].
        exists href. rewrite U. auto.
      * destruct (Py.int _) as [n|] eqn:I; [|discriminate].
        intros H; inversion H; subst; simpl. rewrite app_nil_r.
        split; [reflexivity|]. split; [reflexivity|].
        exists href. rewrite U. eauto.
Qed.

(** The variables after all the links of an entry. *)
Lemma subscription_links_summary links :
  forall st st',
    fold_result sub_link links st = Ok st' ->
    sub_authors st' = sub_authors st ++ authors_of links
    /\ match last (List.filter is_works_link links) with
       | Some a => exists href, Soup.getitem_str a "href" = Some href
                                /\ sub_workid st' = workid_from_url href
       | None => sub_workid st' = sub_workid st
       end
    /\ match last (List.filter is_kind_link links) with
       | Some a =>
           exists href,
             Soup.getitem_str a "href" = Some href
             /\ if Py.startswith href "/users"
                then sub_type st' = type_user (mkUser (Soup.string_of a))
                else exists n, sub_type st' = type_series
                               /\ sub_series st' = Some n
                               /\ Py.int (Py.last_segment "/" href) = Some n
       | None => sub_type st' = sub_type st /\ sub_series st' = sub_series st
       end.
Proof.
  induction links as [|a links IH] using rev_ind; intros st st' H.
  - simpl in H. inversion H; subst. unfold authors_of. simpl.
    rewrite app_nil_r. auto.
  - rewrite fold_result_snoc in H.
    destruct (fold_result sub_link links st) as [st1|] eqn:F; [|discriminate].
    destruct (IH st st1 F) as (A1 & W1 & K1).
    destruct (subscription_link_cases a st1 st' H) as (A2 & W2 & K2).
    rewrite !last_filter_snoc.
    split; [|split].
    + rewrite A2, A1. unfold authors_of. rewrite List.filter_app, map_app.
      simpl. rewrite <- app_assoc. f_equal.
      now destruct (is_author_link a).
    + destruct (is_works_link a); [exact W2|].
      rewrite W2. exact W1.
    + destruct (is_kind_link a); [exact K2|].
      destruct K2 as [-> ->]. exact K1.
Qed.

(** The user in a user tag is built from the string of one of the
    links. *)
Lemma subscription_links_user links :
  forall st st' u,
    fold_result sub_link links st = Ok st' ->
    sub_type st' = type_user u ->
    sub_type st = type_user u
    \/ exists a, In a links /\ u = mkUser (Soup.string_of a).
Proof.
  induction links as [|a links IH]; intros st st' u H T; simpl in H.
  - inversion H; subst. auto.
  - destruct (sub_link a st) as [st1|e] eqn:E; [|discriminate].
    destruct (IH st1 st' u H T) as [T1|(b & Hb & Eb)];
      [|right; exists b; simpl; auto].
    unfold subscription_link in E.
    destruct (Soup.has_attr a "rel").
    + destruct (Soup.getitem a "rel") as [rel|]; [|discriminate].
      destruct (Soup.value_contains "author" rel);
        inversion E; subst; simpl in *; auto.
    + destruct (Soup.getitem_str a "href") as [href|]; [|discriminate].
      destruct (Py.startswith href "/works");
        [inversion E; subst; simpl in *; auto|].
      destruct (Py.startswith href "/users").
      * inversion E; subst; simpl in *. inversion T1; subst.
        right. exists a. auto.
      * destruct (Py.int _) as [n|]; [|discriminate].
        inversion E; subst; simpl in *. discriminate.
Qed.

(** The identity field of the object built from one subscription
    entry. *)
Lemma subscription_entry_identity sub e :
  subscription_entry workid_from_url sub = Ok e ->
  match e with
  | ESeries s => is_Some (series_id s)
  | EWork w =>
      match last (List.filter is_works_link (Soup.find_all "a" [] sub)) with
      | Some a => exists href, Soup.getitem_str a "href" = Some href
                               /\ work_id w = workid_from_url href
      | None => work_id w = None
      end
  | EUser u =>
      exists a, In a (Soup.find_all "a" [] sub)
                /\ user_username u = Soup.string_of a
  end.
Proof.
  unfold subscription_entry. intros H.
  destruct (fold_result sub_link _ sub_locals_init) as [st|] eqn:F;
    [|discriminate].
  inversion H; subst; clear H.
  destruct (sub_type st) as [|user|] eqn:T; simpl.
  - destruct (subscription_links_summary _ _ _ F) as (_ & W & _). exact W.
  - destruct (subscription_links_user _ _ _ _ F T) as [I|(a & Ha & ->)].
    + discriminate I.
    + exists a. auto.
  - apply (subscription_links_series (Soup.find_all "a" [] sub)
             sub_locals_init st);
      [simpl; discriminate|exact F|exact T].
Qed.

(** In the bookmarks loop the identifier stays resolved over the links
    of a heading whose works links resolve. *)
Lemma bookmark_links_resolved links :
  forall st st',
    forallb (link_resolves workid_from_url)
            (List.filter is_works_link links) = true ->
    bm_resolved st ->
    fold_result bm_link links st = Ok st' ->
    bm_resolved st'.
Proof.
  induction links as [|a links IH]; intros st st' R I H; simpl in H.
  - now inversion H; subst.
  - destruct (bm_link a st) as [st1|e] eqn:E; [|discriminate].
    simpl in R. unfold is_works_link in R at 1. unfold bookmark_link in E.
    destruct (Soup.has_attr a "rel"); simpl in R.
    + apply (IH st1 st' R); [|exact H].
      destruct (Soup.getitem a "rel") as [rel|]; [|discriminate].
      destruct (Soup.value_contains "author" rel);
        inversion E; subst; exact I.
    + destruct (Soup.getitem_str a "href") as [href|] eqn:Hh; [|discriminate].
      destruct (Py.startswith href "/works") eqn:W.
      * simpl in R. apply andb_true_iff in R. destruct R as [Ra R].
        apply (IH st1 st' R); [|exact H].
        inversion E; subst. intros x Hx. simpl in Hx. inversion Hx; subst.
        unfold link_resolves in Ra. rewrite Hh in Ra.
        destruct (workid_from_url href); [eauto|discriminate].
      * apply (IH st1 st' R); [|exact H]. inversion E; subst; exact I.
Qed.

Lemma bookmark_entry_resolved bookm st new st' :
  forallb (link_resolves workid_from_url)
          (List.filter is_works_link (blurb_links bookm)) = true ->
  bm_resolved st ->
  bookmark_entry workid_from_url bookm st = Ok (new, st') ->
  is_Some (work_id new) /\ bm_resolved st'.
Proof.
  intros R I H. unfold bookmark_entry in H. unfold blurb_links in R.
  destruct (Soup.find "h4" [] bookm) as [h4|]; [|discriminate].
  destruct (fold_result bm_link _ _) as [st1|] eqn:F; [|discriminate].
  assert (I1 : bm_resolved st1).
  { apply (bookmark_links_resolved (Soup.find_all "a" [] h4)
             (mkBmLocals (bm_workname st) (bm_workid st) []) st1);
      [exact R|exact I|exact F]. }
  destruct (bm_workid st1) as [workid|] eqn:W; [|discriminate].
  destruct (bm_workname st1) as [workname|]; [|discriminate].
  inversion H; subst. simpl. split; [apply I1; exact W|exact I1].
Qed.

End Entries.

(** ** The loaders, page by page *)

Lemma range_succ n : map (fun page => page + 1) (range n) = page_indices n.
Proof.
  unfold range, page_indices. rewrite map_map.
  rewrite <- seq_shift, map_map.
  apply map_ext. intros a. lia.
Qed.

Lemma set_subscriptions_same s l :
  _subscriptions s = Some l -> set_subscriptions (Some l) s = s.
Proof. destruct s; simpl. now intros ->. Qed.

Lemma set_bookmarks_same s l :
  _bookmarks s = Some l -> set_bookmarks (Some l) s = s.
Proof. destruct s; simpl. now intros ->. Qed.

Section SubscriptionLoader.

Variable server : Server.
Variable workid_from_url : string -> option Z.

Local Abbreviation entry_of := (subscription_entry workid_from_url).

Lemma append_subscription_run e w l :
  _subscriptions (self w) = Some l ->
  append_subscription e w = (Ok tt, with_subscriptions w (l ++ [e]) []).
Proof.
  intros H. unfold append_subscription, bind, get_self, with_subscriptions.
  simpl. rewrite H. simpl. now rewrite app_nil_r.
Qed.

Lemma with_subscriptions_same w l :
  _subscriptions (self w) = Some l -> with_subscriptions w (l ++ []) [] = w.
Proof.
  intros H. unfold with_subscriptions.
  rewrite !app_nil_r, (set_subscriptions_same _ _ H). apply world_eta.
Qed.

(** The loop over the entries of one page: every entry processed before
    the loop ends (normally or not) has been appended, in order. *)
Lemma subscription_entries_loop dts :
  forall w l r w',
    _subscriptions (self w) = Some l ->
    for_each dts (fun sub => do new <- lift (entry_of sub);
                             append_subscription new) w = (r, w') ->
    exists new,
      w' = with_subscriptions w (l ++ new) []
      /\ Forall2 (fun sub e => entry_of sub = Ok e) (take (length new) dts) new
      /\ (r = Ok tt -> length new = length dts)
      /\ ((length new < length dts)%nat ->
          exists sub e, dts !! length new = Some sub
                        /\ entry_of sub = Raise e /\ r = Raise e).
Proof.
  induction dts as [|sub dts IH]; intros w l r w' Hl H; simpl in H.
  - inversion H; subst. exists []. split; [|split; [constructor|split]].
    + symmetry. now apply with_subscriptions_same.
    + reflexivity.
    + simpl. lia.
  - unfold bind at 1 in H. unfold bind at 1 in H. unfold lift at 1 in H.
    destruct (entry_of sub) as [e|x] eqn:E.
    + rewrite (append_subscription_run e w l Hl) in H.
      destruct (IH (with_subscriptions w (l ++ [e]) []) (l ++ [e]) r w'
                  eq_refl H) as (new & -> & F & L & St).
      exists (e :: new). split; [|split; [|split]].
      * unfold with_subscriptions. simpl.
        now rewrite !app_nil_r, <- app_assoc.
      * simpl. constructor; assumption.
      * intros Hr. simpl. now rewrite L.
      * intros Hlt. simpl in Hlt. apply St. lia.
    + inversion H; subst. exists []. split; [|split; [|split]].
      * symmetry. now apply with_subscriptions_same.
      * constructor.
      * discriminate.
      * intros _. exists sub, x. auto.
Qed.

(** One run of [_load_subscriptions]: one request, and the objects built
    from the entries of the page it got appended in order. *)
Lemma load_subscriptions_run page w l r w' :
  _subscriptions (self w) = Some l ->
  _load_subscriptions server workid_from_url page w = (r, w') ->
  let rq := subscriptions_request (self w) page in
  let dts := subscription_dts (content (server (sent w) rq)) in
  exists new,
    w' = with_subscriptions w (l ++ new) [rq]
    /\ Forall2 (fun sub e => entry_of sub = Ok e) (take (length new) dts) new
    /\ (r = Ok tt -> length new = length dts)
    /\ (status_code (server (sent w) rq) <> 429 ->
        (length new < length dts)%nat ->
        exists sub e, dts !! length new = Some sub
                      /\ entry_of sub = Raise e /\ r = Raise e).
Proof.
  intros Hl H rq dts.
  unfold _load_subscriptions in H.
  unfold bind at 1 in H. unfold get_self at 1 in H.
  unfold bind at 1 in H. unfold request in H. unfold bind at 1 in H.
  rewrite get_run in H. cbv zeta in H.
  fold (subscriptions_request (self w) page) in H. fold rq in H.
  assert (Same : mkWorld (self w) (sent w ++ [rq])
                 = with_subscriptions w (l ++ []) [rq]).
  { unfold with_subscriptions.
    now rewrite app_nil_r, (set_subscriptions_same _ _ Hl). }
  destruct (status_code (server (sent w) rq) =? 429)%Z eqn:Limited.
  - inversion H; subst. exists []. split; [exact Same|].
    split; [constructor|]. split; [discriminate|].
    intros Hs. apply Z.eqb_eq in Limited. contradiction.
  - unfold ret at 1 in H. subst dts. unfold subscription_dts.
    destruct (Soup.find "dl" _ _) as [subscriptions|].
    + destruct (subscription_entries_loop _
                  (mkWorld (self w) (sent w ++ [rq])) l r w' Hl H)
        as (new & -> & F & L & St).
      exists new. split; [|split; [|split]]; [|assumption|assumption|auto].
      unfold with_subscriptions. simpl. now rewrite app_nil_r.
    + inversion H; subst. exists []. split; [exact Same|].
      split; [constructor|]. split; [discriminate|].
      intros _ Hlt. simpl in Hlt. lia.
Qed.

(** A run of the page loop that ends normally: the pages are requested
    in order, one request each, and the aggregate grows by the entries
    of each page in turn. *)
Lemma load_subscriptions_pages ps :
  forall w l w',
    _subscriptions (self w) = Some l ->
    for_each ps (fun page => _load_subscriptions server workid_from_url
                               (page + 1)) w = (Ok tt, w') ->
    let rqs := map (fun page => subscriptions_request (self w) (page + 1)) ps in
    exists per_page,
      w' = with_subscriptions w (l ++ concat per_page) rqs
      /\ Forall2 (fun rsp es =>
                    Forall2 (fun sub e => entry_of sub = Ok e)
                            (subscription_dts (content rsp)) es)
                 (replay server (sent w) rqs) per_page.
Proof.
  induction ps as [|p ps IH]; intros w l w' Hl H rqs; simpl in H.
  - inversion H; subst. exists []. split; [|constructor].
    unfold with_subscriptions. simpl.
    now rewrite !app_nil_r, (set_subscriptions_same _ _ Hl), world_eta.
  - unfold bind at 1 in H.
    destruct (_load_subscriptions server workid_from_url (p + 1) w)
      as [[[]|e] w1] eqn:E; [|discriminate].
    destruct (load_subscriptions_run _ _ _ _ _ Hl E) as (new & -> & F & L & _).
    specialize (L eq_refl).
    rewrite L, firstn_all in F.
    destruct (IH (with_subscriptions w (l ++ new)
                    [subscriptions_request (self w) (p + 1)])
                 (l ++ new) w' eq_refl H) as (rest & -> & FR).
    exists (new :: rest). split.
    + unfold with_subscriptions. subst rqs. simpl.
      now rewrite <- !app_assoc.
    + subst rqs. simpl. constructor; [exact F|exact FR].
Qed.

End SubscriptionLoader.

(** ** Bookmarks: candidates and deduplication *)

Lemma add_new_removals cands :
  forall l,
    (length (fold_left add_new cands l) + removals l cands
     = length l + length cands)%nat.
Proof.
  induction cands as [|c cs IH]; intros l; simpl; [lia|].
  unfold add_new at 2.
  destruct (existsb (fun item => Work_eq item c) l); simpl.
  - specialize (IH l). lia.
  - specialize (IH (l ++ [c])). rewrite length_app in IH. simpl in IH. lia.
Qed.

Lemma add_new_extends cands :
  forall l, exists new,
    fold_left add_new cands l = l ++ new
    /\ forall x, In x new -> In x cands.
Proof.
  induction cands as [|c cs IH]; intros l; simpl.
  - exists []. split; [now rewrite app_nil_r|contradiction].
  - unfold add_new at 2.
    destruct (existsb (fun item => Work_eq item c) l); simpl.
    + destruct (IH l) as (new & E & S). exists new. split; auto.
    + destruct (IH (l ++ [c])) as (new & E & S). exists (c :: new).
      split; [now rewrite E, <- app_assoc|].
      intros x [->|Hx]; auto.
Qed.

Lemma existsb_Work_eq_false l c :
  existsb (fun item => Work_eq item c) l = false ->
  ~ In (work_id c) (map work_id l).
Proof.
  intros H Hin. apply in_map_iff in Hin. destruct Hin as (x & Ex & Hx).
  assert (T : existsb (fun item => Work_eq item c) l = true).
  { apply existsb_exists. exists x. split; [exact Hx|].
    unfold Work_eq. now apply bool_decide_eq_true. }
  congruence.
Qed.

Lemma existsb_Work_eq_true l c :
  existsb (fun item => Work_eq item c) l = true ->
  In (work_id c) (map work_id l).
Proof.
  intros H. apply existsb_exists in H. destruct H as (x & Hx & E).
  unfold Work_eq in E. apply bool_decide_eq_true in E.
  apply in_map_iff. eauto.
Qed.

Lemma add_new_NoDup l c :
  List.NoDup (map work_id l) -> List.NoDup (map work_id (add_new l c)).
Proof.
  intros H. unfold add_new.
  destruct (existsb (fun item => Work_eq item c) l) eqn:E; simpl; [exact H|].
  rewrite map_app. simpl.
  apply NoDup_ListNoDup, NoDup_app. split; [now apply NoDup_ListNoDup|].
  split.
  - intros x Hx Hc. apply list_elem_of_In in Hx.
    apply list_elem_of_In in Hc. destruct Hc as [<-|[]].
    now apply (existsb_Work_eq_false _ _ E).
  - apply NoDup_singleton.
Qed.

Lemma add_new_covers l c : In (work_id c) (map work_id (add_new l c)).
Proof.
  unfold add_new.
  destruct (existsb (fun item => Work_eq item c) l) eqn:E; simpl.
  - now apply existsb_Work_eq_true.
  - rewrite map_app. apply in_or_app. right. simpl. auto.
Qed.

Section BookmarkLoader.

Variable server : Server.
Variable workid_from_url : string -> option Z.

Lemma works_of_length blurbs :
  forall st ws, works_of workid_from_url blurbs st = Ok ws -> length ws = length blurbs.
Proof.
  induction blurbs as [|b bs IH]; intros st ws H; simpl in H.
  - now inversion H.
  - destruct (bookmark_entry workid_from_url b st) as [[new st']|];
      [|discriminate].
    destruct (works_of workid_from_url bs st') as [ws'|] eqn:E; [|discriminate].
    inversion H; subst. simpl. now rewrite (IH _ _ E).
Qed.

Lemma works_of_resolved blurbs :
  forall st ws,
    blurbs_resolve workid_from_url blurbs = true ->
    bm_resolved st ->
    works_of workid_from_url blurbs st = Ok ws ->
    Forall (fun x => is_Some (work_id x)) ws.
Proof.
  induction blurbs as [|b bs IH]; intros st ws R I H; simpl in H.
  - inversion H. constructor.
  - destruct (bookmark_entry workid_from_url b st) as [[new st']|] eqn:E;
      [|discriminate].
    destruct (works_of workid_from_url bs st') as [ws'|] eqn:E'; [|discriminate].
    inversion H; subst.
    unfold blurbs_resolve in R. simpl in R.
    apply andb_true_iff in R. destruct R as [Rb R].
    destruct (bookmark_entry_resolved _ _ _ _ _ Rb I E) as [Hn I'].
    constructor; [exact Hn|]. now apply (IH st').
Qed.

Lemma blurbs_resolve_take k blurbs :
  blurbs_resolve workid_from_url blurbs = true ->
  blurbs_resolve workid_from_url (take k blurbs) = true.
Proof.
  unfold blurbs_resolve. intros H. apply forallb_forall. intros b Hb.
  apply (proj1 (forallb_forall _ _) H).
  apply list_elem_of_In. apply list_elem_of_In in Hb.
  apply (subseteq_take k blurbs b Hb).
Qed.

Lemma append_bookmark_run new w l :
  _bookmarks (self w) = Some l ->
  append_bookmark new w = (Ok tt, with_bookmarks w (add_new l new) []).
Proof.
  intros H. unfold append_bookmark, bind, get_self, with_bookmarks, add_new.
  simpl. rewrite H.
  destruct (existsb (fun item => Work_eq item new) l); simpl.
  - unfold ret. now rewrite app_nil_r, (set_bookmarks_same _ _ H), world_eta.
  - now rewrite app_nil_r.
Qed.

Lemma with_bookmarks_same w l :
  _bookmarks (self w) = Some l -> with_bookmarks w l [] = w.
Proof.
  intros H. unfold with_bookmarks.
  rewrite app_nil_r, (set_bookmarks_same _ _ H). apply world_eta.
Qed.

(** The loop over the blurbs of one page: the works built before the loop
    ends (normally or not) have been offered to the aggregate in
    order. *)
Lemma bookmark_entries_loop blurbs :
  forall st w l r w',
    _bookmarks (self w) = Some l ->
    fold_M (fun bookm st =>
              do r <- lift (bookmark_entry workid_from_url bookm st);
              run append_bookmark (fst r);
              ret (snd r)) blurbs st w = (r, w') ->
    exists cands,
      w' = with_bookmarks w (fold_left add_new cands l) []
      /\ works_of workid_from_url (take (length cands) blurbs) st = Ok cands
      /\ ((exists st', r = Ok st') -> length cands = length blurbs)
      /\ ((length cands < length blurbs)%nat ->
          exists e, r = Raise e
                    /\ works_of workid_from_url
                         (take (S (length cands)) blurbs) st = Raise e).
Proof.
  induction blurbs as [|b bs IH]; intros st w l r w' Hl H; simpl in H.
  - inversion H; subst. exists []. simpl.
    split; [symmetry; now apply with_bookmarks_same|].
    split; [reflexivity|]. split; [reflexivity|]. lia.
  - unfold bind at 1 in H. unfold bind at 1 in H. unfold lift at 1 in H.
    destruct (bookmark_entry workid_from_url b st) as [[new st1]|x] eqn:E.
    + simpl fst in H. simpl snd in H. unfold bind at 1 in H.
      rewrite (append_bookmark_run new w l Hl) in H. unfold ret at 1 in H.
      destruct (IH st1 (with_bookmarks w (add_new l new) []) (add_new l new)
                  r w' eq_refl H) as (cands & -> & W & L & St).
      exists (new :: cands). split; [|split; [|split]].
      * unfold with_bookmarks. simpl. now rewrite !app_nil_r.
      * simpl. rewrite E, W. reflexivity.
      * intros Hr. simpl. now rewrite (L Hr).
      * intros Hlt. simpl in Hlt.
        destruct St as (e & -> & We); [lia|].
        exists e. split; [reflexivity|].
        change (take (S (length (new :: cands))) (b :: bs))
          with (b :: take (S (length cands)) bs).
        simpl. now rewrite E, We.
    + inversion H; subst. exists []. simpl.
      split; [symmetry; now apply with_bookmarks_same|].
      split; [reflexivity|].
      split; [intros [st' F]; discriminate F|].
      intros _. exists x. rewrite E. auto.
Qed.

(** One run of [_load_bookmarks]. *)
Lemma load_bookmarks_run page w l r w' :
  _bookmarks (self w) = Some l ->
  _load_bookmarks server workid_from_url page w = (r, w') ->
  let rq := bookmarks_request (self w) page in
  let blurbs := bookmark_blurbs (content (server (sent w) rq)) in
  exists cands,
    w' = with_bookmarks w (fold_left add_new cands l) [rq]
    /\ works_of workid_from_url (take (length cands) blurbs) bm_locals_init = Ok cands
    /\ (r = Ok tt -> length cands = length blurbs)
    /\ (status_code (server (sent w) rq) <> 429 ->
        (length cands < length blurbs)%nat ->
        exists e, r = Raise e
                  /\ works_of workid_from_url
                       (take (S (length cands)) blurbs) bm_locals_init
                     = Raise e).
Proof.
  intros Hl H rq blurbs.
  unfold _load_bookmarks in H.
  unfold bind at 1 in H. unfold get_self at 1 in H.
  unfold bind at 1 in H. unfold request in H. unfold bind at 1 in H.
  rewrite get_run in H. cbv zeta in H.
  fold (bookmarks_request (self w) page) in H. fold rq in H.
  assert (Same : mkWorld (self w) (sent w ++ [rq])
                 = with_bookmarks w (fold_left add_new [] l) [rq]).
  { unfold with_bookmarks. simpl. now rewrite (set_bookmarks_same _ _ Hl). }
  destruct (status_code (server (sent w) rq) =? 429)%Z eqn:Limited.
  - inversion H; subst. exists []. split; [exact Same|].
    split; [reflexivity|]. split; [discriminate|].
    intros Hs. apply Z.eqb_eq in Limited. contradiction.
  - unfold ret at 1 in H. subst blurbs. unfold bookmark_blurbs.
    destruct (Soup.find "ol" _ _) as [bookmarks|].
    + unfold bind at 1 in H.
      destruct (fold_M _ _ bm_locals_init _) as [r1 w1] eqn:F.
      destruct (bookmark_entries_loop _ _
                  (mkWorld (self w) (sent w ++ [rq])) l r1 w1 Hl F)
        as (cands & -> & W & L & St).
      exists cands. split; [|split; [|split]].
      * destruct r1; inversion H; subst;
          unfold with_bookmarks; simpl; now rewrite app_nil_r.
      * exact W.
      * intros Hr. apply L. destruct r1 as [st'|e]; [eauto|].
        subst r. discriminate H.
      * intros _ Hlt. destruct (St Hlt) as (e & -> & We).
        exists e. split; [|exact We]. now inversion H.
    + inversion H; subst. exists []. split; [exact Same|].
      split; [reflexivity|]. split; [discriminate|].
      intros _ Hlt. simpl in Hlt. lia.
Qed.

(** A run of the page loop that ends normally. *)
Lemma load_bookmarks_pages ps :
  forall w l w',
    _bookmarks (self w) = Some l ->
    for_each ps (fun page => _load_bookmarks server workid_from_url
                               (page + 1)) w = (Ok tt, w') ->
    let rqs := map (fun page => bookmarks_request (self w) (page + 1)) ps in
    exists per_page,
      w' = with_bookmarks w (fold_left add_new (concat per_page) l) rqs
      /\ Forall2 (fun rsp ws =>
                    works_of workid_from_url (bookmark_blurbs (content rsp)) bm_locals_init
                    = Ok ws)
                 (replay server (sent w) rqs) per_page.
Proof.
  induction ps as [|p ps IH]; intros w l w' Hl H rqs; simpl in H.
  - inversion H; subst. exists []. split; [|constructor].
    unfold with_bookmarks. simpl.
    now rewrite !app_nil_r, (set_bookmarks_same _ _ Hl), world_eta.
  - unfold bind at 1 in H.
    destruct (_load_bookmarks server workid_from_url (p + 1) w)
      as [[[]|e] w1] eqn:E; [|discriminate].
    destruct (load_bookmarks_run _ _ _ _ _ Hl E) as (cands & -> & W & L & _).
    specialize (L eq_refl).
    rewrite L, firstn_all in W.
    destruct (IH (with_bookmarks w (fold_left add_new cands l)
                    [bookmarks_request (self w) (p + 1)])
                 (fold_left add_new cands l) w' eq_refl H) as (rest & -> & FR).
    exists (cands :: rest). split.
    + unfold with_bookmarks. subst rqs. simpl.
      now rewrite fold_left_app, <- !app_assoc.
    + subst rqs. simpl. constructor; [exact W|exact FR].
Qed.

End BookmarkLoader.

(** ** Sequential aggregation *)

Lemma concat_length_sum {A B} (g : A -> nat) (xs : list A) (ys : list (list B)) :
  Forall2 (fun a b => length b = g a) xs ys ->
  length (concat ys) = sum_list (map g xs).
Proof.
  induction 1 as [|a b xs ys H _ IH]; simpl; [reflexivity|].
  rewrite length_app. lia.
Qed.

Lemma replay_length server seen rqs :
  length (replay server seen rqs) = length rqs.
Proof.
  revert seen. induction rqs as [|rq rqs IH]; intros seen; simpl; auto.
Qed.

(** The page-count properties touch only the memo. *)
Lemma subscription_pages_frame server :
  keeps (fun s => (is_authed s, authenticity_token s, username s, session s,
                   url s, _bookmarks s, _subscriptions s))
        (_subscription_pages server).
Proof. unfold _subscription_pages, cached_property. keeps_tac. Qed.

Lemma bookmark_pages_frame server :
  keeps (fun s => (is_authed s, authenticity_token s, username s, session s,
                   url s, _bookmarks s, _subscriptions s))
        (_bookmark_pages server).
Proof. unfold _bookmark_pages, cached_property. keeps_tac. Qed.

Section SequentialAggregation.

Variable server : Server.
Variable workid_from_url : string -> option Z.
Variable subscription_threads : Z -> M unit.
Variable bookmark_threads : Z -> M unit.

(** A sequential [get_subscriptions] that returns, split at the point
    where the page count [n] is known. *)
Lemma get_subscriptions_sequential w n w1 r w' :
  _subscriptions (self w) = None ->
  _subscription_pages server
    (mkWorld (set_subscriptions (Some []) (self w)) (sent w)) = (Ok n, w1) ->
  get_subscriptions server workid_from_url subscription_threads false w
  = (Ok r, w') ->
  let rqs := map (subscriptions_request (self w)) (page_indices n) in
  exists per_page,
    r = Some (concat per_page)
    /\ w' = with_subscriptions w1 (concat per_page) rqs
    /\ Forall2 (fun rsp es =>
                  Forall2 (fun sub e =>
                             subscription_entry workid_from_url sub = Ok e)
                          (subscription_dts (content rsp)) es)
               (replay server (sent w1) rqs) per_page.
Proof.
  intros Hn Hp H rqs.
  pose proof (subscription_pages_frame server
                (mkWorld (set_subscriptions (Some []) (self w)) (sent w))) as K.
  rewrite Hp in K. simpl in K. inversion K as [[Ka Kt Ku Ks Kr Kb Kl]].
  unfold get_subscriptions in H.
  unfold bind at 1 in H. unfold get_self at 1 in H. rewrite Hn in H.
  unfold bind at 1 in H. unfold bind at 1 in H. unfold modify at 1 in H.
  unfold bind at 1 in H. rewrite Hp in H.
  destruct (for_each (range n) _ w1) as [[[]|e] w2] eqn:F; [|discriminate].
  unfold get_self, bind, ret in H. inversion H; subst r w'; clear H.
  destruct (load_subscriptions_pages server workid_from_url (range n) w1 []
              w2 Kl F) as (per_page & -> & FR).
  assert (Erq : map (fun page => subscriptions_request (self w1) (page + 1))
                    (range n) = rqs).
  { subst rqs. rewrite <- range_succ, map_map. apply map_ext. intros p.
    unfold subscriptions_request, get_request. now rewrite Ku, Ks. }
  rewrite Erq in FR. rewrite Erq.
  exists per_page. simpl. auto.
Qed.

(** The same for [get_bookmarks]. *)
Lemma get_bookmarks_sequential w n w1 r w' :
  _bookmarks (self w) = None ->
  _bookmark_pages server
    (mkWorld (set_bookmarks (Some []) (self w)) (sent w)) = (Ok n, w1) ->
  get_bookmarks server workid_from_url bookmark_threads false w
  = (Ok r, w') ->
  let rqs := map (bookmarks_request (self w)) (page_indices n) in
  exists per_page,
    r = Some (fold_left add_new (concat per_page) [])
    /\ w' = with_bookmarks w1 (fold_left add_new (concat per_page) []) rqs
    /\ Forall2 (fun rsp ws =>
                  works_of workid_from_url (bookmark_blurbs (content rsp))
                           bm_locals_init = Ok ws)
               (replay server (sent w1) rqs) per_page.
Proof.
  intros Hn Hp H rqs.
  pose proof (bookmark_pages_frame server
                (mkWorld (set_bookmarks (Some []) (self w)) (sent w))) as K.
  rewrite Hp in K. simpl in K. inversion K as [[Ka Kt Ku Ks Kr Kb Kl]].
  unfold get_bookmarks in H.
  unfold bind at 1 in H. unfold get_self at 1 in H. rewrite Hn in H.
  unfold bind at 1 in H. unfold bind at 1 in H. unfold modify at 1 in H.
  unfold bind at 1 in H. rewrite Hp in H.
  destruct (for_each (range n) _ w1) as [[[]|e] w2] eqn:F; [|discriminate].
  unfold get_self, bind, ret in H. inversion H; subst r w'; clear H.
  destruct (load_bookmarks_pages server workid_from_url (range n) w1 []
              w2 Kb F) as (per_page & -> & FR).
  assert (Erq : map (fun page => bookmarks_request (self w1) (page + 1))
                    (range n) = rqs).
  { subst rqs. rewrite <- range_succ, map_map. apply map_ext. intros p.
    unfold bookmarks_request, get_request. now rewrite Ku, Ks. }
  rewrite Erq in FR. rewrite Erq.
  exists per_page. simpl. auto.
Qed.

End SequentialAggregation.

(** The resolver either answers from the memo, sending nothing, or
    sends the one request for page 1. *)
Lemma subscription_pages_traffic server w r w1 :
  _subscription_pages server w = (r, w1) ->
  sent w1
  = sent w ++ match cached (self w) !! "_subscription_pages" with
              | Some _ => []
              | None => [subscriptions_request (self w) 1]
              end.
Proof.
  intros H. destruct (cached (self w) !! "_subscription_pages") as [v|] eqn:C.
  - unfold _subscription_pages in H.
    rewrite (cached_property_hit _ _ _ _ C) in H. inversion H; subst.
    now rewrite app_nil_r.
  - pose proof (proj2 (subscription_pages_miss server w C)) as E.
    now rewrite H in E.
Qed.

Lemma bookmark_pages_traffic server w r w1 :
  _bookmark_pages server w = (r, w1) ->
  sent w1
  = sent w ++ match cached (self w) !! "_bookmark_pages" with
              | Some _ => []
              | None => [bookmarks_request (self w) 1]
              end.
Proof.
  intros H. destruct (cached (self w) !! "_bookmark_pages") as [v|] eqn:C.
  - unfold _bookmark_pages in H.
    rewrite (cached_property_hit _ _ _ _ C) in H. inversion H; subst.
    now rewrite app_nil_r.
  - pose proof (proj2 (bookmark_pages_miss server w C)) as E.
    now rewrite H in E.
Qed.

(** C3, as the code has it.  Take a session with no cached list whose
    page-count resolver reports [N >= 1].  The resolver sends nothing
    when the count is memoized and its own request for page 1 when it is
    not.  A sequential aggregation that returns then sends, after the
    resolver, exactly the requests for the pages [1..N], in that order
    and once each.  For subscriptions the aggregate has as many elements
    as the pages received have entries; for bookmarks that number less
    the candidates dropped because an equal work was already in the
    aggregate. *)
Theorem sequential_aggregation_pages
        (server : Server) (workid_from_url : string -> option Z)
        (subscription_threads bookmark_threads : Z -> M unit)
        (w : World) (N : Z) (w1 : World) :
  1 <= N ->
  (forall r w',
      _subscriptions (self w) = None ->
      _subscription_pages server
        (mkWorld (set_subscriptions (Some []) (self w)) (sent w))
      = (Ok N, w1) ->
      get_subscriptions server workid_from_url subscription_threads false w
      = (Ok r, w') ->
      let rqs := map (subscriptions_request (self w))
                     (map Z.of_nat (seq 1 (Z.to_nat N))) in
      let pages := replay server (sent w1) rqs in
      sent w1
      = sent w ++ match cached (self w) !! "_subscription_pages" with
                  | Some _ => []
                  | None => [subscriptions_request (self w) 1]
                  end
      /\ sent w' = sent w1 ++ rqs
      /\ length rqs = Z.to_nat N
      /\ exists l,
          r = Some l
          /\ length l
             = sum_list (map (fun rsp => length (subscription_dts (content rsp)))
                             pages))
  /\ (forall r w',
      _bookmarks (self w) = None ->
      _bookmark_pages server
        (mkWorld (set_bookmarks (Some []) (self w)) (sent w))
      = (Ok N, w1) ->
      get_bookmarks server workid_from_url bookmark_threads false w
      = (Ok r, w') ->
      let rqs := map (bookmarks_request (self w))
                     (map Z.of_nat (seq 1 (Z.to_nat N))) in
      let pages := replay server (sent w1) rqs in
      sent w1
      = sent w ++ match cached (self w) !! "_bookmark_pages" with
                  | Some _ => []
                  | None => [bookmarks_request (self w) 1]
                  end
      /\ sent w' = sent w1 ++ rqs
      /\ length rqs = Z.to_nat N
      /\ exists l per_page,
          r = Some l
          /\ Forall2 (fun rsp ws =>
                        works_of workid_from_url
                                 (bookmark_blurbs (content rsp)) bm_locals_init
                        = Ok ws) pages per_page
          /\ (length l + removals [] (concat per_page)
              = sum_list (map (fun rsp => length (bookmark_blurbs (content rsp)))
                              pages))%nat).
Proof.
  intros HN. split; intros r w' Hn Hp H rqs pages.
  - destruct (get_subscriptions_sequential _ _ _ _ _ _ _ _ Hn Hp H)
      as (per_page & -> & -> & F).
    fold (page_indices N) in rqs. fold rqs in F. fold pages in F.
    split; [exact (subscription_pages_traffic _ _ _ _ Hp)|].
    split; [reflexivity|].
    split; [subst rqs; unfold page_indices;
            now rewrite !length_map, length_seq|].
    exists (concat per_page). split; [reflexivity|].
    apply concat_length_sum.
    eapply Forall2_impl; [exact F|].
    intros rsp es Fe. symmetry. exact (Forall2_length _ _ _ Fe).
  - destruct (get_bookmarks_sequential _ _ _ _ _ _ _ _ Hn Hp H)
      as (per_page & -> & -> & F).
    fold (page_indices N) in rqs. fold rqs in F. fold pages in F.
    split; [exact (bookmark_pages_traffic _ _ _ _ Hp)|].
    split; [reflexivity|].
    split; [subst rqs; unfold page_indices;
            now rewrite !length_map, length_seq|].
    exists (fold_left add_new (concat per_page) []), per_page.
    split; [reflexivity|]. split; [exact F|].
    rewrite add_new_removals. simpl.
    apply concat_length_sum.
    eapply Forall2_impl; [exact F|].
    intros rsp ws Hw. exact (works_of_length _ _ _ _ Hw).
Qed.

(** C3 as stated fails: on a fresh session the resolver reports two
    pages and the call sends three requests, page 1 being requested
    twice (once by the resolver, once by the loader). *)
Lemma sequential_aggregation_refetches_page_1 :
  let w := mkWorld Fixtures.bob [] in
  let out := get_subscriptions two_page_site Fixtures.workid
               Fixtures.no_threads false w in
  _subscriptions (self w) = None
  /\ fst (_subscription_pages two_page_site
            (mkWorld (set_subscriptions (Some []) (self w)) (sent w))) = Ok 2
  /\ (exists l, fst out = Ok (Some l))
  /\ map req_url (sent (snd out))
     = [_subscriptions_url "bob" 1; _subscriptions_url "bob" 1;
        _subscriptions_url "bob" 2]
  /\ length (sent (snd out)) <> 2%nat.
Proof.
  intros w out.
  split; [reflexivity|]. split; [vm_compute; reflexivity|].
  split; [eexists; vm_compute; reflexivity|].
  split; [vm_compute; reflexivity|].
  vm_compute. discriminate.
Qed.

Lemma sequential_aggregation_pages_witness :
  let w := mkWorld Fixtures.bob [] in
  let out := get_subscriptions two_page_site Fixtures.workid
               Fixtures.no_threads false w in
  sent (snd out)
  = [subscriptions_request Fixtures.bob 1; subscriptions_request Fixtures.bob 1;
     subscriptions_request Fixtures.bob 2]
  /\ exists l, fst out = Ok (Some l) /\ length l = 3%nat.
Proof.
  intros w out.
  destruct (proj1 (sequential_aggregation_pages two_page_site Fixtures.workid
                     Fixtures.no_threads Fixtures.no_threads w 2
                     (snd (_subscription_pages two_page_site
                             (mkWorld (set_subscriptions (Some []) (self w))
                                      (sent w))))
                     ltac:(lia))
                  (Some [Fixtures.e_work; Fixtures.e_user; Fixtures.e_work])
                  (snd out) eq_refl eq_refl eq_refl)
    as (_ & S & _ & l & E & L).
  split; [exact S|].
  exists l. split; [now rewrite <- E|exact L].
Defined.

(** ** Deduplication and identity fields *)

Lemma fold_add_new_NoDup cands :
  forall l, List.NoDup (map work_id l) ->
            List.NoDup (map work_id (fold_left add_new cands l)).
Proof.
  induction cands as [|c cs IH]; intros l H; simpl; [exact H|].
  apply IH. now apply add_new_NoDup.
Qed.

Lemma fold_add_new_covers cands :
  forall l c, In c cands ->
              In (work_id c) (map work_id (fold_left add_new cands l)).
Proof.
  induction cands as [|x cs IH]; intros l c H; simpl; [contradiction|].
  destruct H as [->|H]; [|now apply IH].
  destruct (add_new_extends cs (add_new l c)) as (new & -> & _).
  rewrite map_app. apply in_or_app. left. apply add_new_covers.
Qed.

Lemma Forall2_prefix_Forall {A B} (P : A -> B -> Prop) (xs : list A)
      (ys : list B) (k : nat) :
  Forall2 P (take k xs) ys ->
  Forall (fun y => exists x, In x xs /\ P x y) ys.
Proof.
  intros F. remember (take k xs) as pre eqn:E.
  assert (S : forall x, In x pre -> In x xs).
  { intros x Hx. subst pre. apply list_elem_of_In.
    apply list_elem_of_In in Hx.
    apply (subseteq_take k xs x Hx). }
  clear E. induction F as [|x y pre ys Hxy _ IH]; constructor.
  - exists x. split; [apply S; simpl; auto|exact Hxy].
  - apply IH. intros z Hz. apply S. simpl. auto.
Qed.

(** C4. Bookmarks: a new work is appended only when no work already in
    the aggregate is equal to it.  A run of [_load_bookmarks], however it
    ends, has built the works of the blurbs it got through (all of them
    when it returns) and has offered each of them, in order, to that
    test: the old elements stay in place, the works added come after
    them and are among the works built, every work built is in the
    aggregate afterwards or has an equal there, the works dropped are
    exactly those that had an equal before them, and the identifiers of
    the aggregate stay pairwise distinct.  Subscriptions: a run of
    [_load_subscriptions] appends the object built from every entry it
    processes, in order, whatever the aggregate already holds.  Either
    loader stops before the end of a page that was served only because
    reading the next blurb or entry raised, with that exception. *)
Theorem bookmarks_deduplicate_subscriptions_do_not
        (server : Server) (workid_from_url : string -> option Z)
        (page : Z) (w : World) :
  (forall new l,
      _bookmarks (self w) = Some l ->
      (existsb (fun item => Work_eq item new) l = true ->
       append_bookmark new w = (Ok tt, w))
      /\ (existsb (fun item => Work_eq item new) l = false ->
          append_bookmark new w
          = (Ok tt, mkWorld (set_bookmarks (Some (l ++ [new])) (self w))
                            (sent w))))
  /\ (forall l r w',
         _bookmarks (self w) = Some l ->
         List.NoDup (map work_id l) ->
         _load_bookmarks server workid_from_url page w = (r, w') ->
         let blurbs := bookmark_blurbs
                         (content (server (sent w)
                                     (bookmarks_request (self w) page))) in
         exists cands new,
           works_of workid_from_url (take (length cands) blurbs)
                    bm_locals_init = Ok cands
           /\ (r = Ok tt -> length cands = length blurbs)
           /\ fold_left add_new cands l = l ++ new
           /\ _bookmarks (self w') = Some (l ++ new)
           /\ List.NoDup (map work_id (l ++ new))
           /\ (forall c, In c cands ->
                         In (work_id c) (map work_id (l ++ new)))
           /\ (forall x, In x new -> In x cands)
           /\ (length new + removals l cands = length cands)%nat
           /\ (status_code (server (sent w)
                               (bookmarks_request (self w) page)) <> 429 ->
               (length cands < length blurbs)%nat ->
               exists e,
                 r = Raise e
                 /\ works_of workid_from_url
                      (take (S (length cands)) blurbs) bm_locals_init
                    = Raise e))
  /\ (forall l r w',
         _subscriptions (self w) = Some l ->
         _load_subscriptions server workid_from_url page w = (r, w') ->
         let dts := subscription_dts
                      (content (server (sent w)
                                  (subscriptions_request (self w) page))) in
         exists new,
           _subscriptions (self w') = Some (l ++ new)
           /\ Forall2 (fun sub e =>
                         subscription_entry workid_from_url sub = Ok e)
                      (take (length new) dts) new
           /\ (r = Ok tt -> length new = length dts)
           /\ (status_code (server (sent w)
                               (subscriptions_request (self w) page)) <> 429 ->
               (length new < length dts)%nat ->
               exists sub e,
                 dts !! length new = Some sub
                 /\ subscription_entry workid_from_url sub = Raise e
                 /\ r = Raise e)).
Proof.
  split; [|split].
  - intros new l Hl. rewrite (append_bookmark_run new w l Hl).
    unfold add_new, with_bookmarks. split; intros ->; simpl.
    + now rewrite app_nil_r, (set_bookmarks_same _ _ Hl), world_eta.
    + now rewrite app_nil_r.
  - intros l r w' Hl Hd H blurbs.
    destruct (load_bookmarks_run _ _ _ _ _ _ _ Hl H)
      as (cands & -> & W & L & St).
    destruct (add_new_extends cands l) as (new & E & S).
    exists cands, new.
    split; [exact W|]. split; [exact L|]. split; [exact E|].
    split; [simpl; now rewrite E|].
    split; [rewrite <- E; now apply fold_add_new_NoDup|].
    split; [intros c Hc; rewrite <- E; now apply fold_add_new_covers|].
    split; [exact S|].
    split; [|exact St].
    pose proof (add_new_removals cands l) as R.
    rewrite E, length_app in R. lia.
  - intros l r w' Hl H dts.
    destruct (load_subscriptions_run _ _ _ _ _ _ _ Hl H)
      as (new & -> & F & L & St).
    exists new. simpl. auto.
Qed.

Lemma bookmarks_deduplicate_subscriptions_do_not_witness :
  let old := mkWork (Some 77) (Some "Title") [mkUser (Some "ann")] in
  let site := Fixtures.constant 200
                (Fixtures.bookmarks_page
                   [Fixtures.blurb "/works/77" "Title" "ann";
                    Fixtures.blurb "/works/78" "Other" "ann"]) in
  let w := mkWorld (set_bookmarks (Some [old]) Fixtures.bob) [] in
  let blurbs := bookmark_blurbs
                  (content (site (sent w) (bookmarks_request (self w) 2))) in
  exists cands new,
    works_of Fixtures.workid (take (length cands) blurbs) bm_locals_init
    = Ok cands
    /\ (fst (_load_bookmarks site Fixtures.workid 2 w) = Ok tt ->
        length cands = length blurbs)
    /\ fold_left add_new cands [old] = [old] ++ new
    /\ _bookmarks (self (snd (_load_bookmarks site Fixtures.workid 2 w)))
       = Some ([old] ++ new)
    /\ List.NoDup (map work_id ([old] ++ new))
    /\ (forall c, In c cands -> In (work_id c) (map work_id ([old] ++ new)))
    /\ (forall x, In x new -> In x cands)
    /\ (length new + removals [old] cands = length cands)%nat
    /\ (status_code (site (sent w) (bookmarks_request (self w) 2)) <> 429 ->
        (length cands < length blurbs)%nat ->
        exists e,
          fst (_load_bookmarks site Fixtures.workid 2 w) = Raise e
          /\ works_of Fixtures.workid (take (S (length cands)) blurbs)
                      bm_locals_init
             = Raise e).
Proof.
  intros old site w blurbs.
  apply (proj1 (proj2 (bookmarks_deduplicate_subscriptions_do_not
                         site Fixtures.workid 2 w))
               [old] (fst (_load_bookmarks site Fixtures.workid 2 w))).
  - reflexivity.
  - simpl. constructor; [simpl; tauto|constructor].
  - vm_compute. reflexivity.
Defined.

(** The scenario of the two listings: with page 2 repeating the work of
    page 1, the bookmarks aggregate holds that work once and the
    subscriptions aggregate holds it twice. *)
Example repeated_entry_across_pages :
  fst (get_bookmarks repeated_bookmark_site Fixtures.workid Fixtures.no_threads
         false (mkWorld Fixtures.bob []))
  = Ok (Some [mkWork (Some 77) (Some "Title") [mkUser (Some "ann")];
              mkWork (Some 78) (Some "Other") [mkUser (Some "ann")]])
  /\ fst (get_subscriptions two_page_site Fixtures.workid Fixtures.no_threads
            false (mkWorld Fixtures.bob []))
     = Ok (Some [Fixtures.e_work; Fixtures.e_user; Fixtures.e_work]).
Proof. split; vm_compute; reflexivity. Qed.

(** C9, as the code has it.  Of the objects a loader appends: a Series
    always has its number; a User has the string of one of the links of
    its entry as name; a Work from the subscriptions listing has as
    identifier what [workid_from_url] gives for the last works link of
    its entry, and [None] when the entry has no works link; the Works
    from a page of the bookmarks listing all have an identifier when
    [workid_from_url] gives one for every works link in the headings of
    that page. *)
Theorem listing_identity_fields
        (server : Server) (workid_from_url : string -> option Z)
        (page : Z) (w : World) :
  (forall l r w',
      _subscriptions (self w) = Some l ->
      _load_subscriptions server workid_from_url page w = (r, w') ->
      exists new,
        _subscriptions (self w') = Some (l ++ new)
        /\ Forall
             (fun e =>
                exists sub,
                  In sub (subscription_dts
                            (content (server (sent w)
                                        (subscriptions_request (self w) page))))
                  /\ subscription_entry workid_from_url sub = Ok e
                  /\ match e with
                     | ESeries s => is_Some (series_id s)
                     | EUser u =>
                         exists a, In a (Soup.find_all "a" [] sub)
                                   /\ user_username u = Soup.string_of a
                     | EWork wk =>
                         match last (List.filter is_works_link
                                       (Soup.find_all "a" [] sub)) with
                         | Some a =>
                             exists href,
                               Soup.getitem_str a "href" = Some href
                               /\ work_id wk = workid_from_url href
                         | None => work_id wk = None
                         end
                     end) new)
  /\ (forall l r w',
         _bookmarks (self w) = Some l ->
         _load_bookmarks server workid_from_url page w = (r, w') ->
         blurbs_resolve workid_from_url
           (bookmark_blurbs
              (content (server (sent w) (bookmarks_request (self w) page))))
         = true ->
         exists new,
           _bookmarks (self w') = Some (l ++ new)
           /\ Forall (fun wk => is_Some (work_id wk)) new).
Proof.
  split.
  - intros l r w' Hl H.
    destruct (load_subscriptions_run _ _ _ _ _ _ _ Hl H) as (new & -> & F & _).
    exists new. split; [reflexivity|].
    apply Forall2_prefix_Forall in F.
    eapply Forall_impl; [exact F|].
    intros e (sub & Hs & He). exists sub.
    split; [exact Hs|]. split; [exact He|].
    exact (subscription_entry_identity _ _ _ He).
  - intros l r w' Hl H R.
    destruct (load_bookmarks_run _ _ _ _ _ _ _ Hl H) as (cands & -> & W & _).
    destruct (add_new_extends cands l) as (new & E & S).
    exists new. simpl. rewrite <- E. split; [reflexivity|].
    assert (Fc : Forall (fun wk => is_Some (work_id wk)) cands).
    { assert (I0 : bm_resolved bm_locals_init)
        by (intros x Hx; discriminate Hx).
      exact (works_of_resolved _ _ _ _
               (blurbs_resolve_take _ _ _ R) I0 W). }
    apply Forall_forall. intros x Hx.
    apply (proj1 (Forall_forall _ _) Fc). apply list_elem_of_In.
    apply S. now apply list_elem_of_In.
Qed.

Lemma listing_identity_fields_witness :
  let site := Fixtures.constant 200
                (Fixtures.document
                   [Tag "dl" [("class", "subscription index group")]
                        [Fixtures.dt_work "/works/77" "Title" "ann";
                         Fixtures.dt_user "cat";
                         Fixtures.dt_series "/series/5" "Saga"];
                    Tag "ol" [("class", "bookmark index group")]
                        [Fixtures.blurb "/works/77" "Title" "ann";
                         Fixtures.blurb "/works/78" "Other" "ann"]]) in
  let w := mkWorld (set_bookmarks (Some [])
                      (set_subscriptions (Some []) Fixtures.bob)) [] in
  (exists new,
      _subscriptions (self (snd (_load_subscriptions site Fixtures.workid 1 w)))
      = Some ([] ++ new)
      /\ Forall
           (fun e =>
              exists sub,
                In sub (subscription_dts
                          (content (site (sent w)
                                      (subscriptions_request (self w) 1))))
                /\ subscription_entry Fixtures.workid sub = Ok e
                /\ match e with
                   | ESeries s => is_Some (series_id s)
                   | EUser u =>
                       exists a, In a (Soup.find_all "a" [] sub)
                                 /\ user_username u = Soup.string_of a
                   | EWork wk =>
                       match last (List.filter is_works_link
                                     (Soup.find_all "a" [] sub)) with
                       | Some a =>
                           exists href,
                             Soup.getitem_str a "href" = Some href
                             /\ work_id wk = Fixtures.workid href
                       | None => work_id wk = None
                       end
                   end) new)
  /\ (exists new,
         _bookmarks (self (snd (_load_bookmarks site Fixtures.workid 1 w)))
         = Some ([] ++ new)
         /\ Forall (fun wk => is_Some (work_id wk)) new).
Proof.
  intros site w. split.
  - apply (proj1 (listing_identity_fields site Fixtures.workid 1 w) []
                 (fst (_load_subscriptions site Fixtures.workid 1 w))).
    + reflexivity.
    + vm_compute. reflexivity.
  - apply (proj2 (listing_identity_fields site Fixtures.workid 1 w) []
                 (fst (_load_bookmarks site Fixtures.workid 1 w))).
    + reflexivity.
    + vm_compute. reflexivity.
    + vm_compute. reflexivity.
Defined.

(** C9 as stated fails: a subscription entry with no link at all is
    appended as a Work whose identifier is [None]. *)
Lemma work_without_identifier :
  let site := Fixtures.constant 200
                (Fixtures.subscriptions_page
                   [Fixtures.dt_work "/works/77" "Title" "ann";
                    Fixtures.dt_plain]) in
  exists wk,
    fst (get_subscriptions site Fixtures.workid Fixtures.no_threads false
           (mkWorld Fixtures.bob []))
    = Ok (Some [Fixtures.e_work; EWork wk])
    /\ work_id wk = None.
Proof.
  intros site. exists (mkWork None None []).
  split; [vm_compute; reflexivity|reflexivity].
Qed.

(** ** Further properties: page counts and their memo *)

(** X1. The page count is the value of the last all-digit label of the
    pagination control, not of the largest: 1 when there is no such
    label, and [ValueError] as soon as one all-digit label is not an
    integer literal. *)
Theorem page_count_is_last_label (soup pages : Node) :
  Soup.find "ol" [("title", "pagination")] soup = Some pages ->
  (page_labels pages = [] -> pagination_pages soup = Ok 1)
  /\ (forall ls t n,
         labels_parse pages = true ->
         page_labels pages = ls ++ [t] ->
         Py.int t = Some n ->
         pagination_pages soup = Ok n)
  /\ (labels_parse pages = false -> pagination_pages soup = Raise ValueError).
Proof.
  intros Hf. rewrite (pagination_pages_by_labels soup pages Hf).
  split; [|split].
  - intros E. unfold labels_parse. rewrite E. reflexivity.
  - intros ls t n P E I. rewrite P, E, last_snoc, I. reflexivity.
  - intros P. now rewrite P.
Qed.

Lemma page_count_is_last_label_witness :
  pagination_pages descending_labels_page = Ok 2.
Proof.
  apply (proj1 (proj2 (page_count_is_last_label descending_labels_page
                         (Fixtures.pagination ["Previous"; "5"; "2"; "Next"])
                         eq_refl))
               ["5"] "2" 2); reflexivity.
Defined.

(** X2. The page counts are memoized: an access that returned a value
    left it stored, so the next access returns the same value, sends
    nothing and changes nothing; an access that raised on an empty slot
    left the slot empty. *)
Theorem page_counts_memoized (server : Server) (w : World) :
  (forall n w1,
      _subscription_pages server w = (Ok n, w1) ->
      _subscription_pages server w1 = (Ok n, w1))
  /\ (forall n w1,
         _bookmark_pages server w = (Ok n, w1) ->
         _bookmark_pages server w1 = (Ok n, w1))
  /\ (forall e w1,
         cached (self w) !! "_subscription_pages" = None ->
         _subscription_pages server w = (Raise e, w1) ->
         cached (self w1) !! "_subscription_pages" = None)
  /\ (forall e w1,
         cached (self w) !! "_bookmark_pages" = None ->
         _bookmark_pages server w = (Raise e, w1) ->
         cached (self w1) !! "_bookmark_pages" = None).
Proof.
  assert (Hit : forall name body n w1,
             cached_property name body w = (Ok n, w1) ->
             cached_property name body w1 = (Ok n, w1)).
  { intros name body n w1 H.
    destruct (cached (self w) !! name) as [v|] eqn:C.
    - rewrite (cached_property_hit _ _ _ _ C) in H. inversion H; subst.
      now apply cached_property_hit.
    - rewrite (cached_property_miss _ _ _ C) in H.
      destruct (body w) as [[v|e] w2]; [|discriminate].
      inversion H; subst. apply cached_property_hit. simpl.
      apply lookup_insert_eq. }
  assert (Miss : forall name template e w1,
             cached (self w) !! name = None ->
             cached_property name
               (do s <- get_self;
                do soup <- request server (template (username s) 1);
                lift (pagination_pages soup)) w = (Raise e, w1) ->
             cached (self w1) !! name = None).
  { intros name template e w1 C H.
    rewrite (cached_property_miss _ _ _ C) in H.
    rewrite page_count_body_run in H. cbv zeta in H.
    destruct (status_code _ =? 429)%Z.
    - inversion H; subst. exact C.
    - destruct (pagination_pages _); [discriminate|].
      inversion H; subst. exact C. }
  split; [|split; [|split]].
  - intros n w1. apply Hit.
  - intros n w1. apply Hit.
  - intros e w1. apply (Miss "_subscription_pages" _subscriptions_url).
  - intros e w1. apply (Miss "_bookmark_pages" _bookmarks_url).
Qed.

Lemma page_counts_memoized_witness :
  let w1 := snd (_subscription_pages two_page_site (mkWorld Fixtures.bob [])) in
  _subscription_pages two_page_site w1 = (Ok 2, w1).
Proof.
  intros w1.
  apply (proj1 (page_counts_memoized two_page_site (mkWorld Fixtures.bob []))).
  vm_compute. reflexivity.
Defined.

(** ** Further properties: how a subscription entry is read *)

Section EntryReading.

Variable workid_from_url : string -> option Z.

Local Abbreviation sub_link := (subscription_link workid_from_url).

(** X3. Authors accumulate in document order: the Work or Series built
    from a subscription entry carries, as authors, one user per link
    whose [rel] contains ["author"], named by the string of that link,
    in the order of the links. *)
Theorem subscription_authors_in_document_order (sub : Node) (e : Entity) :
  subscription_entry workid_from_url sub = Ok e ->
  match e with
  | EWork w => work_authors w = authors_of (Soup.find_all "a" [] sub)
  | ESeries s => series_authors s = authors_of (Soup.find_all "a" [] sub)
  | EUser _ => True
  end.
Proof.
  unfold subscription_entry. intros H.
  destruct (fold_result sub_link _ sub_locals_init) as [st|] eqn:F;
    [|discriminate].
  destruct (subscription_links_summary _ _ _ _ F) as (A & _ & _).
  inversion H; subst. destruct (sub_type st); simpl; auto.
Qed.

(** X4. The kind of a subscription entry is decided by its last link
    that has no [rel] and does not point to a work: with no such link the
    entry is a Work, whose identifier is what [workid_from_url] gives for
    the last works link (None without one); if that link starts with
    ["/users"] the entry is the User named by the link, even when the
    entry also has a works link; otherwise it is the Series numbered by
    the last path segment of the link. *)
Theorem subscription_kind_by_last_link (sub : Node) (e : Entity) :
  subscription_entry workid_from_url sub = Ok e ->
  let links := Soup.find_all "a" [] sub in
  match last (List.filter is_kind_link links) with
  | None =>
      exists w,
        e = EWork w
        /\ match last (List.filter is_works_link links) with
           | Some a => exists href, Soup.getitem_str a "href" = Some href
                                    /\ work_id w = workid_from_url href
           | None => work_id w = None
           end
  | Some a =>
      exists href,
        Soup.getitem_str a "href" = Some href
        /\ if Py.startswith href "/users"
           then e = EUser (mkUser (Soup.string_of a))
           else exists s n,
               e = ESeries s /\ series_id s = Some n
               /\ Py.int (Py.last_segment "/" href) = Some n
  end.
Proof.
  intros H links. unfold subscription_entry in H. fold links in H.
  destruct (fold_result sub_link links sub_locals_init) as [st|] eqn:F;
    [|discriminate].
  destruct (subscription_links_summary _ _ _ _ F) as (_ & W & K).
  inversion H; subst; clear H.
  destruct (last (List.filter is_kind_link links)) as [a|].
  - destruct K as (href & Hh & K). exists href. split; [exact Hh|].
    destruct (Py.startswith href "/users").
    + now rewrite K.
    + destruct K as (n & -> & S & I). eauto.
  - destruct K as [T _]. simpl in T. rewrite T.
    eexists. split; [reflexivity|]. simpl. exact W.
Qed.

(** X5. Reading an entry fails only on a link it cannot read: when
    every link is readable the entry gives an object ([workid_from_url]
    being taken not to raise); otherwise the first unreadable link
    decides the exception, [KeyError] when it has neither [rel] nor
    [href] and [ValueError] when its last path segment is not an
    integer literal as [int()] reads it. *)
Theorem subscription_entry_failures (sub : Node) :
  let links := Soup.find_all "a" [] sub in
  (forallb link_ok links = true ->
   exists e, subscription_entry workid_from_url sub = Ok e)
  /\ (forall pre a post,
         links = pre ++ a :: post ->
         forallb link_ok pre = true ->
         link_ok a = false ->
         subscription_entry workid_from_url sub
         = Raise (match Soup.getitem_str a "href" with
                  | Some _ => ValueError
                  | None => KeyError
                  end)).
Proof.
  intros links.
  assert (Good : forall ls st, forallb link_ok ls = true ->
                               exists st', fold_result sub_link ls st = Ok st').
  { induction ls as [|a ls IH]; intros st H; simpl in *; [eauto|].
    apply andb_true_iff in H. destruct H as [Ha Hl].
    assert (S : exists st1, sub_link a st = Ok st1).
    { unfold link_ok in Ha. unfold subscription_link.
      destruct (Soup.has_attr a "rel") eqn:R.
      - unfold Soup.has_attr in R. unfold Soup.getitem.
        destruct (Soup.assoc "rel" (Soup.tag_attrs a)); [|discriminate].
        destruct (Soup.value_contains _ _); eauto.
      - simpl in Ha.
        destruct (Soup.getitem_str a "href") as [href|]; [|discriminate].
        destruct (Py.startswith href "/works"); [eauto|].
        destruct (Py.startswith href "/users"); [eauto|]. simpl in Ha.
        destruct (Py.int _); [eauto|discriminate]. }
    destruct S as (st1 & ->). apply IH. exact Hl. }
  split.
  - intros H. unfold subscription_entry. fold links.
    destruct (Good links sub_locals_init H) as (st & ->). eauto.
  - intros pre a post E Hp Ha. unfold subscription_entry. fold links.
    rewrite E.
    assert (Bad : forall st,
               fold_result sub_link (a :: post) st
               = Raise (match Soup.getitem_str a "href" with
                        | Some _ => ValueError
                        | None => KeyError
                        end)).
    { intros st. simpl. unfold link_ok in Ha. unfold subscription_link.
      destruct (Soup.has_attr a "rel"); [discriminate|]. simpl in Ha.
      destruct (Soup.getitem_str a "href") as [href|]; [|reflexivity].
      destruct (Py.startswith href "/works"); [discriminate|].
      destruct (Py.startswith href "/users"); [discriminate|]. simpl in Ha.
      destruct (Py.int _); [discriminate|reflexivity]. }
    assert (App : forall ls st,
               forallb link_ok ls = true ->
               fold_result sub_link (ls ++ a :: post) st
               = Raise (match Soup.getitem_str a "href" with
                        | Some _ => ValueError
                        | None => KeyError
                        end)).
    { induction ls as [|b ls IH]; intros st H; [apply Bad|].
      simpl in H. apply andb_true_iff in H. destruct H as [Hb Hl].
      destruct (Good [b] st) as (st1 & S1); [simpl; now rewrite Hb|].
      simpl in S1. simpl.
      destruct (sub_link b st) as [st2|]; [|discriminate].
      apply IH. exact Hl. }
    now rewrite (App pre sub_locals_init Hp).
Qed.

End EntryReading.

(** ** Further properties: aggregates across calls *)

Section AcrossCalls.

Variable server : Server.
Variable workid_from_url : string -> option Z.
Variable subscription_threads : Z -> M unit.
Variable bookmark_threads : Z -> M unit.

Local Abbreviation get_subs :=
  (get_subscriptions server workid_from_url subscription_threads).
Local Abbreviation get_bms :=
  (get_bookmarks server workid_from_url bookmark_threads).

(** However the page loop ends, the subscriptions field still holds a
    list. *)
Lemma subscription_pages_keep_list ps :
  forall w l r w',
    _subscriptions (self w) = Some l ->
    for_each ps (fun page => _load_subscriptions server workid_from_url
                               (page + 1)) w = (r, w') ->
    exists l', _subscriptions (self w') = Some l'.
Proof.
  induction ps as [|p ps IH]; intros w l r w' Hl H; simpl in H.
  - inversion H; subst. eauto.
  - unfold bind at 1 in H.
    destruct (_load_subscriptions server workid_from_url (p + 1) w)
      as [r1 w1] eqn:E.
    destruct (load_subscriptions_run _ _ _ _ _ _ _ Hl E) as (new & -> & _).
    destruct r1 as [[]|e].
    + eapply IH; [|exact H]. reflexivity.
    + inversion H; subst. simpl. eauto.
Qed.

(** However the page loop ends, the bookmarks field holds a list with
    pairwise distinct identifiers if it did before. *)
Lemma bookmark_pages_keep_distinct ps :
  forall w l r w',
    _bookmarks (self w) = Some l ->
    List.NoDup (map work_id l) ->
    for_each ps (fun page => _load_bookmarks server workid_from_url
                               (page + 1)) w = (r, w') ->
    exists l', _bookmarks (self w') = Some l' /\ List.NoDup (map work_id l').
Proof.
  induction ps as [|p ps IH]; intros w l r w' Hl Hd H; simpl in H.
  - inversion H; subst. eauto.
  - unfold bind at 1 in H.
    destruct (_load_bookmarks server workid_from_url (p + 1) w)
      as [r1 w1] eqn:E.
    destruct (load_bookmarks_run _ _ _ _ _ _ _ Hl E) as (cands & -> & _).
    pose proof (fold_add_new_NoDup cands l Hd) as Hd'.
    destruct r1 as [[]|e].
    + eapply IH; [| |exact H]; [reflexivity|exact Hd'].
    + inversion H; subst. simpl. eauto.
Qed.

(** X6. A sequential [get_subscriptions] on a session without a list
    always leaves a list in the session, also when it raises part-way;
    from then on every [get_subscriptions], threaded or not, returns
    that list without sending a request or changing the session, so a
    call that failed is not repeated until the cache is cleared. *)
Theorem get_subscriptions_settles (w : World) r (w1 : World) :
  _subscriptions (self w) = None ->
  get_subs false w = (r, w1) ->
  exists l,
    _subscriptions (self w1) = Some l
    /\ (forall x, r = Ok x -> x = Some l)
    /\ forall t, get_subs t w1 = (Ok (Some l), w1).
Proof.
  intros Hn H.
  assert (S : exists l, _subscriptions (self w1) = Some l
                        /\ forall x, r = Ok x -> x = Some l).
  { unfold get_subscriptions in H.
    unfold bind at 1 in H. unfold get_self at 1 in H. rewrite Hn in H.
    unfold bind at 1 in H. unfold bind at 1 in H. unfold modify at 1 in H.
    unfold bind at 1 in H.
    pose proof (subscription_pages_frame server
                  (mkWorld (set_subscriptions (Some []) (self w)) (sent w)))
      as K.
    destruct (_subscription_pages server _) as [[n|e] wr] eqn:P;
      simpl in K; inversion K as [[Ka Kt Ku Ks Kr Kb Kl]].
    - destruct (for_each (range n) _ wr) as [rl wl] eqn:F.
      destruct (subscription_pages_keep_list _ _ _ _ _ Kl F) as (l' & Hl').
      destruct rl as [[]|e].
      + unfold get_self, bind, ret in H. inversion H; subst.
        exists l'. split; [exact Hl'|]. intros x Hx.
        inversion Hx; subst. exact Hl'.
      + inversion H; subst. exists l'. split; [exact Hl'|discriminate].
    - inversion H; subst. exists []. split; [exact Kl|discriminate]. }
  destruct S as (l & Hl & Hr). exists l. split; [exact Hl|].
  split; [exact Hr|].
  intros t. now apply get_subscriptions_loaded.
Qed.

(** X7. A sequential [get_bookmarks] on a session without a list leaves,
    however it ends, a list whose identifiers are pairwise distinct, and
    that list is what it returns when it returns. *)
Theorem get_bookmarks_always_distinct (w : World) r (w1 : World) :
  _bookmarks (self w) = None ->
  get_bms false w = (r, w1) ->
  exists l,
    _bookmarks (self w1) = Some l
    /\ List.NoDup (map work_id l)
    /\ forall x, r = Ok x -> x = Some l.
Proof.
  intros Hn H.
  unfold get_bookmarks in H.
  unfold bind at 1 in H. unfold get_self at 1 in H. rewrite Hn in H.
  unfold bind at 1 in H. unfold bind at 1 in H. unfold modify at 1 in H.
  unfold bind at 1 in H.
  pose proof (bookmark_pages_frame server
                (mkWorld (set_bookmarks (Some []) (self w)) (sent w))) as K.
  destruct (_bookmark_pages server _) as [[n|e] wr] eqn:P;
    simpl in K; inversion K as [[Ka Kt Ku Ks Kr Kb Kl]].
  - destruct (for_each (range n) _ wr) as [rl wl] eqn:F.
    destruct (bookmark_pages_keep_distinct _ _ _ _ _ Kb (List.NoDup_nil _) F)
      as (l' & Hl' & Hd').
    destruct rl as [[]|e].
    + unfold get_self, bind, ret in H. inversion H; subst.
      exists l'. split; [exact Hl'|]. split; [exact Hd'|].
      intros x Hx. inversion Hx; subst. exact Hl'.
    + inversion H; subst. exists l'. split; [exact Hl'|].
      split; [exact Hd'|discriminate].
  - inversion H; subst. exists []. split; [exact Kb|].
    split; [constructor|discriminate].
Qed.

(** X8. Sequential aggregation keeps the order of the site: the
    subscriptions list returned is the objects of page 1 in document
    order, then those of page 2, and so on; the bookmarks list is that
    sequence of candidates with every work equal to an earlier one
    dropped.  The list returned is the list stored. *)
Theorem sequential_aggregate_in_page_order (w : World) (n : Z) (w1 : World) :
  (forall r w',
      _subscriptions (self w) = None ->
      _subscription_pages server
        (mkWorld (set_subscriptions (Some []) (self w)) (sent w)) = (Ok n, w1) ->
      get_subs false w = (Ok r, w') ->
      exists per_page,
        r = Some (concat per_page)
        /\ _subscriptions (self w') = r
        /\ Forall2 (fun rsp es =>
                      Forall2 (fun sub e =>
                                 subscription_entry workid_from_url sub = Ok e)
                              (subscription_dts (content rsp)) es)
                   (replay server (sent w1)
                           (map (subscriptions_request (self w))
                                (page_indices n)))
                   per_page)
  /\ (forall r w',
         _bookmarks (self w) = None ->
         _bookmark_pages server
           (mkWorld (set_bookmarks (Some []) (self w)) (sent w)) = (Ok n, w1) ->
         get_bms false w = (Ok r, w') ->
         exists per_page,
           r = Some (fold_left add_new (concat per_page) [])
           /\ _bookmarks (self w') = r
           /\ Forall2 (fun rsp ws =>
                         works_of workid_from_url
                                  (bookmark_blurbs (content rsp))
                                  bm_locals_init = Ok ws)
                      (replay server (sent w1)
                              (map (bookmarks_request (self w))
                                   (page_indices n)))
                      per_page).
Proof.
  split; intros r w' Hn Hp H.
  - destruct (get_subscriptions_sequential _ _ _ _ _ _ _ _ Hn Hp H)
      as (per_page & -> & -> & F).
    exists per_page. auto.
  - destruct (get_bookmarks_sequential _ _ _ _ _ _ _ _ Hn Hp H)
      as (per_page & -> & -> & F).
    exists per_page. auto.
Qed.

Lemma cleared_of_outside_subscriptions s1 s2 :
  outside_subscriptions s1 = outside_subscriptions s2 ->
  cleared s1 = cleared s2.
Proof.
  unfold outside_subscriptions, cleared. intros H.
  inversion H as [[Ha Ht Hu Hs Hr Hb Hc]]. now rewrite Hc.
Qed.

Lemma cleared_of_outside_bookmarks s1 s2 :
  outside_bookmarks s1 = outside_bookmarks s2 ->
  cleared s1 = cleared s2.
Proof.
  unfold outside_bookmarks, cleared. intros H.
  inversion H as [[Ha Ht Hu Hs Hr Hb Hc]].
  rewrite (delete_delete (cached s1)), (delete_delete (cached s2)), Hc.
  reflexivity.
Qed.

(** X9. [clear_cache] undoes sequential loading: the session left by a
    sequential [get_subscriptions] or [get_bookmarks] followed by
    [clear_cache] is the session [clear_cache] alone would have left,
    whether the load returned or raised; and clearing twice is clearing
    once. *)
Theorem clear_cache_undoes_loading (w : World) :
  self (snd (clear_cache (snd (get_subs false w))))
  = self (snd (clear_cache w))
  /\ self (snd (clear_cache (snd (get_bms false w))))
     = self (snd (clear_cache w))
  /\ self (snd (clear_cache (snd (clear_cache w))))
     = self (snd (clear_cache w)).
Proof.
  rewrite !clear_cache_run. simpl.
  split; [|split].
  - apply cleared_of_outside_subscriptions.
    apply (keeps_get_subscriptions server workid_from_url
             subscription_threads w).
  - apply cleared_of_outside_bookmarks.
    apply (keeps_get_bookmarks server workid_from_url bookmark_threads w).
  - unfold cleared. simpl. f_equal.
    apply map_eq. intros k. rewrite !lookup_delete.
    repeat case_decide; reflexivity.
Qed.

End AcrossCalls.

(** ** Further properties: token refresh, login, and entries without
    links *)

Lemma set_authenticity_token_back s v :
  set_authenticity_token (authenticity_token s)
                         (set_authenticity_token v s) = s.
Proof. now destruct s. Qed.

Lemma set_authenticity_token_same s :
  set_authenticity_token (authenticity_token s) s = s.
Proof. now destruct s. Qed.

(** X10. [refresh_auth_token] changes nothing in the session but the
    token, and the token only when it returns: when it raises, for
    whatever reason, the session keeps the token it had.  It sends at
    most one request. *)
Theorem refresh_changes_only_the_token (server : Server) (w : World) r
        (w' : World) :
  refresh_auth_token server w = (r, w') ->
  set_authenticity_token (authenticity_token (self w)) (self w') = self w
  /\ (forall e, r = Raise e -> self w' = self w)
  /\ (r = Ok tt -> is_Some (authenticity_token (self w')))
  /\ (sent w' = sent w \/ exists rq, sent w' = sent w ++ [rq]).
Proof.
  intros H. destruct (session (self w)) as [t|] eqn:S.
  - rewrite (refresh_auth_token_run server w t S) in H. cbv zeta in H.
    destruct (status_code _ =? 429)%Z;
      [inversion H; subst; simpl;
       repeat split; eauto using set_authenticity_token_same; discriminate|].
    destruct (Soup.find _ _ _) as [field|];
      [|inversion H; subst; simpl;
        repeat split; eauto using set_authenticity_token_same; discriminate].
    destruct (Soup.getitem_str field "value") as [v|];
      [|inversion H; subst; simpl;
        repeat split; eauto using set_authenticity_token_same; discriminate].
    inversion H; subst; simpl.
    split; [apply set_authenticity_token_back|].
    split; [discriminate|]. split; eauto.
  - unfold refresh_auth_token, bind, get_self, raise in H. simpl in H.
    rewrite S in H. inversion H; subst.
    repeat split; eauto using set_authenticity_token_same; discriminate.
Qed.

Lemma refresh_changes_only_the_token_witness :
  self (snd (refresh_auth_token (Fixtures.constant 200 Fixtures.blank_page)
               (mkWorld Fixtures.bob [])))
  = Fixtures.bob.
Proof.
  apply (proj1 (proj2 (refresh_changes_only_the_token
                         (Fixtures.constant 200 Fixtures.blank_page)
                         (mkWorld Fixtures.bob [])
                         (Raise UnexpectedResponseError)
                         (snd (refresh_auth_token
                                 (Fixtures.constant 200 Fixtures.blank_page)
                                 (mkWorld Fixtures.bob [])))
                         ltac:(vm_compute; reflexivity)))
               UnexpectedResponseError eq_refl).
Defined.

(** X11. The constructor sends the credentials only once it holds a
    token: when the login page is rate limited, has no token field, or
    has a token field without a value, it raises after the one GET, no
    POST is sent, and the exception is not [LoginError]. *)
Theorem login_sends_credentials_only_with_token
        (server : Server) (name password : string) (net : list Request) :
  let rsp1 := server net login_page_request in
  let out := Session_new server name password net in
  status_code rsp1 = 429
  \/ Soup.find "input" [("name", "authenticity_token")] (content rsp1) = None
  \/ (exists field,
         Soup.find "input" [("name", "authenticity_token")] (content rsp1)
         = Some field
         /\ Soup.getitem_str field "value" = None) ->
  snd out = net ++ [login_page_request]
  /\ exists e, fst out = Raise e /\ e <> LoginError.
Proof.
  intros rsp1 out H. unfold out. rewrite Session_new_run. cbv zeta.
  fold rsp1.
  destruct (status_code rsp1 =? 429)%Z eqn:E.
  - simpl. split; [reflexivity|]. eexists. split; [reflexivity|discriminate].
  - apply Z.eqb_neq in E.
    destruct H as [H|[H|(field & Hf & Hv)]]; [contradiction| |].
    + rewrite H. simpl. split; [reflexivity|].
      eexists. split; [reflexivity|discriminate].
    + rewrite Hf, Hv. simpl. split; [reflexivity|].
      eexists. split; [reflexivity|discriminate].
Qed.

Lemma login_sends_credentials_only_with_token_witness :
  snd (Session_new (Fixtures.constant 200 Fixtures.blank_page) "bob" "secret" [])
  = [] ++ [login_page_request].
Proof.
  apply (login_sends_credentials_only_with_token
           (Fixtures.constant 200 Fixtures.blank_page) "bob" "secret" []).
  right. left. vm_compute. reflexivity.
Defined.

Section LinklessBlurbs.

Variable workid_from_url : string -> option Z.

Local Abbreviation bm_link := (bookmark_link workid_from_url).

Lemma bookmark_links_without_work links :
  existsb is_works_link links = false ->
  forall st st',
    fold_result bm_link links st = Ok st' ->
    bm_workid st' = bm_workid st /\ bm_workname st' = bm_workname st.
Proof.
  induction links as [|a links IH]; intros N st st' H; simpl in H.
  - inversion H; subst. auto.
  - simpl in N. apply orb_false_iff in N. destruct N as [Na Nl].
    destruct (bm_link a st) as [st1|] eqn:E; [|discriminate].
    destruct (IH Nl st1 st' H) as [-> ->].
    unfold bookmark_link in E. unfold is_works_link in Na.
    destruct (Soup.has_attr a "rel").
    + destruct (Soup.getitem a "rel") as [rel|]; [|discriminate].
      destruct (Soup.value_contains "author" rel);
        inversion E; subst; auto.
    + simpl in Na.
      destruct (Soup.getitem_str a "href") as [href|]; [|discriminate].
      rewrite Na in E. inversion E; subst. auto.
Qed.

Lemma bookmark_links_readable links :
  forallb is_readable_link links = true ->
  forall st, exists st', fold_result bm_link links st = Ok st'.
Proof.
  induction links as [|a links IH]; intros R st; simpl; [eauto|].
  simpl in R. apply andb_true_iff in R. destruct R as [Ra Rl].
  assert (S : exists st1, bm_link a st = Ok st1).
  { unfold is_readable_link in Ra. unfold bookmark_link.
    destruct (Soup.has_attr a "rel") eqn:R.
    - unfold Soup.has_attr in R. unfold Soup.getitem.
      destruct (Soup.assoc "rel" (Soup.tag_attrs a)); [|discriminate].
      destruct (Soup.value_contains _ _); eauto.
    - simpl in Ra.
      destruct (Soup.getitem_str a "href") as [href|]; [|discriminate].
      destruct (Py.startswith href "/works"); eauto. }
  destruct S as (st1 & ->). apply IH. exact Rl.
Qed.

(** X12. A bookmark blurb whose heading has no works link never adds a
    work: as the first blurb of a page it raises [UnboundLocalError]
    (the loop variables have no value yet); after another blurb it
    builds a work with the identifier of that blurb, which the
    membership test then drops. *)
Theorem bookmark_without_works_link (bookm h4 : Node) :
  Soup.find "h4" [] bookm = Some h4 ->
  existsb is_works_link (Soup.find_all "a" [] h4) = false ->
  (forallb is_readable_link (Soup.find_all "a" [] h4) = true ->
   bookmark_entry workid_from_url bookm bm_locals_init
   = Raise UnboundLocalError)
  /\ (forall before st0 new1 st1 new2 st2 l,
         bookmark_entry workid_from_url before st0 = Ok (new1, st1) ->
         bookmark_entry workid_from_url bookm st1 = Ok (new2, st2) ->
         work_id new2 = work_id new1
         /\ work_title new2 = work_title new1
         /\ add_new (add_new l new1) new2 = add_new l new1).
Proof.
  intros Hh N. split.
  - intros R. unfold bookmark_entry. rewrite Hh.
    destruct (bookmark_links_readable _ R (mkBmLocals None None []))
      as (st' & F).
    simpl. rewrite F.
    destruct (bookmark_links_without_work _ N _ _ F) as [W _].
    simpl in W. now rewrite W.
  - intros before st0 new1 st1 new2 st2 l H1 H2.
    assert (B : bm_workid st1 = Some (work_id new1)
                /\ bm_workname st1 = Some (work_title new1)).
    { unfold bookmark_entry in H1.
      destruct (Soup.find "h4" [] before); [|discriminate].
      destruct (fold_result bm_link _ _) as [st|]; [|discriminate].
      destruct (bm_workid st) eqn:W; [|discriminate].
      destruct (bm_workname st) eqn:T; [|discriminate].
      inversion H1; subst. auto. }
    destruct B as [B1 B2].
    unfold bookmark_entry in H2. rewrite Hh in H2.
    destruct (fold_result bm_link _ _) as [st|] eqn:F; [|discriminate].
    destruct (bookmark_links_without_work _ N _ _ F) as [W T].
    simpl in W, T. rewrite W, T, B1, B2 in H2.
    inversion H2; subst. simpl.
    split; [reflexivity|]. split; [reflexivity|].
    unfold add_new at 1.
    assert (E : existsb
                  (fun item =>
                     Work_eq item
                       (mkWork (work_id new1) (work_title new1) (bm_authors st2)))
                  (add_new l new1) = true).
    { pose proof (add_new_covers l new1) as C.
      apply in_map_iff in C. destruct C as (x & Ex & Hx).
      apply existsb_exists. exists x. split; [exact Hx|].
      unfold Work_eq. simpl. now apply bool_decide_eq_true. }
    now rewrite E.
Qed.

End LinklessBlurbs.

(** ** Further properties: the bookmark total *)

Lemma chars_str l : Py.chars (Py.str l) = l.
Proof. apply list_ascii_of_string_of_list_ascii. Qed.

Lemma str_chars s : Py.str (Py.chars s) = s.
Proof. apply string_of_list_ascii_of_string. Qed.

Lemma replace_char_drops old s :
  Py.chars (Str.replace_char old "" s)
  = List.filter (fun c => negb (Ascii.eqb c old)) (Py.chars s).
Proof.
  unfold Str.replace_char. rewrite chars_str.
  induction (Py.chars s) as [|c l IH]; [reflexivity|].
  cbn [flat_map List.filter]. rewrite IH.
  destruct (Ascii.eqb c old); reflexivity.
Qed.

Lemma split_go_field sep cur f :
  Forall (fun c => Ascii.eqb c sep = false) f ->
  (Str.split_go sep cur f = [Py.str (cur ++ f)])
  /\ forall rest,
      Str.split_go sep cur (f ++ sep :: rest)
      = Py.str (cur ++ f) :: Str.split_go sep [] rest.
Proof.
  intros F. revert cur. induction F as [|c f Hc _ IH]; intros cur; simpl.
  - rewrite app_nil_r. split; [reflexivity|].
    intros rest. now rewrite Ascii.eqb_refl.
  - rewrite Hc. destruct (IH (cur ++ [c])) as [I1 I2].
    rewrite <- app_assoc in I1, I2. simpl in I1, I2. split; [exact I1|].
    intros rest. apply I2.
Qed.

(** X13. The bookmark total is read from the second space-separated
    word of the heading once parentheses are dropped, commas being
    ignored: a heading without a space raises [IndexError], a page
    without the [inner] block or the [current] heading raises
    [AttributeError], and a second word that is not an integer once its
    commas are gone raises [ValueError]. *)
Theorem bookmarks_total_reading (soup : Node) :
  (Soup.find "div" [("id", "inner")] soup = None ->
   bookmarks_total soup = Raised AttributeError)
  /\ (forall div,
         Soup.find "div" [("id", "inner")] soup = Some div ->
         Soup.find "span" [("class", "current")] div = None ->
         bookmarks_total soup = Raised AttributeError)
  /\ (forall div current,
         Soup.find "div" [("id", "inner")] soup = Some div ->
         Soup.find "span" [("class", "current")] div = Some current ->
         (no_space (heading_chars current) ->
          bookmarks_total soup = RaisedIndexError)
         /\ (forall first second tail,
                heading_chars current = first ++ " "%char :: second ++ tail ->
                no_space first -> no_space second ->
                tail = [] \/ (exists t, tail = " "%char :: t) ->
                bookmarks_total soup
                = match Py.int (str_format (Py.str second)) with
                  | Some v => Returned v
                  | None => Raised ValueError
                  end)).
Proof.
  split; [|split].
  - intros H. unfold bookmarks_total. now rewrite H.
  - intros div Hd Hs. unfold bookmarks_total. now rewrite Hd, Hs.
  - intros div current Hd Hs.
    assert (E : bookmarks_total soup
                = match nth_error (Str.split_go " " [] (heading_chars current)) 1
                  with
                  | None => RaisedIndexError
                  | Some n =>
                      match Py.int (str_format n) with
                      | Some v => Returned v
                      | None => Raised ValueError
                      end
                  end).
    { unfold bookmarks_total. rewrite Hd, Hs. cbv zeta.
      unfold Str.split. rewrite !replace_char_drops. reflexivity. }
    rewrite E. clear E. split.
    + intros N. now rewrite (proj1 (split_go_field " " [] _ N)).
    + intros first second tail Hc N1 N2 T. rewrite Hc.
      rewrite (proj2 (split_go_field " " [] first N1)).
      destruct T as [->|(t & ->)].
      * rewrite app_nil_r.
        now rewrite (proj1 (split_go_field " " [] second N2)).
      * now rewrite (proj2 (split_go_field " " [] second N2)).
Qed.

Lemma bookmarks_total_reading_witness :
  bookmarks_total
    (Fixtures.document
       [Tag "div" [("id", "inner")]
            [Tag "span" [("class", "current")]
                 [NavigableString "Bookmarks (1,234)"]]])
  = Returned 1234.
Proof.
  pose (current := Tag "span" [("class", "current")]
                       [NavigableString "Bookmarks (1,234)"]).
  apply (proj2 (proj2 (proj2 (bookmarks_total_reading
                                (Fixtures.document
                                   [Tag "div" [("id", "inner")] [current]])))
                      (Tag "div" [("id", "inner")] [current]) current
                      eq_refl eq_refl)
               (Py.chars "Bookmarks") (Py.chars "1,234") []).
  - reflexivity.
  - repeat constructor.
  - repeat constructor.
  - left. reflexivity.
Defined.

(** X14. The bookmark total is memoized like the page counts: an access
    that returned a value is answered from the memo afterwards, with no
    request; a rate-limited access raises the rate-limit error and
    stores nothing. *)
Theorem bookmarks_memoized (server : Server) (w : World) :
  (forall v w1,
      bookmarks server w = (Returned v, w1) ->
      bookmarks server w1 = (Returned v, w1))
  /\ (cached (self w) !! "bookmarks" = None ->
      status_code (server (sent w)
                     (first_page_request _bookmarks_url (self w))) = 429 ->
      bookmarks server w
      = (Raised HTTPError,
         mkWorld (self w)
                 (sent w ++ [first_page_request _bookmarks_url (self w)]))).
Proof.
  split.
  - intros v w1 H. unfold bookmarks in H.
    destruct (cached (self w) !! "bookmarks") as [v0|] eqn:C.
    + inversion H; subst. unfold bookmarks. now rewrite C.
    + destruct (request server _ w) as [[soup|e] w2]; [|discriminate].
      destruct (bookmarks_total soup); try discriminate.
      inversion H; subst. unfold bookmarks. simpl.
      now rewrite lookup_insert_eq.
  - intros C S. unfold bookmarks. rewrite C.
    unfold request, bind. rewrite get_run. cbv zeta.
    fold (first_page_request _bookmarks_url (self w)).
    rewrite S. reflexivity.
Qed.

Lemma bookmarks_memoized_witness :
  let w1 := snd (bookmarks heading_site (mkWorld Fixtures.bob [])) in
  bookmarks heading_site w1 = (Returned 1234, w1).
Proof.
  intros w1.
  apply (proj1 (bookmarks_memoized heading_site (mkWorld Fixtures.bob []))).
  vm_compute. reflexivity.
Defined.

(** ** Further properties: the work search *)

Section SearchProperties.

Variable server : Server.
Variable Constraint : Type.
Variable Constraint_str : Constraint -> string.
Variable Query_string : Query -> string.

Local Abbreviation the_query := (search_query Constraint Constraint_str).
Local Abbreviation the_search :=
  (search server Constraint Constraint_str Query_string).

Lemma filter_fields_add base q text :
  Py.startswith text "work_search[" = true ->
  filter_fields_after base q ->
  filter_fields_after base (add_field text q).
Proof.
  intros P (rest & E & F). exists (rest ++ [text]). split.
  - unfold add_field. simpl. now rewrite E, app_assoc.
  - apply Forall_app. split; [exact F|]. now constructor.
Qed.

(** X15. [search] builds its query in a fixed shape: a [page=] field
    first, present exactly when the page is not 1, then only
    [work_search[...]] fields; with every filter at its default there is
    no such field.  The [single_chapter] argument has no effect at all,
    and a non-empty [url] argument is requested as it is, whatever the
    filters.  The request is sent outside any session. *)
Theorem search_request_shape (a : SearchArgs Constraint) (net : list Request) :
  filter_fields_after (page_field (arg_page a)) (the_query a)
  /\ (no_filter a -> fields (the_query a) = page_field (arg_page a))
  /\ (forall v, the_search (with_single_chapter v a) net = the_search a net)
  /\ (arg_url a <> "" ->
      snd (the_search a net) = net ++ [mkRequest GET (arg_url a) [] true None])
  /\ (arg_url a = "" ->
      snd (the_search a net)
      = net ++ [mkRequest GET
                  ("https://archiveofourown.org/works/search?"
                   +:+ Query_string (the_query a)) [] true None]).
Proof.
  split; [|split; [|split; [|split]]].
  - unfold search_query.
    assert (T : forall key text base q,
               (forall t, Py.startswith (key +:+ "=" +:+ t) "work_search["
                          = true) ->
               filter_fields_after base q ->
               filter_fields_after base (add_text key text q)).
    { intros key text base q P Q. unfold add_text.
      destruct (String.eqb text ""); [exact Q|].
      apply filter_fields_add; [apply P|exact Q]. }
    assert (C : forall key c base q,
               (forall t, Py.startswith (key +:+ "=" +:+ t) "work_search["
                          = true) ->
               filter_fields_after base q ->
               filter_fields_after base
                 (add_constraint Constraint Constraint_str key c q)).
    { intros key c base q P Q. unfold add_constraint.
      destruct c as [v|]; [|exact Q].
      apply filter_fields_add; [apply P|exact Q]. }
    cbv zeta.
    assert (B : filter_fields_after (page_field (arg_page a))
                  (if negb (arg_page a =? 1)%Z
                   then add_field ("page=" +:+ pretty (arg_page a)) Query_new
                   else Query_new)).
    { unfold page_field. exists [].
      destruct (arg_page a =? 1)%Z; simpl; split; auto. }
    destruct (arg_completion_status a) as [status|];
      [apply filter_fields_add; [now destruct status|]|];
      repeat first [apply C; [intros t; reflexivity|]
                   | apply T; [intros t; reflexivity|]];
      exact B.
  - intros (H1 & H2 & H3 & H4 & H5 & H6 & H7 & H8 & H9 & H10).
    unfold search_query, page_field.
    rewrite H1, H2, H3, H4, H5, H6, H7, H8, H9, H10. simpl.
    now destruct (arg_page a =? 1)%Z.
  - intros v. reflexivity.
  - intros U. unfold search, search_url. simpl.
    apply String.eqb_neq in U. now rewrite U.
  - intros U. unfold search, search_url. simpl.
    rewrite U. reflexivity.
Qed.

End SearchProperties.

(** ** Further properties: decimal numbers in labels and links *)

Lemma pretty_N_char_digit y :
  (y < 10)%N ->
  Py.is_decimal (pretty_N_char y) = true
  /\ Py.digit_value (pretty_N_char y) = Z.of_N y.
Proof.
  intros H. destruct y as [|p]; [split; reflexivity|].
  do 4 (try destruct p as [p|p|]); try lia; split; reflexivity.
Qed.

Lemma is_decimal_isdigit c : Py.is_decimal c = true -> Py.char_isdigit c = true.
Proof. unfold Py.char_isdigit. now intros ->. Qed.

(** The digits [pretty] writes for a positive number are read back as
    that number. *)
Lemma pretty_N_go_value (x : N) :
  (0 < x)%N ->
  forall s b,
    (exists c l, Py.chars (pretty_N_go x s) = c :: l ++ Py.chars s
                 /\ Forall (fun d => Py.is_decimal d = true) (c :: l))
    /\ Py.literal_value 0 b (Py.chars (pretty_N_go x s))
       = Py.literal_value (Z.of_N x) true (Py.chars s).
Proof.
  induction (N.lt_wf_0 x) as [x _ IH]. intros Hx s b.
  rewrite pretty_N_go_step by exact Hx.
  destruct (pretty_N_char_digit (x `mod` 10)%N) as [D V];
    [now apply N.mod_lt|].
  destruct (N.eq_dec (x `div` 10)%N 0%N) as [Z0|NZ].
  - rewrite Z0, pretty_N_go_0.
    assert (Ex : (x `mod` 10 = x)%N).
    { apply N.mod_small. apply N.div_small_iff in Z0; lia. }
    split.
    + exists (pretty_N_char (x `mod` 10)%N), []. simpl. auto.
    + change (Py.chars (String (pretty_N_char (x `mod` 10)%N) s))
        with (pretty_N_char (x `mod` 10)%N :: Py.chars s).
      simpl. rewrite D, V, Ex. f_equal.
  - assert (Hlt : (x `div` 10 < x)%N) by (apply N.div_lt; lia).
    assert (Hpos : (0 < x `div` 10)%N) by (apply N.neq_0_lt_0; exact NZ).
    destruct (IH _ Hlt Hpos (String (pretty_N_char (x `mod` 10)%N) s) b)
      as [(c & l & E & F) L].
    split.
    + exists c, (l ++ [pretty_N_char (x `mod` 10)%N]).
      rewrite E. simpl. rewrite <- app_assoc. split; [reflexivity|].
      rewrite app_comm_cons. apply Forall_app. split; [exact F|].
      now constructor.
    + rewrite L.
      change (Py.chars (String (pretty_N_char (x `mod` 10)%N) s))
        with (pretty_N_char (x `mod` 10)%N :: Py.chars s).
      simpl. rewrite D, V. f_equal.
      rewrite (N.div_mod x 10) at 3 by lia. lia.
Qed.

(** Writing a number that is at least 0 in decimal and reading it back
    with [int] gives the number; what is written is all digits. *)
Lemma int_pretty (n : Z) :
  0 <= n ->
  Py.int (pretty n) = Some n
  /\ Py.isdigit (pretty n) = true
  /\ Forall (fun d => Py.is_decimal d = true) (Py.chars (pretty n)).
Proof.
  intros Hn. destruct n as [|p|p]; [| |lia].
  - split; [reflexivity|]. split; [reflexivity|]. repeat constructor.
  - change (pretty (Z.pos p)) with (pretty_N_go (N.pos p) "").
    destruct (pretty_N_go_value (N.pos p) ltac:(lia) "" false)
      as [(c & l & E & F) L].
    simpl in E. rewrite app_nil_r in E.
    assert (Fd : Forall (fun d => Py.char_isdigit d = true) (c :: l)).
    { eapply Forall_impl; [exact F|]. intros d. apply is_decimal_isdigit. }
    split; [|split].
    + unfold Py.int. rewrite E, strip_no_space.
      * inversion Fd as [|? ? Hc _]; subst.
        destruct (char_isdigit_not_sign c Hc) as [-> ->].
        rewrite <- E, L. reflexivity.
      * eapply Forall_impl; [exact Fd|]. intros d. apply char_isdigit_not_space.
    + unfold Py.isdigit. rewrite E.
      apply forallb_forall. intros d Hd.
      apply (proj1 (Forall_forall _ _) Fd). now apply list_elem_of_In.
    + now rewrite E.
Qed.

Lemma last_segment_after sep pre t :
  Forall (fun c => Ascii.eqb c sep = false) (Py.chars t) ->
  Py.last_segment sep (pre +:+ String sep t) = t.
Proof.
  intros F. unfold Py.last_segment.
  assert (C : Py.chars (pre +:+ String sep t)
              = Py.chars pre ++ sep :: Py.chars t).
  { induction pre as [|c pre IH]; simpl; [reflexivity|]. now rewrite IH. }
  rewrite C, fold_left_app. simpl. rewrite Ascii.eqb_refl.
  assert (G : forall l,
             Forall (fun c => Ascii.eqb c sep = false) l ->
             forall cur,
               fold_left
                 (fun cur c => if Ascii.eqb c sep then [] else cur ++ [c])
                 l cur = cur ++ l).
  { intros l Fl. induction Fl as [|c l Hc _ IH]; intros cur; simpl.
    { now rewrite app_nil_r. }
    rewrite Hc, IH, <- app_assoc. reflexivity. }
  rewrite (G _ F). simpl. apply str_chars.
Qed.

Lemma decimal_not_slash c : Py.is_decimal c = true -> Ascii.eqb c "/" = false.
Proof.
  destruct c as [[] [] [] [] [] [] [] []]; vm_compute; congruence.
Qed.

(** X16. Page numbers as the site writes them: when the all-digit
    labels of the pagination control are the decimal numbers 1 to [N],
    in that order, the page count is [N]. *)
Theorem page_count_of_numbered_labels (soup pages : Node) (N : Z) :
  Soup.find "ol" [("title", "pagination")] soup = Some pages ->
  1 <= N ->
  page_labels pages = map pretty (page_indices N) ->
  pagination_pages soup = Ok N.
Proof.
  intros Hf HN Hl.
  assert (Parse : labels_parse pages = true).
  { unfold labels_parse. rewrite Hl. apply forallb_forall.
    intros t Ht. apply in_map_iff in Ht. destruct Ht as (i & <- & Hi).
    unfold page_indices in Hi. apply in_map_iff in Hi.
    destruct Hi as (k & <- & _).
    assert (Hk : 0 <= Z.of_nat k) by apply Nat2Z.is_nonneg.
    now rewrite (proj1 (int_pretty (Z.of_nat k) Hk)). }
  assert (Last : page_labels pages
                 = map pretty (page_indices (N - 1)) ++ [pretty N]).
  { rewrite Hl. unfold page_indices.
    replace (Z.to_nat N) with (S (Z.to_nat (N - 1))) by lia.
    rewrite seq_S, !map_app.
    change (map pretty (map Z.of_nat [(1 + Z.to_nat (N - 1))%nat]))
      with [pretty (Z.of_nat (1 + Z.to_nat (N - 1)))].
    replace (Z.of_nat (1 + Z.to_nat (N - 1))) with N by lia.
    reflexivity. }
  rewrite (pagination_pages_by_labels soup pages Hf), Parse, Last, last_snoc.
  assert (H0 : 0 <= N) by lia.
  now rewrite (proj1 (int_pretty N H0)).
Qed.

(** X17. Series numbers as the site writes them: when the deciding link
    of a subscription entry points to [<path>/<n>] with [n] written in
    decimal, and not to a user, the entry is the Series numbered [n]. *)
Theorem series_link_number (workid_from_url : string -> option Z)
        (sub : Node) (e : Entity) (a : Node) (path : string) (n : Z) :
  subscription_entry workid_from_url sub = Ok e ->
  last (List.filter is_kind_link (Soup.find_all "a" [] sub)) = Some a ->
  Soup.getitem_str a "href" = Some (path +:+ "/" +:+ pretty n) ->
  Py.startswith (path +:+ "/" +:+ pretty n) "/users" = false ->
  0 <= n ->
  exists s, e = ESeries s /\ series_id s = Some n.
Proof.
  intros H La Hh Hu Hn. unfold subscription_entry in H.
  destruct (fold_result _ _ sub_locals_init) as [st|] eqn:F; [|discriminate].
  destruct (subscription_links_summary _ _ _ _ F) as (_ & _ & K).
  rewrite La in K. destruct K as (href & Hh' & K).
  rewrite Hh in Hh'. inversion Hh'; subst href. rewrite Hu in K.
  destruct K as (m & T & S & I).
  change (path +:+ "/" +:+ pretty n) with (path +:+ String "/" (pretty n)) in I.
  rewrite last_segment_after in I.
  - rewrite (proj1 (int_pretty n Hn)) in I. inversion I; subst m.
    inversion H; subst. rewrite T. eexists. split; [reflexivity|exact S].
  - eapply Forall_impl; [exact (proj2 (proj2 (int_pretty n Hn)))|].
    intros c. apply decimal_not_slash.
Qed.

Lemma series_link_number_witness :
  exists s,
    ESeries (mkSeries (Some 5) (Some "Saga") []) = ESeries s
    /\ series_id s = Some 5.
Proof.
  apply (series_link_number Fixtures.workid
           (Fixtures.dt_series "/series/5" "Saga")
           (ESeries (mkSeries (Some 5) (Some "Saga") []))
           (Fixtures.series_link "/series/5" "Saga") "/series" 5).
  - reflexivity.
  - reflexivity.
  - reflexivity.
  - reflexivity.
  - lia.
Defined.

Lemma page_count_of_numbered_labels_witness :
  pagination_pages
    (Fixtures.document [Fixtures.pagination ["Previous"; "1"; "2"; "3"; "Next"]])
  = Ok 3.
Proof.
  apply (page_count_of_numbered_labels
           (Fixtures.document
              [Fixtures.pagination ["Previous"; "1"; "2"; "3"; "Next"]])
           (Fixtures.pagination ["Previous"; "1"; "2"; "3"; "Next"]) 3).
  - reflexivity.
  - lia.
  - vm_compute. reflexivity.
Defined.

Lemma subscription_authors_in_document_order_witness :
  work_authors (mkWork (Some 77) (Some "Title") [mkUser (Some "ann")])
  = authors_of (Soup.find_all "a" []
                  (Fixtures.dt_work "/works/77" "Title" "ann")).
Proof.
  apply (subscription_authors_in_document_order Fixtures.workid
           (Fixtures.dt_work "/works/77" "Title" "ann") Fixtures.e_work).
  reflexivity.
Defined.

Lemma subscription_kind_by_last_link_witness :
  exists href,
    Soup.getitem_str (Fixtures.user_link "cat") "href" = Some href
    /\ if Py.startswith href "/users"
       then EUser (mkUser (Some "cat"))
            = EUser (mkUser (Soup.string_of (Fixtures.user_link "cat")))
       else exists s n,
           EUser (mkUser (Some "cat")) = ESeries s /\ series_id s = Some n
           /\ Py.int (Py.last_segment "/" href) = Some n.
Proof.
  apply (subscription_kind_by_last_link Fixtures.workid dt_work_then_user
           (EUser (mkUser (Some "cat")))).
  reflexivity.
Defined.

Lemma subscription_entry_failures_witness :
  subscription_entry Fixtures.workid dt_bare_link = Raise KeyError.
Proof.
  apply (proj2 (subscription_entry_failures Fixtures.workid dt_bare_link)
               [Fixtures.work_link "/works/77" "Title"]
               (Tag "a" [("name", "top")] [NavigableString "top"]) []);
    reflexivity.
Defined.

Lemma get_subscriptions_settles_witness :
  let w1 := snd (get_subscriptions limited_after_page_1 Fixtures.workid
                   Fixtures.no_threads false (mkWorld Fixtures.bob [])) in
  exists l,
    _subscriptions (self w1) = Some l
    /\ (forall x, @Raise (option (list Entity)) HTTPError = Ok x -> x = Some l)
    /\ forall t,
        get_subscriptions limited_after_page_1 Fixtures.workid
          Fixtures.no_threads t w1 = (Ok (Some l), w1).
Proof.
  intros w1.
  apply (get_subscriptions_settles limited_after_page_1 Fixtures.workid
           Fixtures.no_threads (mkWorld Fixtures.bob [])).
  - reflexivity.
  - vm_compute. reflexivity.
Defined.

Lemma get_bookmarks_always_distinct_witness :
  let out := get_bookmarks repeated_bookmark_site Fixtures.workid
               Fixtures.no_threads false (mkWorld Fixtures.bob []) in
  exists l,
    _bookmarks (self (snd out)) = Some l
    /\ List.NoDup (map work_id l)
    /\ forall x, fst out = Ok x -> x = Some l.
Proof.
  intros out.
  apply (get_bookmarks_always_distinct repeated_bookmark_site Fixtures.workid
           Fixtures.no_threads (mkWorld Fixtures.bob [])).
  - reflexivity.
  - vm_compute. reflexivity.
Defined.

Lemma sequential_aggregate_in_page_order_witness :
  let w := mkWorld Fixtures.bob [] in
  let w1 := snd (_subscription_pages two_page_site
                   (mkWorld (set_subscriptions (Some []) (self w)) (sent w))) in
  exists per_page,
    Some [Fixtures.e_work; Fixtures.e_user; Fixtures.e_work]
    = Some (concat per_page)
    /\ _subscriptions
         (self (snd (get_subscriptions two_page_site Fixtures.workid
                       Fixtures.no_threads false w)))
       = Some [Fixtures.e_work; Fixtures.e_user; Fixtures.e_work]
    /\ Forall2 (fun rsp es =>
                  Forall2 (fun sub e =>
                             subscription_entry Fixtures.workid sub = Ok e)
                          (subscription_dts (content rsp)) es)
               (replay two_page_site (sent w1)
                       (map (subscriptions_request (self w)) (page_indices 2)))
               per_page.
Proof.
  intros w w1.
  apply (proj1 (sequential_aggregate_in_page_order two_page_site
                  Fixtures.workid Fixtures.no_threads Fixtures.no_threads
                  w 2 w1)).
  - reflexivity.
  - vm_compute. reflexivity.
  - vm_compute. reflexivity.
Defined.

Lemma bookmark_without_works_link_witness :
  bookmark_entry Fixtures.workid blurb_without_work bm_locals_init
  = Raise UnboundLocalError.
Proof.
  apply (proj1 (bookmark_without_works_link Fixtures.workid
                  blurb_without_work
                  (Tag "h4" [("class", "heading")] [Fixtures.author_link "ann"])
                  eq_refl eq_refl)).
  reflexivity.
Defined.

Lemma search_request_shape_witness :
  snd (search (Fixtures.constant 200 Fixtures.blank_page) string id
         (fun q => Py.join "&" (fields q)) title_search [])
  = [] ++ [mkRequest GET
             ("https://archiveofourown.org/works/search?"
              +:+ Py.join "&" (fields (search_query string id title_search)))
             [] true None].
Proof.
  apply (search_request_shape (Fixtures.constant 200 Fixtures.blank_page)
           string id (fun q => Py.join "&" (fields q)) title_search []).
  reflexivity.
Defined.

